(** * RevitResolutionTools: the parsing and problem-detection pipeline

    A shallow embedding of [src/revit_warnings_manager/parsers.py]
    (classes [HTMLParser], [JournalParser], [WorkerLogParser] and
    [JournalProblemFinder]) together with the properties of it that the
    specification states.

    Text is modelled as [string]: a sequence of 8-bit characters read as the
    code points U+0000..U+00FF (what the [latin-1] candidate encoding
    produces).  On that range Python's character classes are finite tables,
    written out in [Py]. *)

From Stdlib Require Import String Ascii List NArith ZArith Lia Bool DecimalString Sorted.
Import ListNotations.
Open Scope string_scope.

(* ================================================================== *)
(** * Python [str] operations used by the parsers *)
(* ================================================================== *)

Module Py.

Definition code (c : ascii) : N := N_of_ascii c.

Definition in_range (lo hi : N) (c : ascii) : bool :=
  ((lo <=? code c) && (code c <=? hi))%N.

(** [\d] on a [str] pattern: the decimal digits (category Nd); below U+0100
    these are [0-9]. *)
Definition isdigit (c : ascii) : bool := in_range 48 57 c.

(** [str.isspace], which is also [\s] and what [str.strip()] removes:
    TAB LF VT FF CR, FS GS RS US, SPACE, NEL and NBSP. *)
Definition isspace (c : ascii) : bool :=
  in_range 9 13 c || in_range 28 32 c || (code c =? 133)%N || (code c =? 160)%N.

(** [\w]: alphanumeric characters and the underscore.  Below U+0100 the
    alphanumerics are the ASCII letters and digits, the ordinal indicators,
    the micro sign, the superscript digits, the vulgar fractions and the
    accented letters (all of U+00C0..U+00FF but the two operators). *)
Definition isword (c : ascii) : bool :=
  isdigit c || in_range 65 90 c || in_range 97 122 c || (code c =? 95)%N
  || (code c =? 170)%N || (code c =? 178)%N || (code c =? 179)%N
  || (code c =? 181)%N || (code c =? 185)%N || (code c =? 186)%N
  || in_range 188 190 c
  || in_range 192 214 c || in_range 216 246 c || in_range 248 255 c.

(** [str.lower] on one character: the ASCII capitals and the accented
    capitals U+00C0..U+00DE (but the multiplication sign) move up by 32. *)
Definition lower_char (c : ascii) : ascii :=
  if in_range 65 90 c || in_range 192 214 c || in_range 216 222 c
  then ascii_of_N (code c + 32) else c.

Fixpoint lower (s : string) : string :=
  match s with
  | EmptyString => EmptyString
  | String c s' => String (lower_char c) (lower s')
  end.

(** [s.startswith(p)] *)
Definition startswith (s p : string) : bool := String.prefix p s.

(** [sub in s] *)
Fixpoint contains (sub s : string) : bool :=
  String.prefix sub s ||
  match s with
  | EmptyString => false
  | String _ s' => contains sub s'
  end.

Fixpoint lstrip (s : string) : string :=
  match s with
  | EmptyString => EmptyString
  | String c s' => if isspace c then lstrip s' else s
  end.

Fixpoint rstrip (s : string) : string :=
  match s with
  | EmptyString => EmptyString
  | String c s' =>
      match rstrip s' with
      | EmptyString => if isspace c then EmptyString else String c EmptyString
      | r => String c r
      end
  end.

(** [s.strip()] *)
Definition strip (s : string) : string := rstrip (lstrip s).

(** [s[:n]] *)
Definition take (n : nat) (s : string) : string := String.substring 0 n s.

(** [s[n:]] *)
Fixpoint drop (n : nat) (s : string) : string :=
  match n, s with
  | O, _ => s
  | S n', String _ s' => drop n' s'
  | S _, EmptyString => EmptyString
  end.

(** [s.split(sep, maxsplit)] for a one-character separator: at most
    [maxsplit] cuts, made from the left; what is left over is the last part.
    Adjacent separators delimit empty parts. *)
Fixpoint split_char (sep : ascii) (maxsplit : nat) (s : string) : list string :=
  match maxsplit with
  | O => [s]
  | S m =>
      match s with
      | EmptyString => [EmptyString]
      | String c s' =>
          if Ascii.eqb c sep then EmptyString :: split_char sep m s'
          else match split_char sep maxsplit s' with
               | p :: ps => String c p :: ps
               | [] => [String c EmptyString]
               end
      end
  end.

(** [s.split(sep)] for a non-empty separator string, no bound.  The fuel
    argument is the number of characters still to be scanned. *)
Fixpoint split_str_aux (fuel : nat) (sep s : string) (cur : string) : list string :=
  match fuel with
  | O => [cur ++ s]
  | S f =>
      if String.prefix sep s
      then cur :: split_str_aux f sep (drop (String.length sep) s) EmptyString
      else match s with
           | EmptyString => [cur]
           | String c s' => split_str_aux f sep s' (cur ++ String c EmptyString)
           end
  end.

Definition split_str (sep s : string) : list string :=
  split_str_aux (S (String.length s)) sep s EmptyString.

(** The line boundaries of [str.splitlines()] below U+0100:
    LF VT FF CR, FS GS RS and NEL; CR LF counts once. *)
Definition is_linebreak (c : ascii) : bool :=
  in_range 10 13 c || in_range 28 30 c || (code c =? 133)%N.

Fixpoint splitlines_aux (s : string) (cur : string) : list string :=
  match s with
  | EmptyString => if String.eqb cur EmptyString then [] else [cur]
  | String c s' =>
      if is_linebreak c then
        match s' with
        | String c' s'' =>
            if ((code c =? 13) && (code c' =? 10))%N
            then cur :: splitlines_aux s'' EmptyString
            else cur :: splitlines_aux s' EmptyString
        | EmptyString => [cur]
        end
      else splitlines_aux s' (cur ++ String c EmptyString)
  end.

(** [s.splitlines()] *)
Definition splitlines (s : string) : list string := splitlines_aux s EmptyString.

(** The number a string of ASCII digits denotes. *)
Fixpoint int_digits (acc : N) (s : string) : N :=
  match s with
  | EmptyString => acc
  | String c s' => int_digits (10 * acc + (code c - 48))%N s'
  end.

(** [sys.int_info.str_digits_check_threshold] and
    [sys.int_info.default_max_str_digits] *)
Definition str_digits_check_threshold : nat := 640.
Definition default_max_str_digits : nat := 4300.

(** The test [int] makes before it converts a decimal string: a string of more
    digits than the threshold, and than the limit when there is one
    ([max_str_digits] is [sys.get_int_max_str_digits()], 0 for no limit), is
    refused.  Leading zeros count as digits. *)
Definition exceeds_max_str_digits (max_str_digits : nat) (s : string) : bool :=
  Nat.ltb str_digits_check_threshold (String.length s)
  && Nat.ltb 0 max_str_digits
  && Nat.ltb max_str_digits (String.length s).

(** [int(s)] on a string of ASCII digits; [None] when it raises
    [ValueError]. *)
Definition int (max_str_digits : nat) (s : string) : option Z :=
  if exceeds_max_str_digits max_str_digits s then None
  else Some (Z.of_N (int_digits 0 s)).

(** [c * n] for a one-character string [c]. *)
Fixpoint repeat_char (c : ascii) (n : nat) : string :=
  match n with
  | O => EmptyString
  | S n' => String c (repeat_char c n')
  end.

(** [str(n)] / [f"{n}"] for a non-negative integer. *)
Definition str_of_int (n : Z) : string :=
  NilZero.string_of_uint (N.to_uint (Z.to_N n)).

(** Truthiness of a [str]. *)
Definition truthy (s : string) : bool := negb (String.eqb s EmptyString).

(** A [dict] with [str] keys and values, in insertion order. *)
Definition dict := list (string * string).

Fixpoint dict_get (k : string) (d : dict) : option string :=
  match d with
  | [] => None
  | (k', v) :: d' => if String.eqb k k' then Some v else dict_get k d'
  end.

(** [k in d] *)
Definition dict_has (k : string) (d : dict) : bool :=
  match dict_get k d with Some _ => true | None => false end.

(** [d[k] = v]: an existing key keeps its place. *)
Fixpoint dict_set (k v : string) (d : dict) : dict :=
  match d with
  | [] => [(k, v)]
  | (k', v') :: d' =>
      if String.eqb k k' then (k, v) :: d' else (k', v') :: dict_set k v d'
  end.

End Py.

(* ================================================================== *)
(** * Regular expressions: a backtracking matcher in the order of [re] *)
(* ================================================================== *)

Module Re.

(** The fragment of the pattern language the source uses.  [Star true] is the
    greedy [*], [Star false] the lazy [*?]; [Bol] is [^]. *)
Inductive regex : Type :=
| Eps
| Bol
| Chr (p : ascii -> bool)
| Seq (r1 r2 : regex)
| Alt (r1 r2 : regex)
| Star (greedy : bool) (r : regex)
| Group (n : nat) (r : regex).

(** A position of the matcher: how many characters lie behind it, what is
    still ahead, and the groups closed so far (latest first). *)
Record mstate : Type := MState {
  pos : nat;
  rest : string;
  caps : list (nat * string)
}.

(** The iterations of a starred expression whose one iteration is [once]:
    greedy tries one more iteration before stopping, lazy stops first.  An
    iteration that consumes nothing is not repeated, so the length of the
    text ahead bounds the number of iterations. *)
Fixpoint star_loop (once : mstate -> list mstate) (greedy : bool)
    (fuel : nat) (st : mstate) {struct fuel} : list mstate :=
  match fuel with
  | O => [st]
  | S fuel' =>
      let more :=
        flat_map
          (fun st' =>
             if Nat.ltb (String.length (rest st')) (String.length (rest st))
             then star_loop once greedy fuel' st' else [])
          (once st) in
      if greedy then (more ++ [st])%list else st :: more
  end.

(** All the ways [r] matches at a position, in the order in which a
    backtracking matcher tries them: the first is the one [re] reports. *)
Fixpoint run (r : regex) (st : mstate) : list mstate :=
  match r with
  | Eps => [st]
  | Bol => if Nat.eqb (pos st) 0 then [st] else []
  | Chr p =>
      match rest st with
      | String c s' => if p c then [MState (S (pos st)) s' (caps st)] else []
      | EmptyString => []
      end
  | Seq r1 r2 => flat_map (run r2) (run r1 st)
  | Alt r1 r2 => (run r1 st ++ run r2 st)%list
  | Star greedy r1 => star_loop (run r1) greedy (String.length (rest st)) st
  | Group n r1 =>
      map (fun st' =>
             MState (pos st') (rest st')
                    ((n, Py.take (pos st' - pos st) (rest st)) :: caps st'))
          (run r1 st)
  end.

(** A match object: [group(0)] and the numbered groups. *)
Record match_obj : Type := Match {
  group0 : string;
  groups : list (nat * string)
}.

Fixpoint assoc (n : nat) (l : list (nat * string)) : option string :=
  match l with
  | [] => None
  | (k, v) :: l' => if Nat.eqb k n then Some v else assoc n l'
  end.

(** [m.group(n)] for [n >= 1]; a group that took no part is [None]. *)
Definition group (n : nat) (m : match_obj) : option string := assoc n (groups m).

Definition match_at (r : regex) (p : nat) (s : string) : option match_obj :=
  match run r (MState p s []) with
  | st :: _ => Some (Match (Py.take (pos st - p) s) (caps st))
  | [] => None
  end.

(** [re.match(r, s)] *)
Definition re_match (r : regex) (s : string) : option match_obj := match_at r 0 s.

(** [re.search(r, s)]: the match at the leftmost position that has one. *)
Fixpoint search_from (r : regex) (p : nat) (s : string) : option match_obj :=
  match match_at r p s with
  | Some m => Some m
  | None =>
      match s with
      | EmptyString => None
      | String _ s' => search_from r (S p) s'
      end
  end.

Definition search (r : regex) (s : string) : option match_obj := search_from r 0 s.

(** [re.findall(r, s)] for a pattern with exactly one group: the texts of
    group 1 of the successive non-overlapping matches, left to right. *)
Fixpoint findall_aux (fuel : nat) (r : regex) (p : nat) (s : string) : list string :=
  match fuel with
  | O => []
  | S f =>
      match match_at r p s with
      | Some m =>
          let g := match group 1 m with Some t => t | None => EmptyString end in
          let n := String.length (group0 m) in
          match n, s with
          | O, EmptyString => [g]
          | O, String _ s' => g :: findall_aux f r (S p) s'
          | _, _ => g :: findall_aux f r (p + n) (Py.drop n s)
          end
      | None =>
          match s with
          | EmptyString => []
          | String _ s' => findall_aux f r (S p) s'
          end
      end
  end.

Definition findall (r : regex) (s : string) : list string :=
  findall_aux (S (String.length s)) r 0 s.

(** ** Pattern syntax *)

Definition chr (c : ascii) : regex := Chr (Ascii.eqb c).
(** a literal character under [re.IGNORECASE] *)
Definition chr_i (c : ascii) : regex :=
  Chr (fun x => Ascii.eqb (Py.lower_char x) (Py.lower_char c)).
Definition digit : regex := Chr Py.isdigit.          (* \d *)
Definition word : regex := Chr Py.isword.            (* \w *)
Definition space : regex := Chr Py.isspace.          (* \s *)
Definition dot : regex :=                            (* .  *)
  Chr (fun x => negb (Py.code x =? 10)%N).
Definition notc (c : ascii) : regex :=               (* [^c] *)
  Chr (fun x => negb (Ascii.eqb x c)).
Definition plus (r : regex) : regex := Seq r (Star true r).   (* r+ *)
Definition star (r : regex) : regex := Star true r.           (* r* *)
Definition lazy_star (r : regex) : regex := Star false r.     (* r*? *)

Fixpoint times (n : nat) (r : regex) : regex :=               (* r{n} *)
  match n with
  | O => Eps
  | S n' => Seq r (times n' r)
  end.

Fixpoint lit (s : string) : regex :=
  match s with
  | EmptyString => Eps
  | String c s' => Seq (chr c) (lit s')
  end.

Fixpoint lit_i (s : string) : regex :=
  match s with
  | EmptyString => Eps
  | String c s' => Seq (chr_i c) (lit_i s')
  end.

Fixpoint seqs (rs : list regex) : regex :=
  match rs with
  | [] => Eps
  | r :: rs' => Seq r (seqs rs')
  end.

(** ** Measures of a pattern *)

(** A match moves forward over a piece of the text ahead: [st'] is reached
    from [st] by consuming [pre]. *)
Definition advances (st st' : mstate) (pre : string) : Prop :=
  rest st = pre ++ rest st' /\ pos st' = pos st + String.length pre.

(** The least number of characters a match of [r] consumes. *)
Fixpoint min_len (r : regex) : nat :=
  match r with
  | Eps | Bol => 0
  | Chr _ => 1
  | Seq r1 r2 => min_len r1 + min_len r2
  | Alt r1 r2 => Nat.min (min_len r1) (min_len r2)
  | Star _ _ => 0
  | Group _ r1 => min_len r1
  end.

(** Whether a pattern has a capturing group. *)
Fixpoint has_group (r : regex) : bool :=
  match r with
  | Eps | Bol | Chr _ => false
  | Seq r1 r2 | Alt r1 r2 => has_group r1 || has_group r2
  | Star _ r1 => has_group r1
  | Group _ _ => true
  end.

End Re.

(** The double quote character, and the one-character string of it. *)
Definition dquote : ascii := ascii_of_N 34.
Definition dq : string := String dquote EmptyString.

(** [m.group(1)], [m.group(2)] of a match whose groups all took part. *)
Definition g1 (m : Re.match_obj) : string :=
  match Re.group 1 m with Some t => t | None => EmptyString end.
Definition g2 (m : Re.match_obj) : string :=
  match Re.group 2 m with Some t => t | None => EmptyString end.

(* ================================================================== *)
(** * class JournalParser *)
(* ================================================================== *)

Module JournalParser.
Import Re.

(** ** The patterns of the source ([<q>] stands for the double quote) *)

(** [\d+-\w+-\d+ \d+:\d+:\d+\.\d+] *)
Definition timestamp_re : regex :=
  seqs [plus digit; chr "-"; plus word; chr "-"; plus digit; chr " ";
        plus digit; chr ":"; plus digit; chr ":"; plus digit; chr ".";
        plus digit].

(** [Jrn\.Command\s+<q>([^<q>]+)<q>\s*,\s*<q>([^<q>]+)<q>] *)
Definition command_re : regex :=
  seqs [lit "Jrn.Command"; plus space;
        chr dquote; Group 1 (plus (notc dquote)); chr dquote;
        star space; chr ","; star space;
        chr dquote; Group 2 (plus (notc dquote)); chr dquote].

(** [(\d+\.\d+)!!!] *)
Definition gap_re : regex :=
  seqs [Group 1 (seqs [plus digit; chr "."; plus digit]); lit "!!!"].

(** [Path = <q>([^<q>]+\.rvt)<q>] *)
Definition path_re : regex :=
  seqs [lit "Path = "; chr dquote;
        Group 1 (seqs [plus (notc dquote); lit ".rvt"]); chr dquote].

(** [Region = <q>([^<q>]+)<q>] *)
Definition region_re : regex :=
  seqs [lit "Region = "; chr dquote; Group 1 (plus (notc dquote)); chr dquote].

(** [Central server = <q>(G)<q>], the group [G] being [[^<q>]] starred *)
Definition server_re : regex :=
  seqs [lit "Central server = "; chr dquote; Group 1 (star (notc dquote)); chr dquote].

(** [Is server path = (\w+)] *)
Definition server_path_re : regex :=
  seqs [lit "Is server path = "; Group 1 (plus word)].

(** [User's Name ([^,]+),] *)
Definition user_re : regex :=
  seqs [lit "User's Name "; Group 1 (plus (notc ",")); chr ","].

(** [Username\s*,\s*<q>([^<q>]+)<q>] *)
Definition username_re : regex :=
  seqs [lit "Username"; star space; chr ","; star space;
        chr dquote; Group 1 (plus (notc dquote)); chr dquote].

(** [[0-9A-Fa-f]] *)
Definition hexdigit : regex :=
  Chr (fun c => Py.in_range 48 57 c || Py.in_range 65 70 c || Py.in_range 97 102 c).

(** [\(this=(0x[0-9A-Fa-f]+)\)] *)
Definition handle_re : regex :=
  seqs [lit "(this="; Group 1 (seqs [lit "0x"; plus hexdigit]); chr ")"].

(** ** Data *)

Inductive Category : Type :=
| Control | Header | Event | Command | Journal | Comment | Unknown
| BigGap | Error | Performance | Model.

(** The string the source stores for a category. *)
Definition category_name (c : Category) : string :=
  match c with
  | Control => "Control" | Header => "Header" | Event => "Event"
  | Command => "Command" | Journal => "Journal" | Comment => "Comment"
  | Unknown => "Unknown" | BigGap => "BIG GAP" | Error => "Error"
  | Performance => "Performance" | Model => "Model"
  end.

Definition category_eqb (a b : Category) : bool :=
  String.eqb (category_name a) (category_name b).

(** An entry of [parse_journal]; [model_info] is the key that only entries
    of model lines carry. *)
Record entry : Type := Entry {
  category : Category;
  content : string;
  timestamp : string;
  command : string;
  model_info : option Py.dict
}.

(** The local variables of the loop of [parse_journal]. *)
Record locals : Type := Locals {
  parsed_data : list entry;
  last_timestamp : string;
  models_info : list Py.dict;
  current_model_info : Py.dict;
  current_command : string
}.

Definition init : locals := Locals [] "" [] [] "".

(** The first [if]/[elif] chain: the category by prefix, and the command
    label, which only a [Jrn.Command] line with both quoted parts renews. *)
Definition prefix_category (line current_command : string) : Category * string :=
  if Py.startswith line "'C" then (Control, current_command)
  else if Py.startswith line "'H" then (Header, current_command)
  else if Py.startswith line "'E" then (Event, current_command)
  else if Py.startswith line "Jrn.Command" then
    (Command,
     match search command_re line with
     | Some command_match => g1 command_match ++ ": " ++ g2 command_match
     | None => current_command
     end)
  else if Py.startswith line "Jrn." then (Journal, current_command)
  else if Py.startswith line "'" then (Comment, current_command)
  else (Unknown, current_command).

(** The category by content (the second chain), over the prefix category. *)
Definition content_category (line : string) (category : Category) : Category :=
  if Py.contains "BIG_GAP" line || Py.contains "!!!BIG_GAP" line then BigGap
  else if Py.contains "Unrecoverable error" line then Error
  else if Py.contains "exception" (Py.lower line) then Error
  else if Py.contains "API_ERROR" line then Error
  else if Py.contains "Error posted" line then Error
  else if Py.contains "RAM Statistics" line || Py.contains "VM Statistics" line
       then Performance
  else if Py.contains "Delta VM" line || Py.contains "Delta RAM" line
       then Performance
  else category.

(** ** Files, exceptions and outcomes *)

(** What the [try] block can raise while the file is opened and read. *)
Inductive exn : Type :=
| UnicodeDecodeError (msg : string)
| OtherException (msg : string).

Definition exn_str (e : exn) : string :=
  match e with UnicodeDecodeError m => m | OtherException m => m end.

(** Opening and reading the file under one encoding: all its lines, or the
    exception raised on the way. *)
Inductive attempt : Type :=
| ReadOk (lines : list string)
| ReadFail (e : exn).

(** A file, as the parsers see it: the outcome of reading it, per encoding. *)
Definition file := string -> attempt.

Definition encodings : list string := ["utf-8"; "latin-1"; "cp1252"; "iso-8859-1"].

(** A call of [ErrorHandler.show_error]: title and message. *)
Definition dialog : Type := string * string.

Definition newline : string := String (ascii_of_N 10) EmptyString.

(** How a call ends: a value, or an exception raised [from] a cause. *)
Inductive outcome (A : Type) : Type :=
| Return (a : A)
| Raise (exc_type msg : string) (cause : exn).
Arguments Return {A} a.
Arguments Raise {A} exc_type msg cause.

Section Parse.

(** [urllib.parse.unquote], a function of the Python library. *)
Variable unquote : string -> string.

(** The fields of a [ModelPath Created] line, as [current_model_info]. *)
Definition extract_model_info (timestamp line : string) : Py.dict :=
  let cmi := [("timestamp", timestamp)] in
  let cmi := match search path_re line with
             | Some m => Py.dict_set "path" (unquote (g1 m)) cmi
             | None => cmi
             end in
  let cmi := match search region_re line with
             | Some m => Py.dict_set "region" (g1 m) cmi
             | None => cmi
             end in
  let cmi := match search server_re line with
             | Some m => Py.dict_set "server" (g1 m) cmi
             | None => cmi
             end in
  match search server_path_re line with
  | Some m =>
      Py.dict_set "is_server_path"
        (if String.eqb (Py.lower (g1 m)) "true" then "True" else "False") cmi
  | None => cmi
  end.

(** The rewriting of a BIG GAP line from which a gap time can be read. *)
Definition annotate_gap (line : string) : string :=
  if Py.contains "BIG_GAP" line || Py.contains "!!!BIG_GAP" line then
    match search gap_re line with
    | Some gap_match => "BIG GAP: " ++ g1 gap_match ++ " seconds - " ++ line
    | None => line
    end
  else line.

(** [for model in models_info: if "username" not in model: ...] *)
Definition add_username (username : string) (models_info : list Py.dict)
  : list Py.dict :=
  map (fun model =>
         if Py.dict_has "username" model then model
         else Py.dict_set "username" username model)
      models_info.

(** One turn of the loop [for line in file] of [parse_journal]. *)
Definition step (st : locals) (raw : string) : locals :=
  let line := Py.strip raw in
  (* timestamp, with forward fill *)
  let m := search timestamp_re line in
  let timestamp := match m with Some m => group0 m | None => last_timestamp st end in
  let last_timestamp := match m with Some m => group0 m | None => last_timestamp st end in
  (* primary category, and the command label *)
  let '(category, current_command) := prefix_category line (current_command st) in
  (* special categories; a BIG GAP line is rewritten *)
  let category := content_category line category in
  let line := annotate_gap line in
  (* model information *)
  let is_model_line :=
    Py.contains "ModelPath Created" line && Py.contains "Path = " line
    && Py.contains ".rvt" line in
  let current_model_info :=
    if is_model_line then extract_model_info timestamp line
    else current_model_info st in
  let recorded := is_model_line && Py.dict_has "path" current_model_info in
  let models_info :=
    if recorded then (models_info st ++ [current_model_info])%list
    else models_info st in
  let category := if recorded then Model else category in
  (* user name *)
  let models_info :=
    if Py.contains "User's Name " line then
      match search user_re line with
      | Some um => add_username (g1 um) models_info
      | None => models_info
      end
    else models_info in
  let entry :=
    Entry category line timestamp
          (if category_eqb category Command then current_command else "")
          (if category_eqb category Model
             && negb (Nat.eqb (List.length current_model_info) 0)
           then Some current_model_info else None) in
  Locals (parsed_data st ++ [entry])%list
         last_timestamp
         models_info
         current_model_info
         (if category_eqb category Command then "" else current_command).

(** The loop over the lines of a file that was read to its end. *)
Definition run_lines (lines : list string) : locals := fold_left step lines init.

Definition parse_lines (lines : list string) : list entry :=
  parsed_data (run_lines lines).

(** ** [parse_journal_with_models] *)

(** An element of the list under the key [lines]. *)
Record journal_line : Type := JournalLine {
  l_timestamp : option string;
  l_category : Category;
  l_content : string;
  l_model : string
}.

(** The dictionary [parse_journal_with_models] returns. *)
Record journal_document : Type := JournalDocument {
  doc_header : Py.dict;
  doc_models : list string;
  doc_lines : list journal_line
}.

(** The local variables of its loop. *)
Record mlocals : Type := MLocals {
  models : list string;
  model_handles : Py.dict;
  categorized_lines : list journal_line;
  header_info : Py.dict;
  current_model : string
}.

Definition minit : mlocals := MLocals [] [] [] [] "All models".

(** [line.split(key)[1].strip()], reached only when [key in line]. *)
Definition after_key (key line : string) : string :=
  Py.strip (nth 1 (Py.split_str key line) "").

Definition header_step (header_info : Py.dict) (line : string) : Py.dict :=
  if Py.contains "Build:" line then
    Py.dict_set "build" (after_key "Build:" line) header_info
  else if Py.contains "Branch:" line then
    Py.dict_set "branch" (after_key "Branch:" line) header_info
  else if Py.contains "Release:" line then
    Py.dict_set "release" (after_key "Release:" line) header_info
  else if Py.contains "Username" line then
    match search username_re line with
    | Some user_match => Py.dict_set "username" (g1 user_match) header_info
    | None => Py.dict_set "username" "Unknown" header_info
    end
  else header_info.

Definition prefix_category_m (line : string) : Category :=
  if Py.startswith line "'C" then Control
  else if Py.startswith line "'H" then Header
  else if Py.startswith line "'E" then Event
  else if Py.startswith line "Jrn.Command" then Command
  else if Py.startswith line "Jrn." then Journal
  else if Py.startswith line "'" then Comment
  else Unknown.

Definition content_category_m (line : string) (category : Category) : Category :=
  if Py.contains "BIG_GAP" line || Py.contains "!!!BIG_GAP" line then BigGap
  else if Py.contains "Unrecoverable error" line then Error
  else if Py.contains "exception" (Py.lower line) then Error
  else if Py.contains "API_ERROR" line then Error
  else if Py.contains "Error posted" line then Error
  else if Py.contains "RAM Statistics" line || Py.contains "VM Statistics" line
       then Performance
  else if Py.contains "Delta VM" line || Py.contains "Delta RAM" line
       then Performance
  else if Py.contains "ModelPath Created" line then Model
  else category.

(** One turn of the loop [for line in lines]. *)
Definition mstep (st : mlocals) (raw : string) : mlocals :=
  let line := Py.strip raw in
  let header_info := header_step (header_info st) line in
  let model_match :=
    if Py.contains "ModelPath Created" line then search path_re line else None in
  let models :=
    match model_match with
    | Some m => (models st ++ [unquote (g1 m)])%list
    | None => models st
    end in
  let current_model :=
    match model_match with
    | Some m => unquote (g1 m)
    | None => current_model st
    end in
  let model_handles :=
    match search handle_re line with
    | Some handle_match => Py.dict_set (g1 handle_match) current_model (model_handles st)
    | None => model_handles st
    end in
  let timestamp_match := search timestamp_re line in
  let category := content_category_m line (prefix_category_m line) in
  MLocals models model_handles
          (categorized_lines st ++
             [JournalLine
                (match timestamp_match with Some m => Some (group0 m) | None => None end)
                category line current_model])%list
          header_info current_model.

Definition document_of (lines : list string) : journal_document :=
  let st := fold_left mstep lines minit in
  JournalDocument (header_info st) ("All models" :: models st) (categorized_lines st).

(** ** Reading the file under the candidate encodings *)

(** The loop [for encoding in encodings] of [parse_journal]: the data
    returned from inside the loop, or [last_exception] when the loop is left
    ([continue] on a decoding error, [break] on any other). *)
Fixpoint parse_journal_loop (f : file) (encodings : list string)
    (last_exception : option exn) : list entry + option exn :=
  match encodings with
  | [] => inr last_exception
  | encoding :: encodings' =>
      match f encoding with
      | ReadOk lines => inl (parse_lines lines)
      | ReadFail (UnicodeDecodeError m) =>
          parse_journal_loop f encodings' (Some (UnicodeDecodeError m))
      | ReadFail (OtherException m) => inr (Some (OtherException m))
      end
  end.

(** [JournalParser.parse_journal]: the list returned and the error shown. *)
Definition parse_journal (f : file) : list entry * list dialog :=
  match parse_journal_loop f encodings None with
  | inl parsed_data => (parsed_data, [])
  | inr (Some last_exception) =>
      ([], [("Journal Parsing Error",
             "Failed to parse journal file:" ++ newline ++ exn_str last_exception)])
  | inr None =>
      ([], [("Journal Parsing Error",
             "Failed to parse journal file with any encoding")])
  end.

(** [JournalParser.parse_journal_with_models]; falling off the end of the
    function is [Return None]. *)
Fixpoint parse_journal_with_models_loop (f : file) (encodings : list string)
    (last_exception : option exn) : outcome (option journal_document) :=
  match encodings with
  | [] =>
      match last_exception with
      | Some e => Raise "RuntimeError" "Failed to parse journal file" e
      | None => Return None
      end
  | encoding :: encodings' =>
      match f encoding with
      | ReadOk lines => Return (Some (document_of lines))
      | ReadFail e => parse_journal_with_models_loop f encodings' (Some e)
      end
  end.

Definition parse_journal_with_models (f : file) : outcome (option journal_document) :=
  parse_journal_with_models_loop f encodings None.

End Parse.

End JournalParser.

(* ================================================================== *)
(** * class HTMLParser *)
(* ================================================================== *)

Module HTMLParser.
Import Re.

(** [id (\d+)] *)
Definition id_re : regex := seqs [lit "id "; Group 1 (plus digit)].

(** A [td] cell as BeautifulSoup presents it: [get_text(strip=True)], and the
    [stripped_strings] of the cell parsed again on its own. *)
Record cell : Type := Cell {
  get_text : string;
  stripped_strings : list string
}.

(** A [tr] row: [row.find_all('td')]. *)
Definition row : Type := list cell.

(** [soup.find('table')] and, of a table, [table.find_all('tr')]. *)
Inductive soup : Type :=
| NoTable
| Table (rows : list row).

Record warning : Type := Warning {
  index : nat;
  message : string;
  elements : list string;
  ids : list string;
  status : string;
  created_date : string;
  modified_date : string
}.

Section Parse.

(** [datetime.now().isoformat()]: what the k-th reading of the clock gives. *)
Variable now : nat -> string.

(** The loop [for i, row in enumerate(rows[1:], 1)]; [i] is the counter of
    [enumerate] and [clock] the number of readings taken so far. *)
Fixpoint parse_rows (i : nat) (rows : list row) (clock : nat)
    (warnings : list warning) : list warning :=
  match rows with
  | [] => warnings
  | cells :: rows' =>
      match cells with
      | [c0; c1] =>
          let error_message := get_text c0 in
          let elements := map Py.strip (stripped_strings c1) in
          let ids := flat_map (findall id_re) elements in
          let warning :=
            Warning i error_message elements ids "Open"
                    (now clock) (now (S clock)) in
          parse_rows (S i) rows' (S (S clock)) (warnings ++ [warning])%list
      | _ => parse_rows (S i) rows' clock warnings
      end
  end.

(** [HTMLParser.parse]: the list returned and the error shown. *)
Definition parse (bs4_available : bool) (html : soup)
  : list warning * list JournalParser.dialog :=
  if negb bs4_available then
    ([], [("Error",
           "BeautifulSoup4 is not available." ++ JournalParser.newline
           ++ JournalParser.newline ++ "Install it using:" ++ JournalParser.newline
           ++ "pip install beautifulsoup4")])
  else
    match html with
    | NoTable =>
        ([], [("Parsing Error", "Could not find a <table> in the HTML content.")])
    | Table rows => (parse_rows 1 (tl rows) 0 [], [])
    end.

End Parse.

End HTMLParser.

(* ================================================================== *)
(** * class WorkerLogParser *)
(* ================================================================== *)

Module WorkerLogParser.

Record entry : Type := Entry {
  timestamp : string;
  level : string;
  message : string
}.

(** The worker log on disk: absent, unreadable, or its lines. *)
Inductive log_file : Type :=
| Missing
| Unreadable
| Lines (lines : list string).

(** The body of the loop [for line in lines]. *)
Definition step (entries : list entry) (line : string) : list entry :=
  match Py.split_char " " 2 (Py.strip line) with
  | [timestamp; level; message] => (entries ++ [Entry timestamp level message])%list
  | _ => entries
  end.

(** [WorkerLogParser.parse_worker_log]: [None], or the list under the key
    [entries] of the dictionary returned. *)
Definition parse_worker_log (f : log_file) : option (list entry) :=
  match f with
  | Missing => None
  | Unreadable => None
  | Lines lines => Some (fold_left step lines [])
  end.

End WorkerLogParser.

(* ================================================================== *)
(** * class JournalProblemFinder *)
(* ================================================================== *)

Module JournalProblemFinder.
Import Re.

(** [self]: the two thresholds given to [__init__]. *)
Record finder : Type := Finder {
  time_threshold_sec : Z;
  ram_spike_mb : Z
}.

(** [JournalProblemFinder()] *)
Definition default : finder := Finder 10 500.

(** [self.patterns] *)

(** [error|exception|fail|cannot], ignoring case *)
Definition ERROR : regex :=
  Alt (lit_i "error") (Alt (lit_i "exception") (Alt (lit_i "fail") (lit_i "cannot"))).

Definition API_WARNING : regex := lit "API_WARNING".

(** [slightly off axis], ignoring case *)
Definition PERFORMANCE : regex := lit_i "slightly off axis".

(** [RAM:.*?Used \+(\d+) MB] *)
Definition RESOURCE_SPIKE : regex :=
  seqs [lit "RAM:"; lazy_star dot; lit "Used +"; Group 1 (plus digit); lit " MB"].

(** [^'C (\d{2}-\w{3}-\d{4} \d{2}:\d{2}:\d{2}\.\d{3});\s*(.STAR)], [.STAR]
    being the starred dot *)
Definition TIMESTAMP : regex :=
  seqs [Bol; lit "'C ";
        Group 1 (seqs [times 2 digit; chr "-"; times 3 word; chr "-"; times 4 digit;
                       chr " "; times 2 digit; chr ":"; times 2 digit; chr ":";
                       times 2 digit; chr "."; times 3 digit]);
        chr ";"; star space; Group 2 (star dot)].

Record problem : Type := Problem {
  timestamp : string;
  type : string;
  source : string;
  description : string
}.

(** [last_timestamp or "Unknown"] *)
Definition or_unknown (last_timestamp : option string) : string :=
  match last_timestamp with
  | Some t => if Py.truthy t then t else "Unknown"
  | None => "Unknown"
  end.

(** [line[:n] + ("..." if len(line) > n else "")] *)
Definition truncated (n : nat) (line : string) : string :=
  Py.take n line ++ (if Nat.ltb n (String.length line) then "..." else "").

Section Find.

(** [sys.get_int_max_str_digits()], which [int] reads. *)
Variable max_str_digits : nat.

Variable self : finder.

(** The first three checks of a turn, given the timestamp in force for the
    line: the problems they add. *)
Definition pattern_problems (last_timestamp : option string) (line : string)
  : list problem :=
  ((match search ERROR line with
    | Some _ => [Problem (or_unknown last_timestamp) "Error" "Journal"
                         (truncated 150 line)]
    | None => []
    end)
   ++
   (match search API_WARNING line with
    | Some _ => [Problem (or_unknown last_timestamp) "API Warning" "Revit API"
                         (truncated 150 line)]
    | None => []
    end)
   ++
   (match search PERFORMANCE line with
    | Some _ => [Problem (or_unknown last_timestamp) "Performance" "Geometry"
                         ("Possible performance issue: " ++ truncated 120 line)]
    | None => []
    end))%list.

(** The fourth check.  [None]: [int] raised [ValueError], which nothing in
    [find_problems] catches. *)
Definition resource_spike (last_timestamp : option string) (line : string)
  : option (list problem) :=
  match search RESOURCE_SPIKE line with
  | Some resource_match =>
      match Py.int max_str_digits (g1 resource_match) with
      | Some ram_spike =>
          if (ram_spike >? ram_spike_mb self)%Z then
            Some [Problem (or_unknown last_timestamp) "Resource Spike" "Memory Usage"
                          ("RAM spike of " ++ Py.str_of_int ram_spike ++ " MB detected")]
          else Some []
      | None => None
      end
  | None => Some []
  end.

(** The problems one line adds, given the timestamp in force for it; [None]
    when the turn ends in the [ValueError]. *)
Definition line_problems (last_timestamp : option string) (line : string)
  : option (list problem) :=
  match resource_spike last_timestamp line with
  | Some spike => Some (pattern_problems last_timestamp line ++ spike)%list
  | None => None
  end.

(** The local variables of the loop: [problems] and [last_timestamp]. *)
Definition locals : Type := list problem * option string.

(** One turn of the loop: the anchor check first, then the four checks. *)
Definition step (st : locals) (line : string) : option locals :=
  let '(problems, last_timestamp) := st in
  let last_timestamp :=
    match re_match TIMESTAMP line with
    | Some timestamp_match => Some (g1 timestamp_match)
    | None => last_timestamp
    end in
  match line_problems last_timestamp line with
  | Some added => Some ((problems ++ added)%list, last_timestamp)
  | None => None
  end.

(** The loop [for line in file_content.splitlines()]: an exception raised in
    a turn ends it. *)
Fixpoint scan (lines : list string) (st : locals) : option locals :=
  match lines with
  | [] => Some st
  | line :: lines' =>
      match step st line with
      | Some st' => scan lines' st'
      | None => None
      end
  end.

(** [JournalProblemFinder.find_problems]: the list returned, or [None] when
    the call ends in the [ValueError] of [int]. *)
Definition find_problems (file_content : string) : option (list problem) :=
  match scan (Py.splitlines file_content) ([], None) with
  | Some (problems, _) => Some problems
  | None => None
  end.

End Find.

End JournalProblemFinder.

(* ================================================================== *)
(** * What the specification says of the journal parser *)
(* ================================================================== *)

Module JournalSpec.
Import JournalParser.

(** The timestamp token of a line, when it has one. *)
Definition line_token (raw : string) : option string :=
  match Re.search timestamp_re (Py.strip raw) with
  | Some m => Some (Re.group0 m)
  | None => None
  end.

(** Forward fill: a line without a token inherits the timestamp most
    recently seen, [last] standing for what was seen before the first line. *)
Fixpoint forward_fill (last : string) (tokens : list (option string)) : list string :=
  match tokens with
  | [] => []
  | Some t :: tokens' => t :: forward_fill t tokens'
  | None :: tokens' => last :: forward_fill last tokens'
  end.

(** The timestamp a line is given when [last] was the last one seen. *)
Definition stamp (last : string) (raw : string) : string :=
  match line_token raw with Some t => t | None => last end.

(** The line contains one of the substrings that mark an error. *)
Definition has_error_marker (line : string) : bool :=
  Py.contains "Unrecoverable error" line
  || Py.contains "exception" (Py.lower line)
  || Py.contains "API_ERROR" line
  || Py.contains "Error posted" line.

Definition has_big_gap (line : string) : bool :=
  Py.contains "BIG_GAP" line || Py.contains "!!!BIG_GAP" line.

(** The line is a [ModelPath Created] line from which a path is read. *)
Definition names_model (line : string) : bool :=
  Py.contains "ModelPath Created" line && Py.contains "Path = " line
  && Py.contains ".rvt" line
  && match Re.search path_re line with Some _ => true | None => false end.

(** [unquote] leaves a string without a percent sign as it is: on the
    paths of the examples, which have none, it is the identity. *)
Definition unquote_plain (s : string) : string := s.

(** The file cannot be read under any of the encodings [encs]. *)
Definition unreadable (f : file) (encs : list string) : Prop :=
  forall encoding, In encoding encs -> exists e, f encoding = ReadFail e.

Section Models.

Variable unquote : string -> string.

(** The ModelInfo a line records, if it records one. *)
Definition recorded_model (timestamp raw : string) : option Py.dict :=
  let line := annotate_gap (Py.strip raw) in
  if names_model line then Some (extract_model_info unquote timestamp line)
  else None.

(** The user name read from a line, if one is. *)
Definition found_username (raw : string) : option string :=
  let line := annotate_gap (Py.strip raw) in
  if Py.contains "User's Name " line then
    match Re.search user_re line with
    | Some m => Some (g1 m)
    | None => None
    end
  else None.

(** The first user name found from a line on. *)
Fixpoint first_username (lines : list string) : option string :=
  match lines with
  | [] => None
  | raw :: lines' =>
      match found_username raw with
      | Some u => Some u
      | None => first_username lines'
      end
  end.

(** A ModelInfo given a user name, unless it has one or there is none. *)
Definition with_username (u : option string) (model : Py.dict) : Py.dict :=
  match u with
  | Some u => if Py.dict_has "username" model then model
              else Py.dict_set "username" u model
  | None => model
  end.

(** The ModelInfo list at the end of the file, said line by line: each line
    that records a ModelInfo gives it the first user name found on that line
    or a later one. *)
Fixpoint models_described (last : string) (lines : list string) : list Py.dict :=
  match lines with
  | [] => []
  | raw :: lines' =>
      let timestamp := stamp last raw in
      match recorded_model timestamp raw with
      | Some model =>
          with_username (first_username lines) model
          :: models_described timestamp lines'
      | None => models_described timestamp lines'
      end
  end.

End Models.

End JournalSpec.

(* ================================================================== *)
(** * What the specification says of the other parsers *)
(* ================================================================== *)

Module TableSpec.
Import HTMLParser.

(** The positions, counted from [i], of the rows with exactly two cells. *)
Fixpoint accepted_positions (i : nat) (rows : list row) : list nat :=
  match rows with
  | [] => []
  | cells :: rows' =>
      if Nat.eqb (List.length cells) 2 then i :: accepted_positions (S i) rows'
      else accepted_positions (S i) rows'
  end.

End TableSpec.

Module WorkerLogSpec.

(** The number of occurrences of a character in a string. *)
Fixpoint count_char (c : ascii) (s : string) : nat :=
  match s with
  | EmptyString => 0
  | String x s' => (if Ascii.eqb x c then 1 else 0) + count_char c s'
  end.

(** The first whitespace-delimited field of a string and what follows it. *)
Fixpoint first_field (s : string) : string * string :=
  match s with
  | EmptyString => (EmptyString, EmptyString)
  | String c s' =>
      if Py.isspace c then (EmptyString, s)
      else let '(w, r) := first_field s' in (String c w, r)
  end.

(** The whitespace-delimited fields of a string, the split bounded to
    [maxsplit] cuts: fields are separated by runs of whitespace, and what is
    left after the last cut is one field. *)
Fixpoint whitespace_fields (maxsplit : nat) (s : string) : list string :=
  match Py.lstrip s with
  | EmptyString => []
  | String c s' =>
      match maxsplit with
      | O => [String c s']
      | S m => let '(w, r) := first_field (String c s') in
               w :: whitespace_fields m r
      end
  end.

Definition tab : string := String (ascii_of_N 9) EmptyString.

End WorkerLogSpec.

Module ProblemSpec.
Import JournalProblemFinder.

(** The RAM figure of a line, as the pattern captures it. *)
Definition ram_figure (line : string) : option string :=
  match Re.search RESOURCE_SPIKE line with
  | Some m => Some (g1 m)
  | None => None
  end.

(** The line has a RAM figure that [int] refuses. *)
Definition refused (max_str_digits : nat) (line : string) : bool :=
  match ram_figure line with
  | Some digits => Py.exceeds_max_str_digits max_str_digits digits
  | None => false
  end.

(** The line has a RAM figure, and the figure is above the threshold. *)
Definition exceeds (self : finder) (line : string) : bool :=
  match ram_figure line with
  | Some digits => (Z.of_N (Py.int_digits 0 digits) >? ram_spike_mb self)%Z
  | None => false
  end.

(** The timestamp in force after a line: its own when it is an anchor, the
    one in force before it otherwise. *)
Definition in_force (last_timestamp : option string) (line : string)
  : option string :=
  match Re.re_match TIMESTAMP line with
  | Some m => Some (g1 m)
  | None => last_timestamp
  end.

Definition is_spike (p : problem) : bool := String.eqb (type p) "Resource Spike".

End ProblemSpec.

(* ================================================================== *)
(** * Further measures of patterns and strings *)
(* ================================================================== *)

Module ReSpec.
Import Re.

(** Every character class of the pattern lies within [P]. *)
Fixpoint chars_ok (P : ascii -> bool) (r : regex) : Prop :=
  match r with
  | Eps | Bol => True
  | Chr p => forall c, p c = true -> P c = true
  | Seq r1 r2 | Alt r1 r2 => chars_ok P r1 /\ chars_ok P r2
  | Star _ r1 | Group _ r1 => chars_ok P r1
  end.

(** Every character of the string satisfies [P]. *)
Fixpoint all_chars (P : ascii -> bool) (s : string) : bool :=
  match s with
  | EmptyString => true
  | String c s' => P c && all_chars P s'
  end.

End ReSpec.

(* ================================================================== *)
(** * class EventHandlers (handlers.py): the functions that compute *)
(* ================================================================== *)

Module EventHandlers.
Import HTMLParser.

(** [sep.join(parts)] *)
Fixpoint join (sep : string) (parts : list string) : string :=
  match parts with
  | [] => EmptyString
  | [p] => p
  | p :: parts' => p ++ sep ++ join sep parts'
  end.

(** What the handlers of the warnings tab read of [self.app].  An attribute
    tested with [hasattr] is an option. *)
Record application : Type := App {
  warnings_data : list warning;
  status_filter : option string;
  search_var : option string
}.

(** [EventHandlers.get_filtered_data] *)
Definition get_filtered_data (self : application) : list warning :=
  match warnings_data self with
  | [] => []
  | _ =>
      let filtered := warnings_data self in
      let filtered :=
        match status_filter self with
        | Some status_filter =>
            if negb (String.eqb status_filter "All")
            then filter (fun w => String.eqb (status w) status_filter) filtered
            else filtered
        | None => filtered
        end in
      match search_var self with
      | Some search_var =>
          let search_text := Py.lower search_var in
          if Py.truthy search_text
          then filter (fun w => Py.contains search_text (Py.lower (message w))) filtered
          else filtered
      | None => filtered
      end
  end.

(** A [defaultdict(list)] keyed by message, in insertion order. *)
Definition groups : Type := list (string * list warning).

(** [groups[key].append(w)] *)
Fixpoint group_append (key : string) (w : warning) (g : groups) : groups :=
  match g with
  | [] => [(key, [w])]
  | (k, ws) :: g' =>
      if String.eqb key k then (k, ws ++ [w])%list :: g'
      else (k, ws) :: group_append key w g'
  end.

(** [EventHandlers.group_warnings_by_message] *)
Definition group_warnings_by_message (warnings : list warning) : groups :=
  fold_left (fun g w => group_append (message w) w g) warnings [].

(** A [defaultdict(int)]: [d[key] += 1] and [d[key]]. *)
Fixpoint incr (key : string) (d : list (string * nat)) : list (string * nat) :=
  match d with
  | [] => [(key, 1)]
  | (k, n) :: d' =>
      if String.eqb key k then (k, S n) :: d' else (k, n) :: incr key d'
  end.

Fixpoint count_of (key : string) (d : list (string * nat)) : nat :=
  match d with
  | [] => 0
  | (k, n) :: d' => if String.eqb key k then n else count_of key d'
  end.

(** [EventHandlers.get_group_status_summary]: the main status and the
    summary text. *)
Definition get_group_status_summary (warnings_group : list warning)
  : string * string :=
  let status_counts :=
    fold_left (fun d w => incr (status w) d) warnings_group [] in
  let main_status :=
    if Nat.ltb 0 (count_of "Open" status_counts) then "Open"
    else if Nat.ltb 0 (count_of "In Review" status_counts) then "In Review"
    else "Close" in
  let summary_parts :=
    flat_map
      (fun status =>
         if Nat.ltb 0 (count_of status status_counts)
         then [status ++ ": "
               ++ Py.str_of_int (Z.of_nat (count_of status status_counts))]
         else [])
      ["Open"; "In Review"; "Close"] in
  (main_status, join " | " summary_parts).

(** [EventHandlers.get_all_ids_from_group] *)
Definition get_all_ids_from_group (warnings_group : list warning) : list string :=
  fold_left (fun all_ids w => (all_ids ++ ids w)%list) warnings_group [].

(** [EventHandlers.get_status_tags] *)
Definition get_status_tags (status : string) : list string :=
  if String.eqb status "Open" then ["open"]
  else if String.eqb status "In Review" then ["in_review"]
  else if String.eqb status "Close" then ["close"]
  else [].

(** The single-warning branch of [get_warning_from_tree_item], once the
    index is read from the row:
    [next((w for w in warnings_data if w["index"] == index), None)]. *)
Definition warning_by_index (warnings_data : list warning) (i : nat)
  : option warning :=
  find (fun w => Nat.eqb (index w) i) warnings_data.

(** The text of a group node, as [populate_tree_grouped] writes it and
    [get_warning_from_tree_item] computes it again: the message cut at 80
    characters. *)
Definition group_text (message : string) : string :=
  JournalProblemFinder.truncated 80 message.

(** The group branch of [get_warning_from_tree_item], once the text of the
    node is read: the first group, in the order of the dictionary, whose text
    is that text. *)
Fixpoint first_group_with_text (text : string) (g : groups)
  : option (list warning) :=
  match g with
  | [] => None
  | (message, warnings_group) :: g' =>
      if String.eqb (group_text message) text then Some warnings_group
      else first_group_with_text text g'
  end.

Definition group_from_tree_item (self : application) (text : string)
  : option (list warning) :=
  let filtered_data := get_filtered_data self in
  let grouped := group_warnings_by_message filtered_data in
  first_group_with_text text grouped.

(** The tuple [values] that [filter_journal_by_model] inserts for an entry:
    timestamp, category, and the content cut at 100 characters. *)
Definition values : Type := option string * string * string.

Definition entry_values (entry : JournalParser.journal_line) : values :=
  (JournalParser.l_timestamp entry,
   JournalParser.category_name (JournalParser.l_category entry),
   JournalProblemFinder.truncated 100 (JournalParser.l_content entry)).

(** [EventHandlers.filter_journal_by_model]: the rows put into the tree.
    [journal_data] is [None] when the attribute is missing or falsy. *)
Definition filter_journal_by_model
    (journal_data : option JournalParser.journal_document)
    (selected_model : string) : list values :=
  match journal_data with
  | None => []
  | Some doc =>
      let entries := JournalParser.doc_lines doc in
      let filtered_entries :=
        if Py.truthy selected_model
           && negb (String.eqb selected_model "All models")
        then filter (fun entry =>
                       String.eqb (JournalParser.l_model entry) selected_model)
                    entries
        else entries in
      map entry_values filtered_entries
  end.

End EventHandlers.

(* ================================================================== *)
(** * Further notions used to state properties *)
(* ================================================================== *)

Module MoreSpec.
Import JournalParser.

(** The values present in a list of optional values, in order. *)
Fixpoint somes {A : Type} (l : list (option A)) : list A :=
  match l with
  | [] => []
  | Some a :: l' => a :: somes l'
  | None :: l' => somes l'
  end.

(** The model path a line of the model-attributed mode introduces. *)
Definition model_token (unquote : string -> string) (raw : string)
  : option string :=
  let line := Py.strip raw in
  if Py.contains "ModelPath Created" line then
    match Re.search path_re line with
    | Some m => Some (unquote (g1 m))
    | None => None
    end
  else None.

(** The keys of a header: distinct, and among the four. *)
Definition header_ok (d : Py.dict) : Prop :=
  NoDup (map fst d)
  /\ Forall (fun k => In k ["build"; "branch"; "release"; "username"]) (map fst d).

(** The line has one of the substrings that mark memory statistics. *)
Definition has_performance_marker (line : string) : bool :=
  Py.contains "RAM Statistics" line || Py.contains "VM Statistics" line
  || Py.contains "Delta VM" line || Py.contains "Delta RAM" line.

(** The file raises a decoding error under each of the encodings [encs]. *)
Definition decode_errors_only (f : file) (encs : list string) : Prop :=
  forall encoding, In encoding encs ->
    exists m, f encoding = ReadFail (UnicodeDecodeError m).

(** The file as both parsers open it, with [errors='replace']: a byte that
    cannot be decoded is replaced, and no attempt ends in a decoding error. *)
Definition replaces_errors (f : file) : Prop :=
  forall encoding m, f encoding <> ReadFail (UnicodeDecodeError m).

End MoreSpec.

Module HandlersSpec.
Import HTMLParser EventHandlers.

(** The warning passes the status filter: there is none, it is [All], or it
    is the status of the warning. *)
Definition status_passes (status_filter : option string) (w : warning) : bool :=
  match status_filter with
  | Some sf => String.eqb sf "All" || String.eqb (status w) sf
  | None => true
  end.

(** The warning passes the search: there is no text, or the message has the
    text in it, letter case apart. *)
Definition search_passes (search_var : option string) (w : warning) : bool :=
  match search_var with
  | Some sv =>
      negb (Py.truthy (Py.lower sv))
      || Py.contains (Py.lower sv) (Py.lower (message w))
  | None => true
  end.

(** [groups.get(key)] *)
Fixpoint group_get (key : string) (g : groups) : option (list warning) :=
  match g with
  | [] => None
  | (k, ws) :: g' => if String.eqb key k then Some ws else group_get key g'
  end.

(** The warnings of a list that have a given message, a given status. *)
Definition with_message (m : string) (ws : list warning) : list warning :=
  filter (fun w => String.eqb (message w) m) ws.

Definition with_status (s : string) (ws : list warning) : list warning :=
  filter (fun w => String.eqb (status w) s) ws.

(** Two messages that agree on their first 80 characters. *)
Definition overlap_cut : string :=
  "Highlighted walls overlap. One of them may be ignored when Revit finds room boundaries. Use Cut Geometry to embed one wall within the other.".

Definition overlap_shorten : string :=
  "Highlighted walls overlap. One of them may be ignored when Revit finds room boundaries. Shorten one of the walls.".

End HandlersSpec.

(* ================================================================== *)
(** * Properties of the matcher *)
(* ================================================================== *)

Section MatcherFacts.
Import Re.

Lemma length_append (a b : string) :
  String.length (a ++ b) = String.length a + String.length b.
Proof. induction a as [|c a IH]; simpl; [reflexivity | now rewrite IH]. Qed.

Lemma append_assoc (a b c : string) : (a ++ b) ++ c = a ++ (b ++ c).
Proof. induction a as [|x a IH]; simpl; [reflexivity | now rewrite IH]. Qed.

Lemma append_nil_r (a : string) : a ++ "" = a.
Proof. induction a as [|x a IH]; simpl; [reflexivity | now rewrite IH]. Qed.

Lemma take_append (a b : string) : Py.take (String.length a) (a ++ b) = a.
Proof.
  unfold Py.take. induction a as [|x a IH]; simpl.
  - destruct b; reflexivity.
  - now rewrite IH.
Qed.

Lemma advances_refl st : advances st st "".
Proof. split; simpl; [reflexivity | lia]. Qed.

Lemma advances_trans st1 st2 st3 p q :
  advances st1 st2 p -> advances st2 st3 q -> advances st1 st3 (p ++ q).
Proof.
  intros [H1 H2] [H3 H4]. split.
  - rewrite H1, H3. symmetry. apply append_assoc.
  - rewrite H4, H2, length_append. lia.
Qed.

Lemma star_loop_advances once greedy :
  (forall st st', In st' (once st) -> exists pre, advances st st' pre) ->
  forall fuel st st', In st' (star_loop once greedy fuel st) ->
    exists pre, advances st st' pre.
Proof.
  intros Honce. induction fuel as [|fuel IH]; intros st st' Hin; simpl in Hin.
  - destruct Hin as [<- | []]. exists "". apply advances_refl.
  - assert (Hmore :
      In st' (flat_map (fun s1 =>
                 if Nat.ltb (String.length (rest s1)) (String.length (rest st))
                 then star_loop once greedy fuel s1 else []) (once st)) ->
      exists pre, advances st st' pre).
    { intros H. apply in_flat_map in H. destruct H as [s1 [H1 H2]].
      destruct (Nat.ltb _ _); [|destruct H2].
      destruct (Honce _ _ H1) as [p Hp]. destruct (IH _ _ H2) as [q Hq].
      exists (p ++ q). eapply advances_trans; eassumption. }
    destruct greedy.
    + apply in_app_or in Hin. destruct Hin as [H | [<- | []]]; auto.
      exists "". apply advances_refl.
    + destruct Hin as [<- | H]; auto. exists "". apply advances_refl.
Qed.

Lemma run_advances r :
  forall st st', In st' (run r st) -> exists pre, advances st st' pre.
Proof.
  induction r as [| |p|r1 IH1 r2 IH2|r1 IH1 r2 IH2|g r1 IH1|n r1 IH1];
    intros st st' Hin; simpl in Hin.
  - destruct Hin as [<- | []]. exists "". apply advances_refl.
  - destruct (Nat.eqb (pos st) 0); [|destruct Hin].
    destruct Hin as [<- | []]. exists "". apply advances_refl.
  - destruct (rest st) as [|c s'] eqn:E; [destruct Hin|].
    destruct (p c); [|destruct Hin]. destruct Hin as [<- | []].
    exists (String c ""). split; simpl; [assumption | lia].
  - apply in_flat_map in Hin. destruct Hin as [s1 [H1 H2]].
    destruct (IH1 _ _ H1) as [p Hp]. destruct (IH2 _ _ H2) as [q Hq].
    exists (p ++ q). eapply advances_trans; eassumption.
  - apply in_app_or in Hin. destruct Hin as [H | H]; eauto.
  - eapply star_loop_advances; eauto.
  - apply in_map_iff in Hin. destruct Hin as [s1 [<- H1]].
    destruct (IH1 _ _ H1) as [p [Hp1 Hp2]]. exists p. split; simpl; assumption.
Qed.

Lemma run_min_len r :
  forall st st' pre, In st' (run r st) -> advances st st' pre ->
    min_len r <= String.length pre.
Proof.
  induction r as [| |p|r1 IH1 r2 IH2|r1 IH1 r2 IH2|g r1 IH1|n r1 IH1];
    intros st st' pre Hin Hadv; simpl in *; try lia.
  - destruct (rest st) as [|c s'] eqn:E; [destruct Hin|].
    destruct (p c); [|destruct Hin]. destruct Hin as [<- | []].
    destruct Hadv as [_ H]. simpl in H. lia.
  - apply in_flat_map in Hin. destruct Hin as [s1 [H1 H2]].
    destruct (run_advances _ _ _ H1) as [p Hp].
    destruct (run_advances _ _ _ H2) as [q Hq].
    specialize (IH1 _ _ _ H1 Hp). specialize (IH2 _ _ _ H2 Hq).
    destruct Hp as [_ Hp], Hq as [_ Hq], Hadv as [_ Hadv]. lia.
  - apply in_app_or in Hin. destruct Hin as [H | H].
    + specialize (IH1 _ _ _ H Hadv). lia.
    + specialize (IH2 _ _ _ H Hadv). lia.
  - apply in_map_iff in Hin. destruct Hin as [s1 [<- H1]].
    apply (IH1 st s1); [assumption|]. destruct Hadv as [Ha Hb]. split; assumption.
Qed.

Lemma star_loop_caps once greedy :
  (forall st st', In st' (once st) -> caps st' = caps st) ->
  forall fuel st st', In st' (star_loop once greedy fuel st) -> caps st' = caps st.
Proof.
  intros Honce. induction fuel as [|fuel IH]; intros st st' Hin; simpl in Hin.
  - destruct Hin as [<- | []]. reflexivity.
  - assert (Hmore :
      In st' (flat_map (fun s1 =>
                 if Nat.ltb (String.length (rest s1)) (String.length (rest st))
                 then star_loop once greedy fuel s1 else []) (once st)) ->
      caps st' = caps st).
    { intros H. apply in_flat_map in H. destruct H as [s1 [H1 H2]].
      destruct (Nat.ltb _ _); [|destruct H2].
      rewrite (IH _ _ H2). apply Honce. assumption. }
    destruct greedy.
    + apply in_app_or in Hin. destruct Hin as [H | [<- | []]]; auto.
    + destruct Hin as [<- | H]; auto.
Qed.

(** A pattern without groups leaves the groups as they are. *)
Lemma run_caps r :
  has_group r = false ->
  forall st st', In st' (run r st) -> caps st' = caps st.
Proof.
  induction r as [| |p|r1 IH1 r2 IH2|r1 IH1 r2 IH2|g r1 IH1|n r1 IH1];
    intros Hg st st' Hin; simpl in *.
  - destruct Hin as [<- | []]. reflexivity.
  - destruct (Nat.eqb (pos st) 0); [|destruct Hin].
    destruct Hin as [<- | []]. reflexivity.
  - destruct (rest st) as [|c s'] eqn:E; [destruct Hin|].
    destruct (p c); [|destruct Hin]. destruct Hin as [<- | []]. reflexivity.
  - apply orb_false_iff in Hg. destruct Hg as [Hg1 Hg2].
    apply in_flat_map in Hin. destruct Hin as [s1 [H1 H2]].
    rewrite (IH2 Hg2 _ _ H2). apply IH1; assumption.
  - apply orb_false_iff in Hg. destruct Hg as [Hg1 Hg2].
    apply in_app_or in Hin. destruct Hin as [H | H]; auto.
  - eapply star_loop_caps; eauto.
  - discriminate.
Qed.

(** What a group around a pattern without groups records. *)
Lemma run_group n r st st' :
  has_group r = false ->
  In st' (run (Group n r) st) ->
  exists t, caps st' = (n, t) :: caps st /\ advances st st' t.
Proof.
  intros Hg Hin. simpl in Hin. apply in_map_iff in Hin.
  destruct Hin as [s1 [<- H1]].
  destruct (run_advances _ _ _ H1) as [p [Hp1 Hp2]].
  exists p. simpl. split.
  - rewrite (run_caps _ Hg _ _ H1). f_equal. f_equal.
    rewrite Hp1, Hp2. replace (pos st + String.length p - pos st) with (String.length p) by lia.
    apply take_append.
  - split; assumption.
Qed.

End MatcherFacts.

(* ================================================================== *)
(** * Flat-mode journal parsing *)
(* ================================================================== *)

(** Two decompositions of the same list name the same last entry. *)
Ltac same_entry H H' :=
  rewrite H in H'; apply app_inj_tail in H'; destruct H' as [_ <-].

Section FlatMode.
Import JournalParser JournalSpec.

Variable unquote : string -> string.

Lemma category_eqb_eq a b : category_eqb a b = true <-> a = b.
Proof. destruct a, b; vm_compute; split; congruence. Qed.

Lemma dict_has_set k v d : Py.dict_has k (Py.dict_set k v d) = true.
Proof.
  unfold Py.dict_has. induction d as [|[k' v'] d IH]; simpl.
  - now rewrite String.eqb_refl.
  - destruct (String.eqb k k') eqn:E; simpl; rewrite ?String.eqb_refl, ?E; auto.
Qed.

(** Only the path pattern puts the key [path] into a ModelInfo. *)
Lemma extract_has_path ts line :
  Py.dict_has "path" (extract_model_info unquote ts line)
  = match Re.search path_re line with Some _ => true | None => false end.
Proof.
  unfold extract_model_info.
  destruct (Re.search path_re line), (Re.search region_re line),
    (Re.search server_re line), (Re.search server_path_re line); reflexivity.
Qed.

(** A ModelInfo fresh from a line has no user name yet. *)
Lemma extract_no_username ts line :
  Py.dict_has "username" (extract_model_info unquote ts line) = false.
Proof.
  unfold extract_model_info.
  destruct (Re.search path_re line), (Re.search region_re line),
    (Re.search server_re line), (Re.search server_path_re line); reflexivity.
Qed.

(** The entry a turn of the loop appends, and what the turn leaves behind. *)
Lemma step_entry st raw :
  exists e,
    parsed_data (step unquote st raw) = (parsed_data st ++ [e])%list
    /\ timestamp e = stamp (last_timestamp st) raw
    /\ last_timestamp (step unquote st raw) = timestamp e
    /\ (command e <> "" -> category e = Command)
    /\ (category e = Command -> current_command (step unquote st raw) = "")
    /\ category e =
         (if names_model (annotate_gap (Py.strip raw)) then Model
          else content_category (Py.strip raw)
                 (fst (prefix_category (Py.strip raw) (current_command st)))).
Proof.
  unfold step, stamp, line_token, names_model.
  destruct (prefix_category (Py.strip raw) (current_command st)) as [c cc].
  eexists. split; [reflexivity|].
  cbn [timestamp last_timestamp command category current_command fst].
  split; [destruct (Re.search timestamp_re (Py.strip raw)); reflexivity|].
  split; [reflexivity|].
  split; [|split].
  - intros H. destruct (category_eqb _ Command) eqn:E.
    + apply category_eqb_eq in E. exact E.
    + contradiction H. reflexivity.
  - intros H. rewrite H. reflexivity.
  - destruct (Py.contains "ModelPath Created" _ && Py.contains "Path = " _
              && Py.contains ".rvt" _); [|reflexivity].
    rewrite extract_has_path. reflexivity.
Qed.

(** The ModelInfo list after a turn of the loop. *)
Lemma step_models st raw :
  models_info (step unquote st raw)
  = map (with_username (found_username raw))
        (models_info st
         ++ match recorded_model unquote (stamp (last_timestamp st) raw) raw with
            | Some m => [m]
            | None => []
            end).
Proof.
  unfold step, stamp, line_token, recorded_model, found_username, names_model.
  destruct (prefix_category (Py.strip raw) (current_command st)) as [c cc].
  cbn [models_info].
  set (line := annotate_gap (Py.strip raw)).
  set (ts := match Re.search timestamp_re (Py.strip raw) with
             | Some m => Re.group0 m | None => last_timestamp st end).
  destruct (Py.contains "ModelPath Created" line && Py.contains "Path = " line
            && Py.contains ".rvt" line) eqn:Eml.
  - rewrite extract_has_path.
    assert (Hts : match
                    match Re.search timestamp_re (Py.strip raw) with
                    | Some m => Some (Re.group0 m) | None => None end
                  with Some t => t | None => last_timestamp st end = ts).
    { unfold ts. destruct (Re.search timestamp_re (Py.strip raw)); reflexivity. }
    rewrite Hts.
    destruct (Re.search path_re line); cbn [andb];
      destruct (Py.contains "User's Name " line); try destruct (Re.search user_re line);
      unfold add_username, with_username; rewrite ?app_nil_r, ?map_id; reflexivity.
  - cbn [andb].
    destruct (Py.contains "User's Name " line); try destruct (Re.search user_re line);
      unfold add_username, with_username; rewrite ?app_nil_r, ?map_id; reflexivity.
Qed.

Lemma prefix_category_not_model line cc :
  fst (prefix_category line cc) <> Model.
Proof.
  unfold prefix_category.
  repeat match goal with |- context [if ?b then _ else _] => destruct b end;
    discriminate.
Qed.

Lemma content_category_model line c :
  content_category line c = Model -> c = Model.
Proof.
  unfold content_category.
  repeat match goal with |- context [if ?b then _ else _] => destruct b end;
    (discriminate || trivial).
Qed.

(** The ModelInfo attached to an entry is the one read from its own line: it
    has a path and never a user name. *)
Lemma step_entry_model_info st raw e d :
  parsed_data (step unquote st raw) = (parsed_data st ++ [e])%list ->
  model_info e = Some d ->
  Py.dict_has "path" d = true /\ Py.dict_has "username" d = false.
Proof.
  unfold step.
  pose proof (prefix_category_not_model (Py.strip raw) (current_command st)) as Hpc.
  destruct (prefix_category (Py.strip raw) (current_command st)) as [c cc].
  cbn [fst] in Hpc.
  cbn [parsed_data]. intros He. apply app_inj_tail in He. destruct He as [_ <-].
  cbn [model_info].
  assert (Hno : category_eqb (content_category (Py.strip raw) c) Model = false).
  { destruct (category_eqb _ Model) eqn:Ec; [|reflexivity].
    apply category_eqb_eq, content_category_model in Ec. contradiction. }
  destruct (Py.contains "ModelPath Created" _ && Py.contains "Path = " _
            && Py.contains ".rvt" _) eqn:Eml; cbn [andb].
  - destruct (Py.dict_has "path" (extract_model_info _ _ _)) eqn:Ep.
    + match goal with |- context [if ?b then _ else _] => destruct b end;
        [|discriminate].
      intros H. injection H as H. subst d.
      split; [exact Ep | apply extract_no_username].
    + rewrite Hno. discriminate.
  - rewrite Hno. discriminate.
Qed.

Lemma with_username_idem a u m :
  with_username a (with_username (Some u) m) = with_username (Some u) m.
Proof.
  destruct a as [a|]; [|reflexivity]. unfold with_username.
  destruct (Py.dict_has "username" m) eqn:E.
  - now rewrite E.
  - now rewrite dict_has_set.
Qed.

(** The ModelInfo list at the end, from any point of the file on. *)
Lemma fold_models lines : forall st,
  models_info (fold_left (step unquote) lines st)
  = (map (with_username (first_username lines)) (models_info st)
     ++ models_described unquote (last_timestamp st) lines)%list.
Proof.
  induction lines as [|raw lines IH]; intros st.
  - simpl. now rewrite map_id, app_nil_r.
  - cbn [fold_left]. rewrite IH, step_models.
    destruct (step_entry st raw) as [e [_ [Hts [Hlast _]]]].
    rewrite Hlast, Hts. fold (stamp (last_timestamp st) raw).
    cbn [models_described first_username].
    change (match line_token raw with Some t => t | None => last_timestamp st end)
      with (stamp (last_timestamp st) raw).
    set (ts := stamp (last_timestamp st) raw).
    rewrite map_map.
    destruct (found_username raw) as [u|] eqn:Eu.
    + rewrite (map_ext _ (with_username (Some u))) by (intro; apply with_username_idem).
      rewrite map_app, <- app_assoc. f_equal.
      destruct (recorded_model unquote ts raw); reflexivity.
    + rewrite (map_ext _ (with_username (first_username lines))) by reflexivity.
      rewrite map_app, <- app_assoc. f_equal.
      destruct (recorded_model unquote ts raw); reflexivity.
Qed.

(** Every line makes one entry, and what holds of the entry of any turn of
    the loop holds line by line. *)
Lemma parse_lines_Forall2 (P : string -> entry -> Prop) :
  (forall st raw e,
      parsed_data (step unquote st raw) = (parsed_data st ++ [e])%list -> P raw e) ->
  forall lines, Forall2 P lines (parse_lines unquote lines).
Proof.
  intros HP lines. unfold parse_lines, run_lines.
  assert (H : forall st, exists es,
             parsed_data (fold_left (step unquote) lines st) = (parsed_data st ++ es)%list
             /\ Forall2 P lines es).
  { induction lines as [|raw lines IH]; intros st.
    - exists []. simpl. rewrite app_nil_r. split; [reflexivity | constructor].
    - cbn [fold_left]. destruct (IH (step unquote st raw)) as [es [H1 H2]].
      destruct (step_entry st raw) as [e [He _]].
      exists (e :: es). rewrite H1, He, <- app_assoc. split; [reflexivity|].
      constructor; [eapply HP; eassumption | assumption]. }
  destruct (H init) as [es [H1 H2]]. simpl in H1. rewrite H1. exact H2.
Qed.

Lemma fold_timestamps lines : forall st,
  map timestamp (parsed_data (fold_left (step unquote) lines st))
  = (map timestamp (parsed_data st)
     ++ forward_fill (last_timestamp st) (map line_token lines))%list.
Proof.
  induction lines as [|raw lines IH]; intros st.
  - simpl. now rewrite app_nil_r.
  - cbn [fold_left]. rewrite IH.
    destruct (step_entry st raw) as [e [He [Hts [Hlast _]]]].
    rewrite He, Hlast, map_app, <- app_assoc. f_equal.
    cbn [map forward_fill app]. rewrite Hts. unfold stamp.
    destruct (line_token raw); reflexivity.
Qed.

Lemma startswith_Jrn_Command line cc :
  Py.startswith line "Jrn.Command" = true ->
  fst (prefix_category line cc) = Command.
Proof.
  unfold prefix_category, Py.startswith. intros H.
  destruct line as [|c l]; [discriminate|].
  assert (c = "J"%char) as ->.
  { apply String.prefix_correct in H. simpl in H. congruence. }
  rewrite H. reflexivity.
Qed.

End FlatMode.

(* ================================================================== *)
(** * Flat-mode journal parsing: the stated properties *)
(* ================================================================== *)

Section FlatModeClaims.
Import JournalParser JournalSpec.

(** C5.  In flat mode the timestamps of the entries are the forward fill of
    the timestamp tokens of the lines: a line without a token inherits the
    timestamp seen last (the empty string before the first one).  On the three
    lines of the specification's example the timestamps are those of lines
    one, one and three. *)
Theorem C5_forward_fill_timestamps :
  (forall unquote lines,
      map timestamp (parse_lines unquote lines)
      = forward_fill "" (map line_token lines))
  /\ (forall unquote,
        map timestamp
            (parse_lines unquote
               ["'C 01-Jan-2024 10:00:00.000; x"; "no-timestamp-here";
                "'C 01-Jan-2024 10:00:05.000; y"])
        = ["01-Jan-2024 10:00:00.000"; "01-Jan-2024 10:00:00.000";
           "01-Jan-2024 10:00:05.000"]).
Proof.
  assert (H : forall unquote lines,
             map timestamp (parse_lines unquote lines)
             = forward_fill "" (map line_token lines)).
  { intros unquote lines. unfold parse_lines, run_lines.
    rewrite fold_timestamps. reflexivity. }
  split; [exact H|].
  intros unquote. rewrite H. vm_compute. reflexivity.
Qed.

(** C2, as amended.  In flat mode a line that starts with [Jrn.Command] and
    contains an error substring never gets the category Command: the content
    rules win over the prefix rule.  Its category is Error unless the line also
    contains BIG_GAP or is a ModelPath Created line from which a path is read;
    it is BIG GAP with BIG_GAP in it and no path read, and Model when a path
    is read.  The line of the specification's example gets Error. *)
Theorem C2_content_rules_win :
  (forall unquote lines,
      Forall2
        (fun raw e =>
           let line := Py.strip raw in
           Py.startswith line "Jrn.Command" = true ->
           has_error_marker line = true ->
           category e <> Command
           /\ (has_big_gap line = false -> names_model line = false ->
               category e = Error)
           /\ (has_big_gap line = true ->
               names_model (annotate_gap line) = false ->
               category e = BigGap)
           /\ (names_model (annotate_gap line) = true -> category e = Model))
        lines (parse_lines unquote lines))
  /\ (forall unquote,
        map category
            (parse_lines unquote
               ["Jrn.Command " ++ dq ++ "X" ++ dq ++ "," ++ dq ++ "Y" ++ dq
                ++ " exception occurred"])
        = [Error]).
Proof.
  split.
  - intros unquote lines. apply parse_lines_Forall2.
    intros st raw e He line Hpre Hmark.
    destruct (step_entry unquote st raw) as [e' [He' [_ [_ [_ [_ Hcat]]]]]].
    same_entry He He'. fold line in Hcat.
    rewrite (startswith_Jrn_Command line (current_command st) Hpre) in Hcat.
    assert (Hgap : has_big_gap line = false ->
                   content_category line Command = Error).
    { intros Hg. unfold has_big_gap in Hg. unfold content_category.
      rewrite Hg. unfold has_error_marker in Hmark.
      destruct (Py.contains "Unrecoverable error" line); [reflexivity|].
      destruct (Py.contains "exception" (Py.lower line)); [reflexivity|].
      destruct (Py.contains "API_ERROR" line); [reflexivity|].
      destruct (Py.contains "Error posted" line); [reflexivity|discriminate]. }
    assert (Hgap' : has_big_gap line = true ->
                    content_category line Command = BigGap).
    { intros Hg. unfold has_big_gap in Hg. unfold content_category.
      rewrite Hg. reflexivity. }
    assert (Hnogap : has_big_gap line = false -> annotate_gap line = line).
    { intros Hg. unfold has_big_gap in Hg. unfold annotate_gap.
      rewrite Hg. reflexivity. }
    split; [|split; [|split]].
    + rewrite Hcat. destruct (names_model (annotate_gap line)); [discriminate|].
      destruct (has_big_gap line) eqn:Eg.
      * rewrite Hgap' by reflexivity. discriminate.
      * rewrite Hgap by reflexivity. discriminate.
    + intros Hg Hm. rewrite Hcat, (Hnogap Hg), Hm. apply Hgap. exact Hg.
    + intros Hg Hm. rewrite Hcat, Hm. apply Hgap'. exact Hg.
    + intros Hm. rewrite Hcat, Hm. reflexivity.
  - intros unquote. vm_compute. reflexivity.
Qed.

(** C9.  In flat mode an entry has a non-empty [command] only if its category
    is Command, and whenever the entry made last is a Command entry the
    pending command label is empty again. *)
Theorem C9_command_label :
  forall unquote lines,
    Forall (fun e => command e <> "" -> category e = Command)
           (parse_lines unquote lines)
    /\ (forall es e,
          parse_lines unquote lines = (es ++ [e])%list ->
          category e = Command ->
          current_command (run_lines unquote lines) = "").
Proof.
  intros unquote lines. split.
  - assert (H : Forall2 (fun _ e => command e <> "" -> category e = Command)
                        lines (parse_lines unquote lines)).
    { apply parse_lines_Forall2. intros st raw e He.
      destruct (step_entry unquote st raw) as [e' [He' [_ [_ [Hc _]]]]].
      same_entry He He'. exact Hc. }
    induction H; constructor; assumption.
  - intros es e Hes Hcat. unfold parse_lines, run_lines in *.
    destruct (exists_last (l := lines)) as [ls [raw ->]].
    { intros ->. simpl in Hes. destruct es; discriminate. }
    rewrite fold_left_app in *. cbn [fold_left] in *.
    destruct (step_entry unquote (fold_left (step unquote) ls init) raw)
      as [e' [He' [_ [_ [_ [Hclr _]]]]]].
    same_entry Hes He'. apply Hclr. exact Hcat.
Qed.

(** C8, as amended.  A user name read from a [User's Name X,] line is written
    into every ModelInfo recorded up to and including that line that has none
    yet, and a ModelInfo that has a user name keeps it.  So at the end of the
    file each ModelInfo carries the first user name found on the line that
    recorded it or on a later line, and none if there is no such line. *)
Theorem C8_username_backfill :
  forall unquote lines,
    models_info (run_lines unquote lines) = models_described unquote "" lines
    /\ (forall st raw i m,
          nth_error (models_info st) i = Some m ->
          Py.dict_has "username" m = true ->
          nth_error (models_info (step unquote st raw)) i = Some m)
    /\ (forall st raw u,
          found_username raw = Some u ->
          Forall (fun m => Py.dict_has "username" m = true)
                 (models_info (step unquote st raw))).
Proof.
  intros unquote lines. split; [|split].
  - unfold run_lines. rewrite fold_models. reflexivity.
  - intros st raw i m Hi Hu. rewrite step_models.
    rewrite nth_error_map, nth_error_app1 by (apply nth_error_Some; congruence).
    rewrite Hi. cbn [option_map]. f_equal.
    unfold with_username. destruct (found_username raw); [|reflexivity].
    now rewrite Hu.
  - intros st raw u Hu. rewrite step_models, Hu. apply Forall_forall.
    intros m Hm. apply in_map_iff in Hm. destruct Hm as [m0 [<- _]].
    unfold with_username. destruct (Py.dict_has "username" m0) eqn:E;
      [exact E | apply dict_has_set].
Qed.

End FlatModeClaims.

(* ================================================================== *)
(** * Reading under the candidate encodings; model-attributed parsing *)
(* ================================================================== *)

Section Encodings.
Import JournalParser JournalSpec.

Variable unquote : string -> string.

Lemma parse_journal_loop_fails f : forall encs last,
  unreadable f encs ->
  exists last', parse_journal_loop unquote f encs last = inr last'.
Proof.
  induction encs as [|enc encs IH]; intros last H; simpl.
  - eexists. reflexivity.
  - destruct (H enc (or_introl eq_refl)) as [e He]. rewrite He.
    destruct e as [m|m].
    + apply IH. intros x Hx. apply H. right. exact Hx.
    + eexists. reflexivity.
Qed.

Lemma parse_journal_with_models_loop_fails f : forall encs last,
  unreadable f encs ->
  (encs <> [] \/ last <> None) ->
  exists e, parse_journal_with_models_loop unquote f encs last
            = Raise "RuntimeError" "Failed to parse journal file" e.
Proof.
  induction encs as [|enc encs IH]; intros last H Hne; simpl.
  - destruct last as [e|]; [eexists; reflexivity|].
    destruct Hne as [Hne | Hne]; contradiction Hne; reflexivity.
  - destruct (H enc (or_introl eq_refl)) as [e He]. rewrite He.
    apply IH; [|right; discriminate].
    intros x Hx. apply H. right. exact Hx.
Qed.

Lemma parse_journal_with_models_loop_returns f doc : forall encs last,
  parse_journal_with_models_loop unquote f encs last = Return (Some doc) ->
  exists encoding lines,
    In encoding encs /\ f encoding = ReadOk lines
    /\ doc = document_of unquote lines.
Proof.
  induction encs as [|enc encs IH]; intros last H; simpl in H.
  - destruct last; discriminate.
  - destruct (f enc) as [lines|e] eqn:E.
    + exists enc, lines. injection H as <-. split; [left; reflexivity|].
      split; [exact E | reflexivity].
    + destruct (IH _ H) as [enc' [lines [H1 [H2 H3]]]].
      exists enc', lines. split; [right; exact H1|]. split; assumption.
Qed.

Lemma fold_mstep_timestamps lines : forall st,
  map l_timestamp (categorized_lines (fold_left (mstep unquote) lines st))
  = (map l_timestamp (categorized_lines st) ++ map line_token lines)%list.
Proof.
  induction lines as [|raw lines IH]; intros st.
  - simpl. now rewrite app_nil_r.
  - cbn [fold_left]. rewrite IH. unfold mstep.
    cbn [categorized_lines]. rewrite map_app, <- app_assoc. reflexivity.
Qed.

End Encodings.

Section EncodingClaims.
Import JournalParser JournalSpec.

(** C1.  When the file cannot be read under any of the candidate encodings,
    [parse_journal_with_models] raises [RuntimeError] and [parse_journal]
    returns the empty list. *)
Theorem C1_total_failure :
  forall unquote (f : file),
    unreadable f encodings ->
    fst (parse_journal unquote f) = []
    /\ exists cause,
         parse_journal_with_models unquote f
         = Raise "RuntimeError" "Failed to parse journal file" cause.
Proof.
  intros unquote f H. split.
  - unfold parse_journal.
    destruct (parse_journal_loop_fails unquote f encodings None H) as [last ->].
    destruct last; reflexivity.
  - apply parse_journal_with_models_loop_fails; [exact H|].
    left. discriminate.
Qed.

(** C3, as amended.  An entry of [parse_journal_with_models] has the
    timestamp token of its own line, and null when the line has none, whether
    or not a timestamped line came before: nothing is carried forward. *)
Theorem C3_own_token_or_null :
  forall unquote (f : file) doc,
    parse_journal_with_models unquote f = Return (Some doc) ->
    exists encoding lines,
      In encoding encodings /\ f encoding = ReadOk lines
      /\ map l_timestamp (doc_lines doc) = map line_token lines.
Proof.
  intros unquote f doc H.
  destruct (parse_journal_with_models_loop_returns unquote f doc _ _ H)
    as [enc [lines [H1 [H2 ->]]]].
  exists enc, lines. split; [exact H1|]. split; [exact H2|].
  unfold document_of. cbn [doc_lines]. rewrite fold_mstep_timestamps. reflexivity.
Qed.

End EncodingClaims.

(* ================================================================== *)
(** * HTML warnings *)
(* ================================================================== *)

Section HTMLClaims.
Import HTMLParser TableSpec.

Variable now : nat -> string.

Lemma parse_rows_spec : forall rows i clock ws,
  exists ws',
    parse_rows now i rows clock ws = (ws ++ ws')%list
    /\ map index ws' = accepted_positions i rows
    /\ (forall w, In w ws' ->
          exists k c0 c1,
            nth_error rows k = Some [c0; c1] /\ index w = i + k
            /\ message w = get_text c0).
Proof.
  induction rows as [|cells rows IH]; intros i clock ws.
  - exists []. simpl. rewrite app_nil_r. repeat split. intros w [].
  - assert (Hskip : List.length cells <> 2 ->
            parse_rows now i (cells :: rows) clock ws
            = parse_rows now (S i) rows clock ws).
    { intros H. simpl. destruct cells as [|c0 [|c1 [|c2 cs]]]; try reflexivity.
      contradiction H. reflexivity. }
    destruct (Nat.eqb (List.length cells) 2) eqn:E.
    + apply Nat.eqb_eq in E.
      destruct cells as [|c0 [|c1 [|c2 cs]]]; try discriminate.
      cbn [parse_rows].
      edestruct IH as [ws' [H1 [H2 H3]]]. rewrite H1.
      eexists (_ :: ws'). rewrite <- app_assoc. split; [reflexivity|].
      split.
      * cbn [map index accepted_positions List.length Nat.eqb]. now rewrite H2.
      * intros w [<- | Hw].
        -- exists 0, c0, c1. cbn. repeat split. lia.
        -- destruct (H3 w Hw) as [k [d0 [d1 [Hk [Hi Hm]]]]].
           exists (S k), d0, d1. cbn. repeat split; try assumption. lia.
    + rewrite Hskip by (apply Nat.eqb_neq; exact E).
      destruct (IH (S i) clock ws) as [ws' [H1 [H2 H3]]].
      exists ws'. split; [exact H1|]. split.
      * cbn [accepted_positions]. rewrite E. exact H2.
      * intros w Hw. destruct (H3 w Hw) as [k [d0 [d1 [Hk [Hi Hm]]]]].
        exists (S k), d0, d1. cbn. repeat split; try assumption. lia.
Qed.

Lemma accepted_positions_all : forall rows i,
  (forall cells, In cells rows -> List.length cells = 2) ->
  accepted_positions i rows = seq i (List.length rows).
Proof.
  induction rows as [|cells rows IH]; intros i H; [reflexivity|].
  cbn [accepted_positions List.length seq].
  rewrite (H cells (or_introl eq_refl)). cbn [Nat.eqb]. f_equal.
  apply IH. intros c Hc. apply H. right. exact Hc.
Qed.

Lemma accepted_positions_sorted : forall rows i,
  Forall (le i) (accepted_positions i rows)
  /\ StronglySorted lt (accepted_positions i rows).
Proof.
  induction rows as [|cells rows IH]; intros i; cbn [accepted_positions].
  - split; constructor.
  - destruct (IH (S i)) as [Hle Hs].
    assert (Hlt : Forall (lt i) (accepted_positions (S i) rows))
      by (eapply Forall_impl; [|exact Hle]; intros; lia).
    destruct (Nat.eqb (List.length cells) 2).
    + split; constructor; try assumption; [lia|].
      eapply Forall_impl; [|exact Hlt]; intros; lia.
    + split; [|exact Hs]. eapply Forall_impl; [|exact Hlt]; intros; lia.
Qed.

Lemma accepted_positions_nil : forall rows i,
  accepted_positions i rows = [] <->
  (forall cells, In cells rows -> List.length cells <> 2).
Proof.
  induction rows as [|cells rows IH]; intros i; cbn [accepted_positions].
  - split; [intros _ cells [] | reflexivity].
  - destruct (Nat.eqb (List.length cells) 2) eqn:E.
    + split; [discriminate|]. intros H. apply Nat.eqb_eq in E.
      contradiction (H cells (or_introl eq_refl)).
    + apply Nat.eqb_neq in E. rewrite IH. split.
      * intros H c [<- | Hc]; [exact E | apply H; exact Hc].
      * intros H c Hc. apply H. right. exact Hc.
Qed.

(** The positions are those of the rows with two cells. *)
Lemma accepted_positions_In : forall rows i k,
  In k (accepted_positions i rows) <->
  exists j c0 c1, nth_error rows j = Some [c0; c1] /\ k = i + j.
Proof.
  induction rows as [|cells rows IH]; intros i k; cbn [accepted_positions].
  - split; [intros [] | intros [j [c0 [c1 [H _]]]]; destruct j; discriminate].
  - assert (Htail : In k (accepted_positions (S i) rows) <->
                    exists j c0 c1,
                      nth_error (cells :: rows) (S j) = Some [c0; c1] /\ k = i + S j).
    { rewrite IH. split; intros [j [c0 [c1 [H ->]]]]; exists j, c0, c1;
        (split; [exact H | lia]). }
    destruct (Nat.eqb (List.length cells) 2) eqn:E.
    + apply Nat.eqb_eq in E.
      destruct cells as [|c0 [|c1 [|c2 cs]]]; try discriminate.
      cbn [In]. rewrite Htail. split.
      * intros [<- | [j H]]; [exists 0, c0, c1; split; [reflexivity | lia]|].
        exists (S j). exact H.
      * intros [[|j] [d0 [d1 [H ->]]]]; [left; lia|].
        right. exists j, d0, d1. split; [exact H | reflexivity].
    + apply Nat.eqb_neq in E. rewrite Htail. split.
      * intros [j H]. exists (S j). exact H.
      * intros [[|j] [d0 [d1 [H ->]]]].
        -- cbn in H. injection H as ->. contradiction E. reflexivity.
        -- exists j, d0, d1. split; [exact H | reflexivity].
Qed.

Lemma accepted_positions_not_below rows i l :
  accepted_positions (S i) rows <> i :: l.
Proof.
  intros H. destruct (accepted_positions_sorted rows (S i)) as [Hle _].
  rewrite H in Hle. inversion Hle; subst. lia.
Qed.

(** The positions are all of [i], [i+1], ... exactly when every row has two
    cells. *)
Lemma accepted_positions_full : forall rows i,
  accepted_positions i rows = seq i (List.length rows) <->
  (forall cells, In cells rows -> List.length cells = 2).
Proof.
  intros rows i. split; [|apply accepted_positions_all].
  revert i. induction rows as [|cells rows IH]; intros i H c Hc; [destruct Hc|].
  cbn [accepted_positions List.length seq] in H.
  destruct (Nat.eqb (List.length cells) 2) eqn:E.
  - injection H as H. destruct Hc as [<- | Hc]; [apply Nat.eqb_eq; exact E|].
    apply (IH (S i) H c Hc).
  - contradiction (accepted_positions_not_below _ _ _ H).
Qed.

(** The positions are consecutive from [i] exactly when the rows with two
    cells come first: no row without two cells comes before one with. *)
Lemma accepted_positions_prefix : forall rows i,
  accepted_positions i rows
  = seq i (List.length (accepted_positions i rows)) <->
  exists k, forall j cells,
    nth_error rows j = Some cells -> (List.length cells = 2 <-> j < k).
Proof.
  induction rows as [|cells rows IH]; intros i.
  - split; [|reflexivity]. intros _. exists 0. intros [|j] c H; discriminate.
  - cbn [accepted_positions]. destruct (Nat.eqb (List.length cells) 2) eqn:E.
    + apply Nat.eqb_eq in E. cbn [List.length seq]. split.
      * intros H. injection H as H. apply IH in H. destruct H as [k Hk].
        exists (S k). intros [|j] c Hc.
        -- injection Hc as <-. split; [lia | intros _; exact E].
        -- rewrite (Hk j c Hc). lia.
      * intros [k Hk]. f_equal. apply IH.
        destruct k as [|k].
        -- pose proof (proj1 (Hk 0 cells eq_refl) E). lia.
        -- exists k. intros j c Hc. rewrite (Hk (S j) c Hc). lia.
    + apply Nat.eqb_neq in E. split.
      * intros H.
        destruct (accepted_positions (S i) rows) as [|p l] eqn:Ea.
        -- exists 0. intros j c Hc. split; [|lia]. intros Hc2. exfalso.
           destruct j as [|j]; cbn [nth_error] in Hc;
             [injection Hc as <-; contradiction|].
           apply nth_error_In in Hc.
           exact (proj1 (accepted_positions_nil rows (S i)) Ea c Hc Hc2).
        -- cbn [List.length seq] in H. injection H as -> _.
           contradiction (accepted_positions_not_below _ _ _ Ea).
      * intros [k Hk].
        assert (Hk0 : k = 0).
        { destruct k; [reflexivity|].
          contradiction E. apply (Hk 0 cells eq_refl). lia. }
        subst k.
        assert (Hn : accepted_positions (S i) rows = []).
        { apply accepted_positions_nil. intros c Hc Hc2.
          apply In_nth_error in Hc. destruct Hc as [j Hj].
          pose proof (proj1 (Hk (S j) c Hj) Hc2). lia. }
        rewrite Hn. reflexivity.
Qed.

(** C4, as amended.  The [index] of a warning is the counter of the
    enumeration of the data rows: the position of its row in the table, the
    header row being row 0.  Skipped rows are counted: a position is an index
    exactly when the data row there has two cells, so the position of a
    skipped row is missing from the indices.  The indices are strictly
    increasing.  They are 1,2,...,m, for the m data rows, exactly when no data
    row is skipped; they are 1,2,...,n, for the n warnings returned, exactly
    when no skipped data row comes before an accepted one. *)
Theorem C4_index_is_row_position :
  forall rows,
    let warnings := fst (parse now true (Table rows)) in
    map index warnings = accepted_positions 1 (tl rows)
    /\ StronglySorted lt (map index warnings)
    /\ (forall w, In w warnings ->
          exists c0 c1,
            nth_error rows (index w) = Some [c0; c1]
            /\ message w = get_text c0)
    /\ (forall k, In k (map index warnings) <->
                  1 <= k /\ exists c0 c1, nth_error rows k = Some [c0; c1])
    /\ (map index warnings = seq 1 (List.length (tl rows)) <->
        (forall cells, In cells (tl rows) -> List.length cells = 2))
    /\ (map index warnings = seq 1 (List.length warnings) <->
        exists k, forall j cells,
          nth_error (tl rows) j = Some cells ->
          (List.length cells = 2 <-> j < k)).
Proof.
  intros rows warnings. subst warnings. cbn [parse negb fst].
  destruct (parse_rows_spec (tl rows) 1 0 []) as [ws' [H1 [H2 H3]]].
  rewrite H1. cbn [app].
  split; [exact H2|]. split; [|split; [|split; [|split]]].
  - rewrite H2. apply accepted_positions_sorted.
  - intros w Hw. destruct (H3 w Hw) as [k [c0 [c1 [Hk [Hi Hm]]]]].
    exists c0, c1. split; [|exact Hm]. rewrite Hi.
    destruct rows as [|r rows]; [destruct k; discriminate|]. exact Hk.
  - intros k. rewrite H2, accepted_positions_In. split.
    + intros [j [c0 [c1 [Hj ->]]]]. split; [lia|]. exists c0, c1.
      destruct rows as [|r rows]; [destruct j; discriminate|]. exact Hj.
    + intros [Hk [c0 [c1 Hc]]]. destruct k as [|j]; [lia|].
      exists j, c0, c1. split; [|reflexivity].
      destruct rows as [|r rows]; [discriminate|]. exact Hc.
  - rewrite H2. apply accepted_positions_full.
  - rewrite <- (length_map index ws'), H2. apply accepted_positions_prefix.
Qed.

End HTMLClaims.

(* ================================================================== *)
(** * Worker log *)
(* ================================================================== *)

Section WorkerLogClaims.
Import WorkerLogParser WorkerLogSpec.

Lemma split_char_0 sep s : Py.split_char sep 0 s = [s].
Proof. destruct s; reflexivity. Qed.

Lemma split_char_length sep : forall s m,
  List.length (Py.split_char sep m s) = S (Nat.min m (count_char sep s)).
Proof.
  induction s as [|c s IH]; intros m.
  - destruct m; reflexivity.
  - destruct m as [|m]; [reflexivity|].
    cbn [Py.split_char count_char]. destruct (Ascii.eqb c sep).
    + cbn [List.length]. rewrite IH. reflexivity.
    + specialize (IH (S m)).
      destruct (Py.split_char sep (S m) s) as [|p ps]; [discriminate|].
      cbn [List.length] in *. rewrite IH. reflexivity.
Qed.

(** A part before a cut has no separator in it, and the cut is at the first
    separator. *)
Lemma split_char_cut sep : forall s m p q ps,
  Py.split_char sep m s = p :: q :: ps ->
  count_char sep p = 0
  /\ exists s' m', s = p ++ String sep s' /\ m = S m'
                   /\ Py.split_char sep m' s' = q :: ps.
Proof.
  induction s as [|c s IH]; intros m p q ps H.
  - destruct m; discriminate.
  - destruct m as [|m]; [discriminate|].
    cbn [Py.split_char] in H. destruct (Ascii.eqb c sep) eqn:E.
    + apply Ascii.eqb_eq in E. subst c. injection H as <- H.
      split; [reflexivity|]. exists s, m. repeat split. exact H.
    + destruct (Py.split_char sep (S m) s) as [|p0 ps0] eqn:Es; [discriminate|].
      injection H as <- ->.
      destruct (IH _ _ _ _ Es) as [Hc [s' [m' [-> [Hm Hs]]]]].
      split; [cbn [count_char]; rewrite E, Hc; reflexivity|].
      exists s', m'. repeat split; assumption.
Qed.

Lemma split_char_first sep : forall a m r,
  count_char sep a = 0 ->
  Py.split_char sep (S m) (a ++ String sep r) = a :: Py.split_char sep m r.
Proof.
  induction a as [|c a IH]; intros m r H.
  - cbn. rewrite Ascii.eqb_refl. reflexivity.
  - cbn [count_char] in H. cbn [append Py.split_char].
    destruct (Ascii.eqb c sep); [discriminate|].
    rewrite IH by exact H. reflexivity.
Qed.

Lemma fold_step_flat_map lines : forall entries,
  fold_left step lines entries = (entries ++ flat_map (step []) lines)%list.
Proof.
  induction lines as [|line lines IH]; intros entries.
  - simpl. now rewrite app_nil_r.
  - cbn [fold_left flat_map]. rewrite IH, app_assoc. f_equal.
    unfold step. destruct (Py.split_char " " 2 (Py.strip line))
      as [|a [|b [|c [|d l]]]]; rewrite ?app_nil_r; reflexivity.
Qed.

(** C7, as amended.  [parse_worker_log] gives, in line order, one entry for
    each line that, stripped, has at least two space characters: the text
    before the first space is the timestamp, the text between the first two
    spaces the level (empty when the two are adjacent) and all the rest the
    message.  A line with fewer than two spaces gives no entry.  The two lines
    of the specification's example give one entry. *)
Theorem C7_three_space_separated_parts :
  (forall lines,
      parse_worker_log (Lines lines) = Some (flat_map (step []) lines))
  /\ (forall line a b c,
        Py.strip line = a ++ " " ++ b ++ " " ++ c ->
        count_char " " a = 0 -> count_char " " b = 0 ->
        step [] line = [Entry a b c])
  /\ (forall line e,
        In e (step [] line) ->
        step [] line = [e]
        /\ Py.strip line = timestamp e ++ " " ++ level e ++ " " ++ message e
        /\ count_char " " (timestamp e) = 0 /\ count_char " " (level e) = 0)
  /\ (forall line, count_char " " (Py.strip line) < 2 -> step [] line = [])
  /\ parse_worker_log (Lines ["2024-01-01 INFO hello world"; "malformed line"])
     = Some [Entry "2024-01-01" "INFO" "hello world"].
Proof.
  split; [|split; [|split; [|split]]].
  - intros lines. cbn [parse_worker_log]. rewrite fold_step_flat_map. reflexivity.
  - intros line a b c Hs Ha Hb. unfold step. rewrite Hs.
    change (a ++ " " ++ b ++ " " ++ c) with (a ++ String " " (b ++ String " " c)).
    rewrite (split_char_first " " a 1 _ Ha), (split_char_first " " b 0 _ Hb).
    rewrite split_char_0. reflexivity.
  - intros line e He. unfold step in *.
    destruct (Py.split_char " " 2 (Py.strip line))
      as [|a [|b [|c [|d l]]]] eqn:E; try (destruct He; fail).
    cbn [app] in He. destruct He as [<- | []].
    destruct (split_char_cut _ _ _ _ _ _ E) as [Ha [s1 [m1 [Hs1 [Hm1 E1]]]]].
    injection Hm1 as <-.
    destruct (split_char_cut _ _ _ _ _ _ E1) as [Hb [s2 [m2 [Hs2 [Hm2 E2]]]]].
    injection Hm2 as <-. rewrite split_char_0 in E2. injection E2 as ->.
    cbn [timestamp level message]. repeat split; try assumption.
    rewrite Hs1, Hs2. reflexivity.
  - intros line H. unfold step.
    pose proof (split_char_length " " (Py.strip line) 2) as HL.
    destruct (Py.split_char " " 2 (Py.strip line))
      as [|a [|b [|c [|d l]]]]; try reflexivity.
    cbn [List.length] in HL. lia.
  - vm_compute. reflexivity.
Qed.

End WorkerLogClaims.

(* ================================================================== *)
(** * Problem finder *)
(* ================================================================== *)

Section ProblemFinderClaims.
Import JournalProblemFinder ProblemSpec.

Lemma in_run_seq r1 r2 st st' :
  In st' (Re.run (Re.Seq r1 r2) st) ->
  exists s1, In s1 (Re.run r1 st) /\ In st' (Re.run r2 s1).
Proof. simpl. intros H. apply in_flat_map in H. exact H. Qed.

(** An anchor line gives its timestamp as group 1, twenty-four characters
    at least. *)
Lemma TIMESTAMP_group1 line m :
  Re.re_match TIMESTAMP line = Some m ->
  exists t, Re.group 1 m = Some t /\ 24 <= String.length t.
Proof.
  unfold Re.re_match, Re.match_at.
  destruct (Re.run TIMESTAMP (Re.MState 0 line [])) as [|st l] eqn:E;
    [discriminate|].
  intros H. injection H as <-.
  assert (Hin : In st (Re.run TIMESTAMP (Re.MState 0 line [])))
    by (rewrite E; left; reflexivity).
  clear E. unfold TIMESTAMP in Hin. cbn [Re.seqs] in Hin.
  apply in_run_seq in Hin. destruct Hin as [s1 [_ Hin]].
  apply in_run_seq in Hin. destruct Hin as [s2 [_ Hin]].
  apply in_run_seq in Hin. destruct Hin as [s3 [H3 Hin]].
  apply in_run_seq in Hin. destruct Hin as [s4 [H4 Hin]].
  apply in_run_seq in Hin. destruct Hin as [s5 [H5 Hin]].
  apply in_run_seq in Hin. destruct Hin as [s6 [H6 Hin]].
  destruct Hin as [<- | []].
  pose proof H3 as H3'.
  apply run_group in H3; [|reflexivity]. destruct H3 as [t [Hc3 Ha3]].
  pose proof (run_min_len _ _ _ _ H3' Ha3) as Hlen.
  match type of Hlen with ?a <= _ => change a with 24 in Hlen end.
  apply run_caps in H4; [|reflexivity].
  apply run_caps in H5; [|reflexivity].
  pose proof H6 as H6'.
  apply run_group in H6'; [|reflexivity]. destruct H6' as [t2 [Hc6 _]].
  exists t. split.
  - unfold Re.group. cbn [Re.groups]. rewrite Hc6, H5, H4, Hc3. reflexivity.
  - exact Hlen.
Qed.

Lemma or_unknown_some t : 1 <= String.length t -> or_unknown (Some t) = t.
Proof. destruct t; simpl; [lia | reflexivity]. Qed.

Lemma pattern_problems_timestamp last line :
  Forall (fun p => timestamp p = or_unknown last) (pattern_problems last line).
Proof.
  unfold pattern_problems.
  repeat (apply Forall_app; split).
  - destruct (Re.search ERROR line); repeat constructor.
  - destruct (Re.search API_WARNING line); repeat constructor.
  - destruct (Re.search PERFORMANCE line); repeat constructor.
Qed.

(** The fourth check, read off the RAM figure of the line. *)
Lemma resource_spike_figure limit self last line :
  resource_spike limit self last line
  = match ram_figure line with
    | Some digits =>
        if Py.exceeds_max_str_digits limit digits then None
        else Some (if (Z.of_N (Py.int_digits 0 digits) >? ram_spike_mb self)%Z
                   then [Problem (or_unknown last) "Resource Spike" "Memory Usage"
                           ("RAM spike of "
                            ++ Py.str_of_int (Z.of_N (Py.int_digits 0 digits))
                            ++ " MB detected")]
                   else [])
    | None => Some []
    end.
Proof.
  unfold resource_spike, ram_figure, Py.int.
  destruct (Re.search RESOURCE_SPIKE line); [|reflexivity].
  destruct (Py.exceeds_max_str_digits limit (g1 m)); [reflexivity|].
  destruct (_ >? _)%Z; reflexivity.
Qed.

Lemma resource_spike_timestamp limit self last line spike :
  resource_spike limit self last line = Some spike ->
  Forall (fun p => timestamp p = or_unknown last) spike.
Proof.
  rewrite resource_spike_figure.
  destruct (ram_figure line) as [digits|]; [|intros [= <-]; constructor].
  destruct (Py.exceeds_max_str_digits limit digits); [discriminate|].
  destruct (_ >? _)%Z; intros [= <-]; repeat constructor.
Qed.

Lemma line_problems_Some limit self last line added :
  line_problems limit self last line = Some added ->
  exists spike,
    resource_spike limit self last line = Some spike
    /\ added = (pattern_problems last line ++ spike)%list.
Proof.
  unfold line_problems.
  destruct (resource_spike limit self last line) as [spike|]; [|discriminate].
  intros [= <-]. exists spike. split; reflexivity.
Qed.

Lemma line_problems_timestamp limit self last line added :
  line_problems limit self last line = Some added ->
  Forall (fun p => timestamp p = or_unknown last) added.
Proof.
  intros H. destruct (line_problems_Some _ _ _ _ _ H) as [spike [Hs ->]].
  apply Forall_app. split; [apply pattern_problems_timestamp|].
  eapply resource_spike_timestamp. exact Hs.
Qed.

Lemma pattern_problems_no_spike last line :
  filter is_spike (pattern_problems last line) = [].
Proof.
  unfold pattern_problems. rewrite !filter_app.
  destruct (Re.search ERROR line), (Re.search API_WARNING line),
    (Re.search PERFORMANCE line); reflexivity.
Qed.

(** The turn of a line ends in the exception exactly when [int] refuses its
    RAM figure. *)
Lemma line_problems_None limit self last line :
  line_problems limit self last line = None <-> refused limit line = true.
Proof.
  unfold line_problems, refused. rewrite resource_spike_figure.
  destruct (ram_figure line) as [digits|]; [|split; discriminate].
  destruct (Py.exceeds_max_str_digits limit digits); [split; reflexivity|].
  destruct (_ >? _)%Z; split; discriminate.
Qed.

(** The Resource Spike problems of a line. *)
Lemma line_spikes limit self last line :
  option_map (filter is_spike) (line_problems limit self last line)
  = match ram_figure line with
    | Some digits =>
        if Py.exceeds_max_str_digits limit digits then None
        else Some (if (Z.of_N (Py.int_digits 0 digits) >? ram_spike_mb self)%Z
                   then [Problem (or_unknown last) "Resource Spike" "Memory Usage"
                           ("RAM spike of "
                            ++ Py.str_of_int (Z.of_N (Py.int_digits 0 digits))
                            ++ " MB detected")]
                   else [])
    | None => Some []
    end.
Proof.
  unfold line_problems. rewrite resource_spike_figure.
  destruct (ram_figure line) as [digits|]; cbn [option_map].
  - destruct (Py.exceeds_max_str_digits limit digits); [reflexivity|].
    cbn [option_map]. rewrite filter_app, pattern_problems_no_spike.
    destruct (_ >? _)%Z; reflexivity.
  - rewrite filter_app, pattern_problems_no_spike. reflexivity.
Qed.

Lemma line_spikes_length limit self last line added :
  line_problems limit self last line = Some added ->
  List.length (filter is_spike added) = if exceeds self line then 1 else 0.
Proof.
  intros H. pose proof (line_spikes limit self last line) as HS.
  rewrite H in HS. cbn [option_map] in HS. unfold exceeds.
  destruct (ram_figure line) as [digits|].
  - destruct (Py.exceeds_max_str_digits limit digits); [discriminate|].
    injection HS as ->. destruct (_ >? _)%Z; reflexivity.
  - injection HS as ->. reflexivity.
Qed.

(** A turn that returns: the timestamp in force is updated first, and the
    problems of the line are added under it. *)
Lemma step_Some limit self problems last line st :
  step limit self (problems, last) line = Some st ->
  exists added,
    line_problems limit self (in_force last line) line = Some added
    /\ st = ((problems ++ added)%list, in_force last line).
Proof.
  unfold step, in_force.
  destruct (line_problems limit self _ line) as [added|]; [|discriminate].
  intros [= <-]. exists added. split; reflexivity.
Qed.

Lemma step_None limit self problems last line :
  step limit self (problems, last) line = None <-> refused limit line = true.
Proof.
  rewrite <- (line_problems_None limit self (in_force last line) line).
  unfold step, in_force.
  destruct (line_problems limit self _ line); split; congruence.
Qed.

Lemma scan_app limit self a : forall b st,
  scan limit self (a ++ b) st
  = match scan limit self a st with
    | Some st' => scan limit self b st'
    | None => None
    end.
Proof.
  induction a as [|line a IH]; intros b st; [reflexivity|].
  cbn [app scan]. destruct (step limit self st line); [apply IH | reflexivity].
Qed.

(** The loop ends in the exception exactly when some line has a RAM figure
    that [int] refuses. *)
Lemma scan_None limit self : forall lines st,
  scan limit self lines st = None <-> existsb (refused limit) lines = true.
Proof.
  induction lines as [|line lines IH]; intros [problems last].
  - cbn. split; discriminate.
  - cbn [scan existsb]. rewrite orb_true_iff.
    destruct (step limit self (problems, last) line) as [st'|] eqn:E.
    + rewrite IH. split; [right; assumption|].
      intros [H | H]; [|exact H].
      apply (step_None limit self problems last) in H. congruence.
    + split; [|reflexivity]. intros _. left.
      apply (step_None limit self problems last). exact E.
Qed.

(** The loop only adds to [problems]. *)
Lemma scan_extends limit self : forall lines problems last problems' last',
  scan limit self lines (problems, last) = Some (problems', last') ->
  exists late, problems' = (problems ++ late)%list.
Proof.
  induction lines as [|line lines IH]; intros problems last problems' last' H.
  - injection H as <- <-. exists []. now rewrite app_nil_r.
  - cbn [scan] in H.
    destruct (step limit self (problems, last) line) as [st|] eqn:E; [|discriminate].
    destruct (step_Some _ _ _ _ _ _ E) as [added [_ ->]].
    destruct (IH _ _ _ _ H) as [late ->].
    exists (added ++ late)%list. now rewrite app_assoc.
Qed.

Lemma scan_spikes limit self : forall lines problems last problems' last',
  scan limit self lines (problems, last) = Some (problems', last') ->
  List.length (filter is_spike problems')
  = List.length (filter is_spike problems)
    + List.length (filter (exceeds self) lines).
Proof.
  induction lines as [|line lines IH]; intros problems last problems' last' H.
  - injection H as <- <-. cbn. lia.
  - cbn [scan] in H.
    destruct (step limit self (problems, last) line) as [st|] eqn:E; [|discriminate].
    destruct (step_Some _ _ _ _ _ _ E) as [added [Ha ->]].
    rewrite (IH _ _ _ _ H), filter_app, length_app.
    rewrite (line_spikes_length _ _ _ _ _ Ha).
    cbn [filter]. destruct (exceeds self line); cbn [List.length]; lia.
Qed.

Lemma find_problems_Some limit self file_content problems :
  find_problems limit self file_content = Some problems ->
  exists last,
    scan limit self (Py.splitlines file_content) ([], None) = Some (problems, last).
Proof.
  unfold find_problems.
  destruct (scan limit self (Py.splitlines file_content) ([], None))
    as [[ps last]|]; [|discriminate].
  intros [= <-]. exists last. reflexivity.
Qed.

Lemma find_problems_None limit self file_content :
  find_problems limit self file_content = None
  <-> existsb (refused limit) (Py.splitlines file_content) = true.
Proof.
  rewrite <- (scan_None limit self (Py.splitlines file_content) ([], None)).
  unfold find_problems.
  destruct (scan limit self (Py.splitlines file_content) ([], None))
    as [[ps last]|]; split; congruence.
Qed.

(** C6, as amended.  Where [int] converts the RAM figure of a line, the line
    adds a Resource Spike problem exactly when the figure is strictly above
    [ram_spike_mb], and the description names the figure; [int] converts every
    figure of at most 640 digits, every figure when there is no limit, and
    every figure within the limit (4300 digits by default).  Where [int]
    refuses the figure the turn ends in its [ValueError]: [find_problems]
    returns nothing exactly when some line has such a figure.  When it
    returns, the Resource Spike problems are as many as the lines with a
    figure above the threshold.  With the default threshold of 500, under any
    limit, a line with 400 gives no problem and a line with 600 gives exactly
    one. *)
Theorem C6_resource_spike_threshold :
  (forall limit self last line,
      option_map (filter is_spike) (line_problems limit self last line)
      = match ram_figure line with
        | Some digits =>
            if Py.exceeds_max_str_digits limit digits then None
            else Some (if (Z.of_N (Py.int_digits 0 digits) >? ram_spike_mb self)%Z
                       then [Problem (or_unknown last) "Resource Spike" "Memory Usage"
                               ("RAM spike of "
                                ++ Py.str_of_int (Z.of_N (Py.int_digits 0 digits))
                                ++ " MB detected")]
                       else [])
        | None => Some []
        end)
  /\ (forall limit digits,
        String.length digits <= 640 \/ limit = 0 \/ String.length digits <= limit ->
        Py.exceeds_max_str_digits limit digits = false)
  /\ (forall limit self file_content,
        find_problems limit self file_content = None
        <-> existsb (refused limit) (Py.splitlines file_content) = true)
  /\ (forall limit self file_content problems,
        find_problems limit self file_content = Some problems ->
        List.length (filter is_spike problems)
        = List.length (filter (exceeds self) (Py.splitlines file_content)))
  /\ ram_spike_mb default = 500%Z
  /\ (forall limit, find_problems limit default "RAM: Used +400 MB" = Some [])
  /\ (forall limit,
        find_problems limit default "RAM: Used +600 MB"
        = Some [Problem "Unknown" "Resource Spike" "Memory Usage"
                        "RAM spike of 600 MB detected"]).
Proof.
  split; [|split; [|split; [|split; [|split; [|split]]]]].
  - apply line_spikes.
  - intros limit digits H. unfold Py.exceeds_max_str_digits, Py.str_digits_check_threshold.
    destruct (Nat.ltb 640 (String.length digits)) eqn:E1; [|reflexivity].
    destruct (Nat.ltb 0 limit) eqn:E2; [|reflexivity].
    destruct (Nat.ltb limit (String.length digits)) eqn:E3; [|reflexivity].
    apply Nat.ltb_lt in E1, E2, E3. lia.
  - apply find_problems_None.
  - intros limit self file_content problems H.
    destruct (find_problems_Some _ _ _ _ H) as [last Hs].
    rewrite (scan_spikes _ _ _ _ _ _ _ Hs). reflexivity.
  - reflexivity.
  - intros limit. vm_compute. reflexivity.
  - intros limit. vm_compute. reflexivity.
Qed.

(** C10.  The anchor check comes first in a turn of the loop.  So in the
    list that [find_problems] returns, the problems of a line that is itself
    an anchor carry the timestamp of that very line (group 1 of the anchor
    match), which is never the word Unknown, whatever timestamp was in force
    before: the list is the problems of the lines before it, then the problems
    the line adds under its own timestamp, then those of the lines after it.
    When the line matches the error pattern, its Error problem is among
    them. *)
Theorem C10_anchor_line_own_timestamp :
  forall limit self file_content problems before line after m,
    Py.splitlines file_content = (before ++ line :: after)%list ->
    Re.re_match TIMESTAMP line = Some m ->
    find_problems limit self file_content = Some problems ->
    exists t earlier last here later,
      Re.group 1 m = Some t
      /\ t <> "Unknown"
      /\ scan limit self before ([], None) = Some (earlier, last)
      /\ step limit self (earlier, last) line
         = Some ((earlier ++ here)%list, Some t)
      /\ line_problems limit self (Some t) line = Some here
      /\ problems = (earlier ++ here ++ later)%list
      /\ Forall (fun p => timestamp p = t) here
      /\ (Re.search ERROR line <> None ->
          In (Problem t "Error" "Journal" (truncated 150 line)) here).
Proof.
  intros limit self file_content problems before line after m Hl Hm H.
  destruct (TIMESTAMP_group1 line m Hm) as [t [Hg Hlen]].
  assert (Hg1 : g1 m = t) by (unfold g1; rewrite Hg; reflexivity).
  destruct (find_problems_Some _ _ _ _ H) as [last' Hs].
  rewrite Hl, scan_app in Hs.
  destruct (scan limit self before ([], None)) as [[earlier last]|] eqn:Eb;
    [|discriminate].
  cbn [scan] in Hs.
  destruct (step limit self (earlier, last) line) as [st|] eqn:Es; [|discriminate].
  destruct (step_Some _ _ _ _ _ _ Es) as [here [Hh ->]].
  assert (Hf : in_force last line = Some t)
    by (unfold in_force; rewrite Hm, Hg1; reflexivity).
  rewrite Hf in Hh, Hs, Es.
  destruct (scan_extends _ _ _ _ _ _ _ Hs) as [later ->].
  exists t, earlier, last, here, later.
  split; [exact Hg|]. split; [intros ->; simpl in Hlen; lia|].
  split; [reflexivity|]. split; [exact Es|]. split; [exact Hh|].
  split; [now rewrite app_assoc|]. split.
  - pose proof (line_problems_timestamp _ _ _ _ _ Hh) as HF.
    rewrite or_unknown_some in HF by lia. exact HF.
  - intros He. destruct (line_problems_Some _ _ _ _ _ Hh) as [spike [_ ->]].
    apply in_or_app. left. unfold pattern_problems.
    destruct (Re.search ERROR line); [|contradiction He; reflexivity].
    left. rewrite or_unknown_some by lia. reflexivity.
Qed.

End ProblemFinderClaims.

(* ================================================================== *)
(** * The properties at concrete inputs *)
(* ================================================================== *)

Section Instances.
Import JournalParser JournalSpec.

(** A file that raises a decoding error under every encoding. *)
Lemma C1_total_failure_witness :
  let f : file := fun _ => ReadFail (UnicodeDecodeError "invalid start byte") in
  unreadable f encodings
  /\ fst (parse_journal unquote_plain f) = []
  /\ exists cause,
       parse_journal_with_models unquote_plain f
       = Raise "RuntimeError" "Failed to parse journal file" cause.
Proof.
  intros f.
  assert (H : unreadable f encodings).
  { intros encoding _. exists (UnicodeDecodeError "invalid start byte"). reflexivity. }
  split; [exact H|]. exact (C1_total_failure unquote_plain f H).
Defined.

(** A [Jrn.Command] line with [exception] in it and BIG_GAP as well: the
    category is BIG GAP, not Error. *)
Lemma C2_counterexample :
  let line := "Jrn.Command " ++ dq ++ "X" ++ dq ++ "," ++ dq ++ "Y" ++ dq
              ++ " exception BIG_GAP" in
  Py.startswith (Py.strip line) "Jrn.Command" = true
  /\ Py.contains "exception" (Py.lower (Py.strip line)) = true
  /\ map category (parse_lines unquote_plain [line]) = [BigGap]
  /\ map category (parse_lines unquote_plain [line]) <> [Error].
Proof.
  intros line. repeat split; try (vm_compute; reflexivity).
  vm_compute. discriminate.
Defined.

Lemma C2_content_rules_win_witness :
  let raw := "Jrn.Command " ++ dq ++ "X" ++ dq ++ "," ++ dq ++ "Y" ++ dq
             ++ " API_ERROR" in
  (Py.startswith (Py.strip raw) "Jrn.Command" = true
   /\ has_error_marker (Py.strip raw) = true
   /\ has_big_gap (Py.strip raw) = false
   /\ names_model (Py.strip raw) = false)
  /\ Forall2
       (fun raw e =>
          let line := Py.strip raw in
          Py.startswith line "Jrn.Command" = true ->
          has_error_marker line = true ->
          category e <> Command
          /\ (has_big_gap line = false -> names_model line = false ->
              category e = Error)
          /\ (has_big_gap line = true ->
              names_model (annotate_gap line) = false ->
              category e = BigGap)
          /\ (names_model (annotate_gap line) = true -> category e = Model))
       [raw] (parse_lines unquote_plain [raw]).
Proof.
  intros raw. split.
  - repeat split; vm_compute; reflexivity.
  - exact (proj1 C2_content_rules_win unquote_plain [raw]).
Defined.

(** A line without a timestamp after a line with one: its timestamp is
    null. *)
Lemma C3_counterexample :
  exists doc,
    parse_journal_with_models unquote_plain
      (fun _ => ReadOk ["'C 01-Jan-2024 10:00:00.000; x"; "no-timestamp-here"])
    = Return (Some doc)
    /\ map l_timestamp (doc_lines doc) = [Some "01-Jan-2024 10:00:00.000"; None].
Proof.
  eexists. split; [reflexivity|]. vm_compute. reflexivity.
Defined.

Lemma C3_own_token_or_null_witness :
  let lines := ["'C 01-Jan-2024 10:00:00.000; x"; "no-timestamp-here"] in
  let f : file := fun _ => ReadOk lines in
  parse_journal_with_models unquote_plain f = Return (Some (document_of unquote_plain lines))
  /\ exists encoding lines',
       In encoding encodings /\ f encoding = ReadOk lines'
       /\ map l_timestamp (doc_lines (document_of unquote_plain lines))
          = map line_token lines'.
Proof.
  intros lines f. split; [reflexivity|].
  exact (C3_own_token_or_null unquote_plain f (document_of unquote_plain lines) eq_refl).
Defined.

(** A user name found before the model is recorded does not reach it; a
    second user name found after it does. *)
Lemma C8_counterexample :
  let alice := "' User's Name Alice, 1" in
  let bob := "' User's Name Bob, 2" in
  let model := "' ModelPath Created: Path = " ++ dq ++ "C:\m.rvt" ++ dq in
  found_username alice = Some "Alice"
  /\ map (Py.dict_get "path") (models_info (run_lines unquote_plain [alice; model]))
     = [Some "C:\m.rvt"]
  /\ map (Py.dict_get "username") (models_info (run_lines unquote_plain [alice; model]))
     = [None]
  /\ map (Py.dict_get "username") (models_info (run_lines unquote_plain [alice; model; bob]))
     = [Some "Bob"].
Proof.
  intros alice bob model. repeat split; vm_compute; reflexivity.
Defined.

Lemma C8_username_backfill_witness :
  let alice := "' User's Name Alice, 1" in
  let bob := "' User's Name Bob, 2" in
  let model := "' ModelPath Created: Path = " ++ dq ++ "C:\m.rvt" ++ dq in
  let st := run_lines unquote_plain [model; alice] in
  models_info st = models_described unquote_plain "" [model; alice]
  /\ map (Py.dict_get "username") (models_info st) = [Some "Alice"]
  /\ map (Py.dict_get "username") (models_info (step unquote_plain st bob)) = [Some "Alice"]
  /\ Forall (fun m => Py.dict_has "username" m = true)
            (models_info (step unquote_plain st bob)).
Proof.
  intros alice bob model st.
  destruct (C8_username_backfill unquote_plain [model; alice]) as [H1 [H2 H3]].
  split; [exact H1|]. split; [vm_compute; reflexivity|].
  split; [vm_compute; reflexivity|].
  exact (H3 st bob "Bob" eq_refl).
Defined.

Lemma C9_command_label_witness :
  let raw := "Jrn.Command " ++ dq ++ "Ribbon" ++ dq ++ " , " ++ dq ++ "Save" ++ dq in
  map command (parse_lines unquote_plain [raw]) = ["Ribbon: Save"]
  /\ map category (parse_lines unquote_plain [raw]) = [Command]
  /\ current_command (run_lines unquote_plain [raw]) = "".
Proof.
  intros raw. split; [vm_compute; reflexivity|]. split; [vm_compute; reflexivity|].
  destruct (C9_command_label unquote_plain [raw]) as [_ H].
  refine (H [] (Entry Command raw "" "Ribbon: Save" None) _ _);
    vm_compute; reflexivity.
Defined.

End Instances.

Section OtherInstances.
Import HTMLParser TableSpec.

(** A data row with one cell before a row with two: the one warning has
    index 2. *)
Lemma C4_counterexample :
  let rows := [[]; [Cell "note" []];
               [Cell "Wall join error" []; Cell "" ["<elem A> id 123"]]] in
  let warnings := fst (parse (fun _ => "") true (Table rows)) in
  List.length warnings = 1
  /\ map index warnings = [2]
  /\ map index warnings <> seq 1 (List.length warnings).
Proof.
  intros rows warnings. repeat split; try (vm_compute; reflexivity).
  vm_compute. discriminate.
Defined.

(** Every data row accepted: the indices are 1, 2.  A skipped row after the
    accepted one: the index is still 1, for the one warning. *)
Lemma C4_index_is_row_position_witness :
  let c := Cell "Wall join error" [] in
  let rows := [[]; [c; c]; [c; c]] in
  let rows' := [[]; [c; c]; [c]] in
  (forall cells, In cells (tl rows) -> List.length cells = 2)
  /\ map index (fst (parse (fun _ => "") true (Table rows))) = [1; 2]
  /\ (exists k, forall j cells,
        nth_error (tl rows') j = Some cells -> (List.length cells = 2 <-> j < k))
  /\ map index (fst (parse (fun _ => "") true (Table rows'))) = [1].
Proof.
  intros c rows rows'.
  assert (H : forall cells, In cells (tl rows) -> List.length cells = 2).
  { intros cells [<- | [<- | []]]; reflexivity. }
  assert (H' : exists k, forall j cells,
             nth_error (tl rows') j = Some cells ->
             (List.length cells = 2 <-> j < k)).
  { exists 1. intros [|[|j]] cells Hj; cbn in Hj.
    - injection Hj as <-. cbn. lia.
    - injection Hj as <-. cbn. lia.
    - destruct j; discriminate. }
  split; [exact H|]. split.
  - exact (proj2 (proj1 (proj2 (proj2 (proj2 (proj2
             (C4_index_is_row_position (fun _ => "") rows)))))) H).
  - split; [exact H'|].
    exact (proj2 (proj2 (proj2 (proj2 (proj2 (proj2
             (C4_index_is_row_position (fun _ => "") rows')))))) H').
Defined.

End OtherInstances.

Section WorkerLogInstances.
Import WorkerLogParser WorkerLogSpec.

(** Two spaces in a row: two whitespace-delimited fields, and yet an entry,
    its level empty.  Two tabs: three whitespace-delimited fields, and yet no
    entry. *)
Lemma C7_counterexample :
  whitespace_fields 2 (Py.strip "2024-01-01  hello") = ["2024-01-01"; "hello"]
  /\ parse_worker_log (Lines ["2024-01-01  hello"])
     = Some [Entry "2024-01-01" "" "hello"]
  /\ whitespace_fields 2 (Py.strip ("2024-01-01" ++ tab ++ "INFO" ++ tab ++ "hello"))
     = ["2024-01-01"; "INFO"; "hello"]
  /\ parse_worker_log (Lines ["2024-01-01" ++ tab ++ "INFO" ++ tab ++ "hello"])
     = Some [].
Proof.
  repeat split; vm_compute; reflexivity.
Defined.

Lemma C7_three_space_separated_parts_witness :
  step [] "2024-01-01 INFO hello world" = [Entry "2024-01-01" "INFO" "hello world"]
  /\ step [] "malformed line" = [].
Proof.
  destruct C7_three_space_separated_parts as [_ [H2 [_ [H4 _]]]].
  split.
  - apply (H2 "2024-01-01 INFO hello world" "2024-01-01" "INFO" "hello world");
      vm_compute; reflexivity.
  - apply (H4 "malformed line"). vm_compute. lia.
Defined.

End WorkerLogInstances.

Section ProblemFinderInstances.
Import JournalProblemFinder ProblemSpec.

(** A RAM figure of 4301 digits under the default limit: the pattern captures
    it and the number it denotes is above the threshold, yet no Resource Spike
    is reported, the call ending in the [ValueError] of [int]. *)
Lemma C6_counterexample :
  let digits := Py.repeat_char "9" 4301 in
  let line := "RAM: Used +" ++ digits ++ " MB" in
  ram_figure line = Some digits
  /\ (Z.of_N (Py.int_digits 0 digits) > ram_spike_mb default)%Z
  /\ Py.int Py.default_max_str_digits digits = None
  /\ find_problems Py.default_max_str_digits default line = None.
Proof.
  intros digits line. split; [|split; [|split]]; vm_compute; reflexivity.
Defined.

(** Two lines with a figure, one above the threshold. *)
Lemma C6_resource_spike_threshold_witness :
  let file_content :=
    "RAM: Used +600 MB" ++ JournalParser.newline ++ "RAM: Avail 9000 MB, Used +400 MB" in
  let problems :=
    [Problem "Unknown" "Resource Spike" "Memory Usage" "RAM spike of 600 MB detected"] in
  find_problems Py.default_max_str_digits default file_content = Some problems
  /\ filter (exceeds default) (Py.splitlines file_content) = ["RAM: Used +600 MB"]
  /\ List.length (filter is_spike problems)
     = List.length (filter (exceeds default) (Py.splitlines file_content)).
Proof.
  intros file_content problems.
  assert (H : find_problems Py.default_max_str_digits default file_content
              = Some problems) by (vm_compute; reflexivity).
  split; [exact H|]. split; [vm_compute; reflexivity|].
  exact (proj1 (proj2 (proj2 (proj2 C6_resource_spike_threshold)))
           Py.default_max_str_digits default file_content problems H).
Defined.

(** An anchor line with an error in it, after an earlier anchor: the problem
    returned carries the timestamp of the second line. *)
Lemma C10_anchor_line_own_timestamp_witness :
  let first := "'C 01-Jan-2024 10:00:00.000; started" in
  let line := "'C 01-Jan-2024 10:00:05.000; error in the worker" in
  let file_content := first ++ JournalParser.newline ++ line in
  find_problems Py.default_max_str_digits default file_content
  = Some [Problem "01-Jan-2024 10:00:05.000" "Error" "Journal" line]
  /\ exists m,
       Re.re_match TIMESTAMP line = Some m
       /\ exists t earlier last here later,
            Re.group 1 m = Some t
            /\ t <> "Unknown"
            /\ scan Py.default_max_str_digits default [first] ([], None)
               = Some (earlier, last)
            /\ step Py.default_max_str_digits default (earlier, last) line
               = Some ((earlier ++ here)%list, Some t)
            /\ line_problems Py.default_max_str_digits default (Some t) line
               = Some here
            /\ [Problem "01-Jan-2024 10:00:05.000" "Error" "Journal" line]
               = (earlier ++ here ++ later)%list
            /\ Forall (fun p => timestamp p = t) here
            /\ (Re.search ERROR line <> None ->
                In (Problem t "Error" "Journal" (truncated 150 line)) here).
Proof.
  intros first line file_content.
  assert (Hf : find_problems Py.default_max_str_digits default file_content
               = Some [Problem "01-Jan-2024 10:00:05.000" "Error" "Journal" line])
    by (vm_compute; reflexivity).
  assert (Hl : Py.splitlines file_content = ([first] ++ line :: [])%list)
    by (vm_compute; reflexivity).
  split; [exact Hf|].
  destruct (Re.re_match TIMESTAMP line) as [m|] eqn:E; [|vm_compute in E; discriminate].
  exists m. split; [reflexivity|].
  exact (C10_anchor_line_own_timestamp Py.default_max_str_digits default
           file_content _ [first] line [] m Hl E Hf).
Defined.

End ProblemFinderInstances.

(* ================================================================== *)
(** * More on the matcher: what a match is made of *)
(* ================================================================== *)

Section MatchFacts.
Import Re ReSpec.

Lemma append_length_inj : forall a b c d : string,
  String.length a = String.length b -> a ++ c = b ++ d -> a = b.
Proof.
  induction a as [|x a IH]; intros [|y b] c d Hl H; simpl in *;
    try discriminate; [reflexivity|].
  injection H as -> H. f_equal. eapply IH; [|exact H]. lia.
Qed.

(** The text between two positions is determined by them. *)
Lemma advances_unique st st' p q :
  advances st st' p -> advances st st' q -> p = q.
Proof.
  intros [H1 H2] [H3 H4]. eapply append_length_inj; [lia|].
  rewrite <- H1, <- H3. reflexivity.
Qed.

Lemma all_chars_app P a b :
  all_chars P (a ++ b) = all_chars P a && all_chars P b.
Proof.
  induction a as [|c a IH]; simpl; [reflexivity|].
  rewrite IH. apply andb_assoc.
Qed.

Lemma star_loop_chars P once greedy :
  (forall st st', In st' (once st) ->
     exists pre, advances st st' pre /\ all_chars P pre = true) ->
  forall fuel st st', In st' (star_loop once greedy fuel st) ->
    exists pre, advances st st' pre /\ all_chars P pre = true.
Proof.
  intros Honce. induction fuel as [|fuel IH]; intros st st' Hin; simpl in Hin.
  - destruct Hin as [<- | []]. exists "". split; [apply advances_refl | reflexivity].
  - assert (Hmore :
      In st' (flat_map (fun s1 =>
                 if Nat.ltb (String.length (rest s1)) (String.length (rest st))
                 then star_loop once greedy fuel s1 else []) (once st)) ->
      exists pre, advances st st' pre /\ all_chars P pre = true).
    { intros H. apply in_flat_map in H. destruct H as [s1 [H1 H2]].
      destruct (Nat.ltb _ _); [|destruct H2].
      destruct (Honce _ _ H1) as [p [Hp Hpc]].
      destruct (IH _ _ H2) as [q [Hq Hqc]].
      exists (p ++ q). split; [eapply advances_trans; eassumption|].
      rewrite all_chars_app, Hpc, Hqc. reflexivity. }
    destruct greedy.
    + apply in_app_or in Hin. destruct Hin as [H | [<- | []]]; auto.
      exists "". split; [apply advances_refl | reflexivity].
    + destruct Hin as [<- | H]; auto.
      exists "". split; [apply advances_refl | reflexivity].
Qed.

(** A match consumes only characters that its classes admit. *)
Lemma run_chars P r :
  chars_ok P r ->
  forall st st', In st' (run r st) ->
    exists pre, advances st st' pre /\ all_chars P pre = true.
Proof.
  induction r as [| |p|r1 IH1 r2 IH2|r1 IH1 r2 IH2|g r1 IH1|n r1 IH1];
    intros Hok st st' Hin; simpl in Hin, Hok.
  - destruct Hin as [<- | []]. exists "". split; [apply advances_refl | reflexivity].
  - destruct (Nat.eqb (pos st) 0); [|destruct Hin].
    destruct Hin as [<- | []]. exists "". split; [apply advances_refl | reflexivity].
  - destruct (rest st) as [|c s'] eqn:E; [destruct Hin|].
    destruct (p c) eqn:Ep; [|destruct Hin]. destruct Hin as [<- | []].
    exists (String c ""). split.
    + split; simpl; [assumption | lia].
    + simpl. rewrite (Hok c Ep). reflexivity.
  - destruct Hok as [Hok1 Hok2].
    apply in_flat_map in Hin. destruct Hin as [s1 [H1 H2]].
    destruct (IH1 Hok1 _ _ H1) as [p [Hp Hpc]].
    destruct (IH2 Hok2 _ _ H2) as [q [Hq Hqc]].
    exists (p ++ q). split; [eapply advances_trans; eassumption|].
    rewrite all_chars_app, Hpc, Hqc. reflexivity.
  - destruct Hok as [Hok1 Hok2].
    apply in_app_or in Hin. destruct Hin as [H | H]; eauto.
  - eapply star_loop_chars; eauto.
  - apply in_map_iff in Hin. destruct Hin as [s1 [<- H1]].
    destruct (IH1 Hok _ _ H1) as [p [[Hp1 Hp2] Hpc]].
    exists p. split; [split; simpl; assumption | exact Hpc].
Qed.

(** A match found at a position: the state it ends in, and its text. *)
Lemma match_at_sound r p s m :
  match_at r p s = Some m ->
  exists st, In st (run r (MState p s []))
             /\ advances (MState p s []) st (group0 m)
             /\ groups m = caps st.
Proof.
  unfold match_at. destruct (run r (MState p s [])) as [|st l] eqn:E; [discriminate|].
  intros H. injection H as <-. exists st.
  assert (Hin : In st (run r (MState p s []))) by (rewrite E; left; reflexivity).
  split; [left; reflexivity|]. cbn [group0 groups]. split; [|reflexivity].
  destruct (run_advances _ _ _ Hin) as [pre [Hp1 Hp2]]. cbn [rest pos] in Hp1, Hp2.
  rewrite Hp2, Hp1.
  replace (p + String.length pre - p) with (String.length pre) by lia.
  rewrite take_append. split; cbn [rest pos]; [reflexivity | lia].
Qed.

(** A match found by a search: it is a match at some position of the text. *)
Lemma search_from_sound r : forall s p m,
  search_from r p s = Some m ->
  exists skipped s' q,
    s = skipped ++ s' /\ match_at r q s' = Some m.
Proof.
  induction s as [|c s IH]; intros p m H; simpl in H.
  - destruct (match_at r p "") eqn:E; [|discriminate]. injection H as ->.
    exists "", "", p. split; [reflexivity | exact E].
  - destruct (match_at r p (String c s)) eqn:E.
    + injection H as ->. exists "", (String c s), p. split; [reflexivity | exact E].
    + destruct (IH _ _ H) as [sk [s' [q [Hs Hm]]]].
      exists (String c sk), s', q. split; [simpl; now rewrite Hs | exact Hm].
Qed.

(** The text of a match is as long as the pattern demands. *)
Lemma search_min_len r s m :
  search r s = Some m -> min_len r <= String.length (group0 m).
Proof.
  intros H. apply search_from_sound in H. destruct H as [sk [s' [q [_ Hm]]]].
  apply match_at_sound in Hm. destruct Hm as [st [Hin [Hadv _]]].
  eapply run_min_len; eassumption.
Qed.

(** The text of a match holds only characters that the pattern admits. *)
Lemma search_chars P r s m :
  chars_ok P r -> search r s = Some m -> all_chars P (group0 m) = true.
Proof.
  intros Hok H. apply search_from_sound in H. destruct H as [sk [s' [q [_ Hm]]]].
  apply match_at_sound in Hm. destruct Hm as [st [Hin [Hadv _]]].
  destruct (run_chars P r Hok _ _ Hin) as [pre [Hp Hc]].
  rewrite (advances_unique _ _ _ _ Hadv Hp). exact Hc.
Qed.

(** A search finds its match inside the text. *)
Lemma search_inside r s m :
  search r s = Some m ->
  exists before after, s = before ++ group0 m ++ after.
Proof.
  intros H. apply search_from_sound in H. destruct H as [sk [s' [q [Hs Hm]]]].
  apply match_at_sound in Hm. destruct Hm as [st [_ [[Hadv _] _]]].
  cbn [rest] in Hadv. exists sk, (rest st). rewrite Hs, Hadv. reflexivity.
Qed.

End MatchFacts.

(* ================================================================== *)
(** * Flat-mode journal parsing: further properties *)
(* ================================================================== *)

Section FlatModeMore.
Import JournalParser JournalSpec MoreSpec ReSpec.

Variable unquote : string -> string.

(** What a turn of the loop makes of the content, the command label and the
    attached ModelInfo. *)
Lemma step_fields st raw :
  exists e,
    parsed_data (step unquote st raw) = (parsed_data st ++ [e])%list
    /\ content e = annotate_gap (Py.strip raw)
    /\ command e
       = (if category_eqb (category e) Command
          then snd (prefix_category (Py.strip raw) (current_command st))
          else "")
    /\ current_command (step unquote st raw)
       = (if category_eqb (category e) Command then ""
          else snd (prefix_category (Py.strip raw) (current_command st)))
    /\ model_info e
       = (if names_model (annotate_gap (Py.strip raw))
          then Some (extract_model_info unquote (timestamp e)
                       (annotate_gap (Py.strip raw)))
          else None).
Proof.
  unfold step, names_model.
  pose proof (prefix_category_not_model (Py.strip raw) (current_command st)) as Hpc.
  destruct (prefix_category (Py.strip raw) (current_command st)) as [c cc].
  cbn [fst] in Hpc.
  eexists. split; [reflexivity|].
  cbn [content command category current_command model_info timestamp snd].
  split; [reflexivity|]. split; [reflexivity|]. split; [reflexivity|].
  assert (Hno : category_eqb (content_category (Py.strip raw) c) Model = false).
  { destruct (category_eqb _ Model) eqn:Ec; [|reflexivity].
    apply category_eqb_eq, content_category_model in Ec. contradiction. }
  destruct (Py.contains "ModelPath Created" _ && Py.contains "Path = " _
            && Py.contains ".rvt" _); cbn [andb].
  - rewrite extract_has_path.
    destruct (Re.search path_re (annotate_gap (Py.strip raw))) eqn:Ep.
    + cbn [andb]. unfold extract_model_info at 1. rewrite Ep.
      destruct (Re.search region_re _), (Re.search server_re _),
        (Re.search server_path_re _); reflexivity.
    + rewrite Hno. reflexivity.
  - rewrite Hno. reflexivity.
Qed.

Lemma annotate_gap_suffix line :
  exists prefix,
    annotate_gap line = prefix ++ line
    /\ (has_big_gap line = false -> prefix = "").
Proof.
  unfold annotate_gap, has_big_gap.
  destruct (Py.contains "BIG_GAP" line || Py.contains "!!!BIG_GAP" line).
  - destruct (Re.search gap_re line) as [m|].
    + exists ("BIG GAP: " ++ g1 m ++ " seconds - "). split; [|discriminate].
      rewrite !append_assoc. reflexivity.
    + exists "". split; [reflexivity | discriminate].
  - exists "". split; reflexivity.
Qed.

(** X1.  Flat mode makes exactly one entry of every line, blank lines
    included, in file order.  The content of the entry is the stripped line;
    only a BIG GAP line may carry an annotation in front of it. *)
Theorem flat_one_entry_per_line :
  forall lines,
    List.length (parse_lines unquote lines) = List.length lines
    /\ Forall2
         (fun raw e =>
            exists prefix,
              content e = prefix ++ Py.strip raw
              /\ (has_big_gap (Py.strip raw) = false -> prefix = ""))
         lines (parse_lines unquote lines).
Proof.
  intros lines.
  assert (H : Forall2
                (fun raw e =>
                   exists prefix,
                     content e = prefix ++ Py.strip raw
                     /\ (has_big_gap (Py.strip raw) = false -> prefix = ""))
                lines (parse_lines unquote lines)).
  { apply parse_lines_Forall2. intros st raw e He.
    destruct (step_fields st raw) as [e' [He' [Hc _]]].
    same_entry He He'. rewrite Hc. apply annotate_gap_suffix. }
  split; [|exact H]. symmetry. eapply Forall2_length. exact H.
Qed.

Lemma line_token_nonempty raw t : line_token raw = Some t -> t <> "".
Proof.
  unfold line_token. destruct (Re.search timestamp_re (Py.strip raw)) as [m|] eqn:E;
    [|discriminate].
  intros H. injection H as <-. apply search_min_len in E.
  change (Re.min_len timestamp_re) with 13 in E.
  intros H0. rewrite H0 in E. simpl in E. lia.
Qed.

Lemma last_cons {A : Type} (l : list A) : forall x d,
  List.last (x :: l) d = List.last l x.
Proof.
  induction l as [|y l IH]; intros x d; [reflexivity|].
  change (List.last (x :: y :: l) d) with (List.last (y :: l) d).
  rewrite !IH. reflexivity.
Qed.

Lemma forward_fill_app last a b :
  forward_fill last (a ++ b)
  = (forward_fill last a ++ forward_fill (List.last (forward_fill last a) last) b)%list.
Proof.
  revert last. induction a as [|[t|] a IH]; intros last; [reflexivity| |].
  - cbn [app forward_fill]. rewrite IH, last_cons. reflexivity.
  - cbn [app forward_fill]. rewrite IH, last_cons. reflexivity.
Qed.

Lemma forward_fill_length last a :
  List.length (forward_fill last a) = List.length a.
Proof.
  revert last. induction a as [|[t|] a IH]; intros last; simpl; auto.
Qed.

Lemma forward_fill_none last a :
  Forall (fun t => t = None) a -> Forall (fun s => s = last) (forward_fill last a).
Proof.
  induction 1 as [|x a Hx Ha IH]; [constructor|]. subst x. simpl.
  constructor; [reflexivity | exact IH].
Qed.

Lemma forward_fill_nonempty last a :
  last <> "" -> Forall (fun t => t <> Some "") a ->
  Forall (fun s => s <> "") (forward_fill last a).
Proof.
  intros Hl H. revert last Hl. induction H as [|x a Hx Ha IH]; intros last Hl;
    [constructor|].
  destruct x as [t|]; simpl.
  - assert (t <> "") by congruence. constructor; auto.
  - constructor; auto.
Qed.

(** X2.  In flat mode, from the first line with a timestamp token on, every
    entry has a non-empty timestamp; the entries before it have the empty
    string. *)
Theorem flat_timestamps_nonempty_after_first :
  forall before raw after,
    Forall (fun r => line_token r = None) before ->
    line_token raw <> None ->
    let entries := parse_lines unquote (before ++ raw :: after) in
    Forall (fun e => timestamp e = "") (firstn (List.length before) entries)
    /\ Forall (fun e => timestamp e <> "") (skipn (List.length before) entries).
Proof.
  intros before raw after Hb Hr entries.
  assert (Hmap : map timestamp entries
                 = forward_fill "" (map line_token (before ++ raw :: after))).
  { unfold entries, parse_lines, run_lines. rewrite fold_timestamps. reflexivity. }
  rewrite map_app, forward_fill_app in Hmap.
  assert (Hnone : Forall (fun s => s = "") (forward_fill "" (map line_token before))).
  { apply forward_fill_none. apply Forall_map. exact Hb. }
  assert (Hlen : List.length (forward_fill "" (map line_token before))
                 = List.length before)
    by (rewrite forward_fill_length; apply length_map).
  split.
  - apply Forall_map with (f := timestamp) (P := fun s => s = "").
    rewrite <- firstn_map, Hmap, <- Hlen, firstn_app, Nat.sub_diag, firstn_all.
    cbn [firstn]. rewrite app_nil_r. exact Hnone.
  - apply Forall_map with (f := timestamp) (P := fun s => s <> "").
    rewrite <- skipn_map, Hmap, <- Hlen, skipn_app, Nat.sub_diag, skipn_all.
    cbn [skipn app map forward_fill].
    destruct (line_token raw) as [t|] eqn:Et; [|contradiction].
    pose proof (line_token_nonempty raw t Et) as Ht.
    constructor; [exact Ht|].
    apply forward_fill_nonempty; [exact Ht|].
    apply Forall_map, Forall_forall. intros r _ Hr'.
    apply line_token_nonempty in Hr'. contradiction.
Qed.

End FlatModeMore.

Section FlatModeLabels.
Import JournalParser JournalSpec MoreSpec ReSpec.

Variable unquote : string -> string.

Lemma extract_timestamp ts line :
  Py.dict_get "timestamp" (extract_model_info unquote ts line) = Some ts.
Proof.
  unfold extract_model_info.
  destruct (Re.search path_re line), (Re.search region_re line),
    (Re.search server_re line), (Re.search server_path_re line); reflexivity.
Qed.

(** X3.  In flat mode an entry carries a ModelInfo exactly when its category
    is Model.  The ModelInfo is read from the entry's own line: it has a path,
    its timestamp is the entry's timestamp, and it has no user name. *)
Theorem flat_model_info_of_model_entries :
  forall lines,
    Forall
      (fun e =>
         (category e = Model <-> model_info e <> None)
         /\ (forall d, model_info e = Some d ->
               Py.dict_has "path" d = true
               /\ Py.dict_get "timestamp" d = Some (timestamp e)
               /\ Py.dict_has "username" d = false))
      (parse_lines unquote lines).
Proof.
  intros lines.
  assert (H : Forall2
                (fun (_ : string) e =>
                   (category e = Model <-> model_info e <> None)
                   /\ (forall d, model_info e = Some d ->
                         Py.dict_has "path" d = true
                         /\ Py.dict_get "timestamp" d = Some (timestamp e)
                         /\ Py.dict_has "username" d = false))
                lines (parse_lines unquote lines)).
  { apply parse_lines_Forall2. intros st raw e He.
    destruct (step_fields unquote st raw) as [e' [He' [_ [_ [_ Hmi]]]]].
    destruct (step_entry unquote st raw) as [e'' [He'' [_ [_ [_ [_ Hcat]]]]]].
    same_entry He He'. same_entry He He''.
    pose proof (prefix_category_not_model (Py.strip raw) (current_command st)) as Hpc.
    destruct (names_model (annotate_gap (Py.strip raw))) eqn:En.
    - split.
      + rewrite Hmi, Hcat. split; [discriminate | reflexivity].
      + intros d Hd. rewrite Hmi in Hd. injection Hd as <-.
        rewrite extract_has_path, extract_timestamp, extract_no_username.
        unfold names_model in En. apply andb_prop in En. destruct En as [_ En].
        destruct (Re.search path_re _); [|discriminate]. repeat split.
    - split.
      + rewrite Hmi, Hcat. split; [|intros H; contradiction H; reflexivity].
        intros H. apply content_category_model in H. contradiction.
      + intros d Hd. rewrite Hmi in Hd. discriminate. }
  induction H; constructor; assumption.
Qed.

Lemma prefix_category_command line cc :
  fst (prefix_category line cc) = Command ->
  Py.startswith line "Jrn.Command" = true.
Proof.
  unfold prefix_category.
  repeat match goal with |- context [if ?b then _ else _] => destruct b eqn:? end;
    cbn [fst]; (discriminate || trivial).
Qed.

Lemma prefix_category_label line cc :
  Py.startswith line "Jrn.Command" = true ->
  snd (prefix_category line cc)
  = match Re.search command_re line with
    | Some m => g1 m ++ ": " ++ g2 m
    | None => cc
    end.
Proof.
  unfold prefix_category, Py.startswith. intros H.
  destruct line as [|c l]; [discriminate|].
  assert (c = "J"%char) as ->.
  { apply String.prefix_correct in H. simpl in H. congruence. }
  rewrite H. reflexivity.
Qed.

Lemma prefix_category_keeps line cc :
  Py.startswith line "Jrn.Command" = false ->
  snd (prefix_category line cc) = cc.
Proof.
  unfold prefix_category. intros ->.
  repeat match goal with |- context [if ?b then _ else _] => destruct b end;
    reflexivity.
Qed.

Lemma content_category_command line c :
  content_category line c = Command ->
  c = Command /\ has_big_gap line = false /\ has_error_marker line = false
  /\ has_performance_marker line = false.
Proof.
  unfold content_category, has_big_gap, has_error_marker.
  destruct (Py.contains "BIG_GAP" line || Py.contains "!!!BIG_GAP" line);
    [discriminate|].
  destruct (Py.contains "Unrecoverable error" line); [discriminate|].
  destruct (Py.contains "exception" (Py.lower line)); [discriminate|].
  destruct (Py.contains "API_ERROR" line); [discriminate|].
  destruct (Py.contains "Error posted" line); [discriminate|].
  destruct (Py.contains "RAM Statistics" line || Py.contains "VM Statistics" line)
    eqn:E1; [discriminate|].
  destruct (Py.contains "Delta VM" line || Py.contains "Delta RAM" line)
    eqn:E2; [discriminate|].
  apply orb_false_iff in E1, E2. destruct E1 as [Ea Eb], E2 as [Ec Ed].
  intros ->. unfold has_performance_marker. rewrite Ea, Eb, Ec, Ed. repeat split.
Qed.

(** X4.  In flat mode only a line that starts with [Jrn.Command] and has no
    BIG_GAP, error or memory-statistics substring gets the category Command;
    and when such a line has both quoted parts, the entry's command is the
    label [X: Y] of that very line. *)
Theorem flat_command_entries :
  forall lines,
    Forall2
      (fun raw e =>
         category e = Command ->
         Py.startswith (Py.strip raw) "Jrn.Command" = true
         /\ has_big_gap (Py.strip raw) = false
         /\ has_error_marker (Py.strip raw) = false
         /\ has_performance_marker (Py.strip raw) = false
         /\ (forall m, Re.search command_re (Py.strip raw) = Some m ->
               command e = g1 m ++ ": " ++ g2 m))
      lines (parse_lines unquote lines).
Proof.
  intros lines. apply parse_lines_Forall2. intros st raw e He Hc.
  destruct (step_fields unquote st raw) as [e' [He' [_ [Hcmd _]]]].
  destruct (step_entry unquote st raw) as [e'' [He'' [_ [_ [_ [_ Hcat]]]]]].
  same_entry He He'. same_entry He He''.
  rewrite Hc in Hcat. destruct (names_model _); [discriminate|].
  symmetry in Hcat. apply content_category_command in Hcat.
  destruct Hcat as [Hp [Hg [He0 Hperf]]].
  apply prefix_category_command in Hp.
  repeat split; try assumption.
  intros m Hm. rewrite Hcmd, Hc. cbn [category_eqb category_name String.eqb].
  replace (category_eqb Command Command) with true by reflexivity.
  rewrite (prefix_category_label _ _ Hp), Hm. reflexivity.
Qed.

(** X5.  The pending command label outlives entries that are not Command
    entries.  A line that does not start with [Jrn.Command] leaves it as it
    was; a [Jrn.Command] line with both quoted parts whose entry is not a
    Command entry (an error line, say) leaves its own label pending; and a
    Command entry whose line lacks the quoted parts takes whatever label was
    pending. *)
Theorem flat_pending_label :
  forall st raw e,
    parsed_data (step unquote st raw) = (parsed_data st ++ [e])%list ->
    (category e <> Command ->
     Py.startswith (Py.strip raw) "Jrn.Command" = false ->
     current_command (step unquote st raw) = current_command st)
    /\ (category e <> Command ->
        Py.startswith (Py.strip raw) "Jrn.Command" = true ->
        forall m, Re.search command_re (Py.strip raw) = Some m ->
          current_command (step unquote st raw) = g1 m ++ ": " ++ g2 m)
    /\ (category e = Command ->
        Re.search command_re (Py.strip raw) = None ->
        command e = current_command st).
Proof.
  intros st raw e He.
  destruct (step_fields unquote st raw) as [e' [He' [_ [Hcmd [Hcur _]]]]].
  destruct (step_entry unquote st raw) as [e'' [He'' [_ [_ [_ [_ Hcat]]]]]].
  same_entry He He'. same_entry He He''.
  assert (Hne : category e <> Command -> category_eqb (category e) Command = false).
  { intros H. destruct (category_eqb _ _) eqn:E; [|reflexivity].
    apply category_eqb_eq in E. contradiction. }
  split; [|split].
  - intros Hc Hs. rewrite Hcur, (Hne Hc). apply prefix_category_keeps. exact Hs.
  - intros Hc Hs m Hm. rewrite Hcur, (Hne Hc), (prefix_category_label _ _ Hs), Hm.
    reflexivity.
  - intros Hc Hm. rewrite Hcmd, Hc.
    replace (category_eqb Command Command) with true by reflexivity.
    rewrite Hc in Hcat. destruct (names_model _); [discriminate|].
    symmetry in Hcat. apply content_category_command in Hcat.
    destruct Hcat as [Hp _]. apply prefix_category_command in Hp.
    rewrite (prefix_category_label _ _ Hp), Hm. reflexivity.
Qed.

End FlatModeLabels.

(* ================================================================== *)
(** * The two parsing modes side by side *)
(* ================================================================== *)

Section GroupFacts.
Import Re ReSpec.

Lemma all_chars_impl (P Q : ascii -> bool) s :
  (forall c, P c = true -> Q c = true) ->
  all_chars P s = true -> all_chars Q s = true.
Proof.
  intros H. induction s as [|c s IH]; simpl; [reflexivity|].
  intros Hc. apply andb_prop in Hc. destruct Hc as [Hc Hs].
  rewrite (H c Hc), (IH Hs). reflexivity.
Qed.

(** A group at the head of a pattern: what it records. *)
Lemma run_group_then P n r1 r2 st st' :
  has_group r1 = false -> has_group r2 = false -> chars_ok P r1 ->
  In st' (run (Seq (Group n r1) r2) st) ->
  exists t, caps st' = (n, t) :: caps st
            /\ all_chars P t = true /\ min_len r1 <= String.length t.
Proof.
  intros Hg1 Hg2 Hok Hin. apply in_run_seq in Hin. destruct Hin as [s1 [H1 H2]].
  pose proof H1 as H1'. apply run_group in H1'; [|exact Hg1].
  destruct H1' as [t [Hc Ha]]. exists t. split; [|split].
  - rewrite (run_caps _ Hg2 _ _ H2). exact Hc.
  - destruct (run_chars P (Group n r1) Hok _ _ H1) as [pre [Hp Hpc]].
    rewrite (advances_unique _ _ _ _ Ha Hp). exact Hpc.
  - apply (run_min_len (Group n r1) _ _ _ H1 Ha).
Qed.

(** The same after a part without groups. *)
Lemma run_then_group_then P n r0 r1 r2 st st' :
  has_group r0 = false -> has_group r1 = false -> has_group r2 = false ->
  chars_ok P r1 ->
  In st' (run (Seq r0 (Seq (Group n r1) r2)) st) ->
  exists t, caps st' = (n, t) :: caps st
            /\ all_chars P t = true /\ min_len r1 <= String.length t.
Proof.
  intros Hg0 Hg1 Hg2 Hok Hin. apply in_run_seq in Hin. destruct Hin as [s0 [H0 H]].
  destruct (run_group_then P n r1 r2 s0 st' Hg1 Hg2 Hok H) as [t [Hc Ht]].
  exists t. split; [|exact Ht]. rewrite Hc, (run_caps _ Hg0 _ _ H0). reflexivity.
Qed.

(** A substring that begins with [c0] does not begin inside a text that has
    no [c0]. *)
Lemma contains_skip c0 sub pre s :
  all_chars (fun c => negb (Ascii.eqb c c0)) pre = true ->
  Py.contains (String c0 sub) (pre ++ s) = Py.contains (String c0 sub) s.
Proof.
  induction pre as [|c pre IH]; intros H; [reflexivity|].
  simpl in H. apply andb_prop in H. destruct H as [Hc Hp].
  cbn [append Py.contains String.prefix].
  destruct (ascii_dec c0 c) as [->|_].
  - rewrite Ascii.eqb_refl in Hc. discriminate.
  - cbn [orb]. apply IH. exact Hp.
Qed.

End GroupFacts.

Section TwoModes.
Import JournalParser JournalSpec MoreSpec ReSpec.

Variable unquote : string -> string.

(** The gap time of a BIG GAP line is made of digits and dots. *)
Lemma gap_time_chars line m :
  Re.search gap_re line = Some m ->
  all_chars (fun c => Py.isdigit c || Ascii.eqb c ".") (g1 m) = true.
Proof.
  intros H. apply search_from_sound in H. destruct H as [sk [s' [q [_ Hm]]]].
  apply match_at_sound in Hm. destruct Hm as [st [Hin [_ Hg]]].
  unfold gap_re in Hin. cbn [Re.seqs] in Hin.
  eapply run_group_then with (P := fun c => Py.isdigit c || Ascii.eqb c ".") in Hin;
    [| reflexivity | reflexivity |].
  - destruct Hin as [t [Hc [Ht _]]]. unfold g1, Re.group. rewrite Hg, Hc.
    cbn. exact Ht.
  - cbn [chars_ok Re.seqs Re.plus Re.digit Re.chr]. repeat split; intros c Hc.
    all: try (rewrite Hc; reflexivity).
    all: rewrite Ascii.eqb_sym in Hc; rewrite Hc; apply orb_true_r.
Qed.

(** Annotating a BIG GAP line does not make it a ModelPath Created line. *)
Lemma annotate_gap_keeps_no_model line :
  Py.contains "ModelPath Created" line = false ->
  Py.contains "ModelPath Created" (annotate_gap line) = false.
Proof.
  intros H. unfold annotate_gap.
  destruct (Py.contains "BIG_GAP" line || Py.contains "!!!BIG_GAP" line);
    [|exact H].
  destruct (Re.search gap_re line) as [m|] eqn:E; [|exact H].
  replace ("BIG GAP: " ++ g1 m ++ " seconds - " ++ line)
    with (("BIG GAP: " ++ g1 m ++ " seconds - ") ++ line)
    by (rewrite !append_assoc; reflexivity).
  rewrite contains_skip; [exact H|].
  rewrite !all_chars_app. apply gap_time_chars in E.
  assert (Hg : all_chars (fun c => negb (Ascii.eqb c "M")) (g1 m) = true).
  { eapply all_chars_impl; [|exact E].
    intros c Hc. cbn beta in Hc. apply orb_prop in Hc. destruct Hc as [Hc | Hc].
    - destruct (Ascii.eqb c "M") eqn:Ec; [|reflexivity].
      apply Ascii.eqb_eq in Ec. subst c. discriminate.
    - apply Ascii.eqb_eq in Hc. subst c. reflexivity. }
  rewrite Hg. reflexivity.
Qed.

Lemma prefix_category_same line cc :
  fst (prefix_category line cc) = prefix_category_m line.
Proof.
  unfold prefix_category, prefix_category_m.
  repeat match goal with |- context [if ?b then _ else _] => destruct b end;
    reflexivity.
Qed.

Lemma content_category_same line c :
  Py.contains "ModelPath Created" line = false ->
  content_category_m line c = content_category line c.
Proof.
  intros H. unfold content_category_m, content_category. rewrite H. reflexivity.
Qed.

(** The entry the model-attributed mode makes of a line, but for its model. *)
Lemma document_lines lines :
  Forall2
    (fun raw l =>
       l_content l = Py.strip raw
       /\ l_timestamp l = line_token raw
       /\ l_category l
          = content_category_m (Py.strip raw) (prefix_category_m (Py.strip raw)))
    lines (doc_lines (document_of unquote lines)).
Proof.
  unfold document_of. cbn [doc_lines].
  assert (H : forall st, exists ls,
             categorized_lines (fold_left (mstep unquote) lines st)
             = (categorized_lines st ++ ls)%list
             /\ Forall2
                  (fun raw l =>
                     l_content l = Py.strip raw
                     /\ l_timestamp l = line_token raw
                     /\ l_category l
                        = content_category_m (Py.strip raw)
                            (prefix_category_m (Py.strip raw)))
                  lines ls).
  { induction lines as [|raw lines IH]; intros st.
    - exists []. simpl. rewrite app_nil_r. split; [reflexivity | constructor].
    - cbn [fold_left]. destruct (IH (mstep unquote st raw)) as [ls [H1 H2]].
      eexists (_ :: ls). rewrite H1. unfold mstep. cbn [categorized_lines].
      rewrite <- app_assoc. split; [reflexivity|].
      constructor; [|exact H2]. cbn. repeat split. }
  destruct (H minit) as [ls [H1 H2]]. cbn in H1. rewrite H1. exact H2.
Qed.

Lemma Forall2_join {A B C : Type} (P : A -> B -> Prop) (Q : A -> C -> Prop) l :
  forall a b, Forall2 P l a -> Forall2 Q l b ->
    Forall2 (fun x y => exists z, P z x /\ Q z y) a b.
Proof.
  induction l as [|z l IH]; intros a b Ha Hb; inversion Ha; inversion Hb; subst.
  - constructor.
  - constructor; [exists z; split; assumption | apply IH; assumption].
Qed.

(** X6.  The two modes give a line the same category, unless the line
    contains [ModelPath Created]: entry by entry, the category of
    [parse_journal] and that of [parse_journal_with_models] agree on every line
    without that substring. *)
Theorem modes_agree_on_category :
  forall lines,
    Forall2
      (fun e l =>
         Py.contains "ModelPath Created" (l_content l) = false ->
         category e = l_category l)
      (parse_lines unquote lines) (doc_lines (document_of unquote lines)).
Proof.
  intros lines.
  assert (Hflat : Forall2
            (fun raw e =>
               Py.contains "ModelPath Created" (Py.strip raw) = false ->
               category e
               = content_category (Py.strip raw) (prefix_category_m (Py.strip raw)))
            lines (parse_lines unquote lines)).
  { apply parse_lines_Forall2. intros st raw e He Hno.
    destruct (step_entry unquote st raw) as [e' [He' [_ [_ [_ [_ Hcat]]]]]].
    same_entry He He'. rewrite Hcat, prefix_category_same.
    unfold names_model. rewrite (annotate_gap_keeps_no_model _ Hno). reflexivity. }
  pose proof (Forall2_join _ _ _ _ _ Hflat (document_lines lines)) as H.
  eapply Forall2_impl; [|exact H].
  intros e l [raw [H1 [H2 [_ H3]]]] Hno. rewrite H2 in Hno.
  rewrite (H1 Hno), H3, (content_category_same _ _ Hno). reflexivity.
Qed.

End TwoModes.

Section Attribution.
Import JournalParser JournalSpec MoreSpec.

Variable unquote : string -> string.

Lemma fold_mstep_models lines : forall st,
  models (fold_left (mstep unquote) lines st)
  = (models st ++ somes (map (model_token unquote) lines))%list
  /\ map l_model (categorized_lines (fold_left (mstep unquote) lines st))
     = (map l_model (categorized_lines st)
        ++ forward_fill (current_model st) (map (model_token unquote) lines))%list.
Proof.
  induction lines as [|raw lines IH]; intros st.
  - simpl. rewrite !app_nil_r. split; reflexivity.
  - cbn [fold_left]. destruct (IH (mstep unquote st raw)) as [H1 H2].
    rewrite H1, H2. unfold mstep, model_token.
    cbn [models categorized_lines current_model map somes forward_fill].
    destruct (Py.contains "ModelPath Created" (Py.strip raw)).
    + destruct (Re.search path_re (Py.strip raw)) as [m|];
        cbn [map somes forward_fill l_model]; rewrite ?map_app, <- ?app_assoc;
        split; reflexivity.
    + cbn [map somes forward_fill l_model]. rewrite ?map_app, <- ?app_assoc.
      split; reflexivity.
Qed.

Lemma forward_fill_in last tokens :
  Forall (fun s => In s (last :: somes tokens)) (forward_fill last tokens).
Proof.
  revert last. induction tokens as [|[t|] tokens IH]; intros last; cbn [forward_fill somes].
  - constructor.
  - constructor; [right; left; reflexivity|].
    eapply Forall_impl; [|apply IH]. intros s Hs. right. exact Hs.
  - constructor; [left; reflexivity | apply IH].
Qed.

(** The model of every entry is one of the listed models. *)
Lemma document_model_members lines :
  Forall (fun l => In (l_model l) (doc_models (document_of unquote lines)))
         (doc_lines (document_of unquote lines)).
Proof.
  unfold document_of. cbn [doc_models doc_lines].
  destruct (fold_mstep_models lines minit) as [H1 H2]. cbn in H1, H2.
  apply Forall_map with (f := l_model)
    (P := fun s => In s ("All models" :: models (fold_left (mstep unquote) lines minit))).
  rewrite H2, H1. apply forward_fill_in.
Qed.

Lemma Forall2_map_eq {A B C : Type} (f : A -> C) (g : B -> C) l l' :
  Forall2 (fun a b => g b = f a) l l' -> map g l' = map f l.
Proof.
  induction 1 as [|a b l l' H _ IH]; [reflexivity|].
  cbn [map]. rewrite H, IH. reflexivity.
Qed.

(** X7.  Model attribution is a forward fill: every line is attributed to
    the path introduced by the latest ModelPath Created line up to and
    including itself, and to [All models] before the first one.  The list of
    models is [All models] followed by the introduced paths in file order
    (repeats included), so the model of every entry is in that list. *)
Theorem model_attribution_forward_fill :
  forall lines,
    let doc := document_of unquote lines in
    doc_models doc = "All models" :: somes (map (model_token unquote) lines)
    /\ map l_model (doc_lines doc)
       = forward_fill "All models" (map (model_token unquote) lines)
    /\ Forall (fun l => In (l_model l) (doc_models doc)) (doc_lines doc)
    /\ map l_content (doc_lines doc) = map Py.strip lines.
Proof.
  intros lines doc. subst doc. unfold document_of. cbn [doc_models doc_lines].
  destruct (fold_mstep_models lines minit) as [H1 H2]. cbn in H1, H2.
  split; [rewrite H1; reflexivity|]. split; [exact H2|]. split.
  - apply (document_model_members lines).
  - pose proof (document_lines unquote lines) as H.
    unfold document_of in H. cbn [doc_lines] in H.
    apply Forall2_map_eq. eapply Forall2_impl; [|exact H].
    intros raw l [Hc _]. exact Hc.
Qed.

End Attribution.

Section EncodingOrder.
Import JournalParser JournalSpec MoreSpec.

Variable unquote : string -> string.

Lemma parse_journal_loop_skip f rest : forall before last,
  decode_errors_only f before ->
  exists last',
    parse_journal_loop unquote f (before ++ rest) last
    = parse_journal_loop unquote f rest last'.
Proof.
  induction before as [|enc before IH]; intros last H.
  - exists last. reflexivity.
  - destruct (H enc (or_introl eq_refl)) as [m Hm].
    cbn [app parse_journal_loop]. rewrite Hm.
    apply IH. intros x Hx. apply H. right. exact Hx.
Qed.

Lemma parse_journal_with_models_loop_skip f rest : forall before last,
  unreadable f before ->
  exists last',
    parse_journal_with_models_loop unquote f (before ++ rest) last
    = parse_journal_with_models_loop unquote f rest last'.
Proof.
  induction before as [|enc before IH]; intros last H.
  - exists last. reflexivity.
  - destruct (H enc (or_introl eq_refl)) as [e He].
    cbn [app parse_journal_with_models_loop]. rewrite He.
    apply IH. intros x Hx. apply H. right. exact Hx.
Qed.

Lemma decode_errors_unreadable f encs :
  decode_errors_only f encs -> unreadable f encs.
Proof.
  intros H enc Hin. destruct (H enc Hin) as [m Hm]. eexists. exact Hm.
Qed.

(** X8.  Both parsers open the file with [errors='replace'], so that no
    attempt ends in a decoding error.  Then [parse_journal] is decided by the
    attempt under utf-8 alone: it returns the entries of the lines read under
    it, or, when that attempt raises, the empty list with the text of the
    exception shown; the three other encodings are never tried.
    [parse_journal_with_models] returns the document of the lines read under
    the first encoding, in the order of the list, whose attempt does not
    raise. *)
Theorem flat_mode_reads_under_utf8_only :
  forall (f : file),
    replaces_errors f ->
    parse_journal unquote f
    = match f "utf-8" with
      | ReadOk lines => (parse_lines unquote lines, [])
      | ReadFail e =>
          ([], [("Journal Parsing Error",
                 "Failed to parse journal file:" ++ newline ++ exn_str e)])
      end
    /\ (forall before encoding after lines,
          encodings = (before ++ encoding :: after)%list ->
          unreadable f before ->
          f encoding = ReadOk lines ->
          parse_journal_with_models unquote f
          = Return (Some (document_of unquote lines))).
Proof.
  intros f Hf. split.
  - unfold parse_journal, encodings. cbn [parse_journal_loop].
    destruct (f "utf-8") as [lines|[m|m]] eqn:E; [reflexivity | | reflexivity].
    contradiction (Hf "utf-8" m).
  - intros before encoding after lines Henc Hb He.
    unfold parse_journal_with_models. rewrite Henc.
    destruct (parse_journal_with_models_loop_skip f (encoding :: after) before None Hb)
      as [last ->].
    cbn [parse_journal_with_models_loop]. rewrite He. reflexivity.
Qed.

(** X9.  An exception that is not a decoding error ends [parse_journal] at
    once: it returns the empty list and shows the text of that exception,
    whatever the later encodings would give.  [parse_journal_with_models] goes
    on instead, and returns the document read under the next encoding that
    works. *)
Theorem other_exception_stops_flat_mode_only :
  forall (f : file) before encoding later next after msg lines,
    encodings = (before ++ encoding :: later ++ next :: after)%list ->
    decode_errors_only f before ->
    f encoding = ReadFail (OtherException msg) ->
    unreadable f later ->
    f next = ReadOk lines ->
    parse_journal unquote f
    = ([], [("Journal Parsing Error",
             "Failed to parse journal file:" ++ newline ++ msg)])
    /\ parse_journal_with_models unquote f
       = Return (Some (document_of unquote lines)).
Proof.
  intros f before encoding later next after msg lines Henc Hb Hf Hl Hn. split.
  - unfold parse_journal. rewrite Henc.
    destruct (parse_journal_loop_skip f (encoding :: later ++ next :: after)
                before None Hb) as [last ->].
    cbn [parse_journal_loop]. rewrite Hf. reflexivity.
  - unfold parse_journal_with_models. rewrite Henc.
    destruct (parse_journal_with_models_loop_skip f
                (encoding :: later ++ next :: after) before None
                (decode_errors_unreadable _ _ Hb)) as [last ->].
    cbn [parse_journal_with_models_loop]. rewrite Hf.
    destruct (parse_journal_with_models_loop_skip f (next :: after) later
                (Some (OtherException msg)) Hl) as [last' ->].
    cbn [parse_journal_with_models_loop]. rewrite Hn. reflexivity.
Qed.

End EncodingOrder.

(* ================================================================== *)
(** * HTML warnings, worker log, problem finder: further properties *)
(* ================================================================== *)

Section HTMLMore.
Import HTMLParser TableSpec ReSpec.

Variable now : nat -> string.

(** The ids that the pattern finds are non-empty strings of digits. *)
Lemma findall_id_digits : forall fuel p s,
  Forall (fun i => i <> "" /\ all_chars Py.isdigit i = true)
         (Re.findall_aux fuel id_re p s).
Proof.
  induction fuel as [|fuel IH]; intros p s; cbn [Re.findall_aux]; [constructor|].
  destruct (Re.match_at id_re p s) as [m|] eqn:E.
  - assert (Hg : g1 m <> "" /\ all_chars Py.isdigit (g1 m) = true).
    { apply match_at_sound in E. destruct E as [st [Hin [_ Hg]]].
      unfold id_re in Hin. cbn [Re.seqs] in Hin.
      eapply run_then_group_then with (P := Py.isdigit) in Hin;
        [| reflexivity | reflexivity | reflexivity |].
      - destruct Hin as [t [Hc [Ht Hl]]]. unfold g1, Re.group.
        rewrite Hg, Hc. cbn. split; [|exact Ht].
        change (Re.min_len (Re.plus Re.digit)) with 1 in Hl.
        intros ->. simpl in Hl. lia.
      - cbn [chars_ok Re.plus Re.digit]. repeat split; intros c Hc; exact Hc. }
    unfold g1 in Hg.
    destruct (String.length (Re.group0 m)), s; constructor; try exact Hg;
      try apply IH; constructor.
  - destruct s; [constructor | apply IH].
Qed.

Lemma parse_rows_warnings : forall rows i clock ws,
  let P := fun w =>
             status w = "Open"
             /\ ids w = flat_map (Re.findall id_re) (elements w)
             /\ Forall (fun i => i <> "" /\ all_chars Py.isdigit i = true) (ids w) in
  Forall P ws -> Forall P (parse_rows now i rows clock ws).
Proof.
  induction rows as [|cells rows IH]; intros i clock ws P Hws; [exact Hws|].
  cbn [parse_rows].
  destruct cells as [|c0 [|c1 [|c2 cs]]]; try (apply IH; exact Hws).
  apply IH. apply Forall_app. split; [exact Hws|].
  constructor; [|constructor]. unfold P. cbn [status ids elements].
  split; [reflexivity|]. split; [reflexivity|].
  apply Forall_flat_map, Forall_forall. intros el _. apply findall_id_digits.
Qed.

(** X10.  Every warning that [HTMLParser.parse] returns has the status Open,
    and its ids are what the pattern finds in its elements, element by
    element: each id is a non-empty string of decimal digits. *)
Theorem parsed_warnings_are_open_with_digit_ids :
  forall bs4_available html,
    Forall
      (fun w =>
         status w = "Open"
         /\ ids w = flat_map (Re.findall id_re) (elements w)
         /\ Forall (fun i => i <> "" /\ all_chars Py.isdigit i = true) (ids w))
      (fst (parse now bs4_available html)).
Proof.
  intros bs4 html. unfold parse.
  destruct bs4; cbn [negb fst]; [|constructor].
  destruct html as [|rows]; cbn [fst]; [constructor|].
  apply parse_rows_warnings. constructor.
Qed.

Lemma accepted_positions_length : forall rows i,
  List.length (accepted_positions i rows)
  = List.length (filter (fun cells => Nat.eqb (List.length cells) 2) rows).
Proof.
  induction rows as [|cells rows IH]; intros i; [reflexivity|].
  cbn [accepted_positions filter].
  destruct (Nat.eqb (List.length cells) 2); cbn [List.length]; rewrite IH; reflexivity.
Qed.

(** X11.  [HTMLParser.parse] never makes a warning of the first row of the
    table, whatever its cells: the warnings are as many as the rows after the
    first that have exactly two cells.  A table with a single row, like a
    document without a table or a run without BeautifulSoup, gives the empty
    list. *)
Theorem parse_skips_the_first_row :
  forall rows,
    List.length (fst (parse now true (Table rows)))
    = List.length (filter (fun cells => Nat.eqb (List.length cells) 2) (tl rows))
    /\ List.length (fst (parse now true (Table rows))) <= List.length rows - 1
    /\ (List.length rows <= 1 -> parse now true (Table rows) = ([], []))
    /\ fst (parse now true NoTable) = []
    /\ (forall html, fst (parse now false html) = []).
Proof.
  intros rows. cbn [parse negb fst].
  destruct (parse_rows_spec now (tl rows) 1 0 []) as [ws' [H1 [H2 _]]].
  rewrite H1. cbn [app].
  assert (Hlen : List.length ws'
                 = List.length (filter (fun cells => Nat.eqb (List.length cells) 2)
                                       (tl rows))).
  { rewrite <- (length_map index), H2. apply accepted_positions_length. }
  split; [exact Hlen|]. split; [|split; [|split]].
  - rewrite Hlen. pose proof (filter_length_le
      (fun cells : list cell => Nat.eqb (List.length cells) 2) (tl rows)) as Hle.
    unfold row in *. destruct rows as [|r rows]; cbn [tl List.length] in *; lia.
  - intros Hr. destruct rows as [|r [|r' rows]]; cbn in Hlen, Hr; try lia.
    all: destruct ws'; [reflexivity | discriminate].
  - reflexivity.
  - reflexivity.
Qed.

End HTMLMore.

Section WorkerLogMore.
Import WorkerLogParser WorkerLogSpec.

Lemma lstrip_head s c r : Py.lstrip s = String c r -> Py.isspace c = false.
Proof.
  induction s as [|x s IH]; simpl; [discriminate|].
  destruct (Py.isspace x) eqn:E; [exact IH|].
  intros H. injection H as <- _. exact E.
Qed.

Lemma rstrip_head c s :
  Py.isspace c = false -> exists r, Py.rstrip (String c s) = String c r.
Proof.
  intros H. cbn [Py.rstrip]. destruct (Py.rstrip s); [rewrite H|]; eexists; reflexivity.
Qed.

Lemma strip_head s c r : Py.strip s = String c r -> Py.isspace c = false.
Proof.
  unfold Py.strip. destruct (Py.lstrip s) as [|x l] eqn:E; [discriminate|].
  pose proof (lstrip_head _ _ _ E) as Hx.
  destruct (rstrip_head x l Hx) as [r' ->]. intros H. injection H as <- _. exact Hx.
Qed.

Lemma rstrip_last s :
  Py.rstrip s = ""
  \/ exists a c, Py.rstrip s = a ++ String c "" /\ Py.isspace c = false.
Proof.
  induction s as [|x s IH]; [left; reflexivity|].
  cbn [Py.rstrip]. destruct IH as [-> | [a [c [-> Hc]]]].
  - destruct (Py.isspace x) eqn:E; [left; reflexivity|].
    right. exists "", x. split; [reflexivity | exact E].
  - right. exists (String x a), c. split; [|exact Hc].
    destruct a; reflexivity.
Qed.

Lemma append_last_inj : forall a b (c d : ascii),
  a ++ String c "" = b ++ String d "" -> c = d.
Proof.
  induction a as [|x a IH]; intros [|y b] c d H; simpl in H.
  - congruence.
  - injection H as _ H. destruct b; discriminate.
  - injection H as _ H. destruct a; discriminate.
  - injection H as _ H. eapply IH. exact H.
Qed.

Lemma strip_last s a c : Py.strip s = a ++ String c "" -> Py.isspace c = false.
Proof.
  unfold Py.strip. intros H.
  destruct (rstrip_last (Py.lstrip s)) as [E | [a' [c' [E Hc]]]]; rewrite E in H.
  - destruct a; discriminate.
  - apply append_last_inj in H. subst c'. exact Hc.
Qed.

(** X12.  Every worker-log entry has a non-empty timestamp and a non-empty
    message (the level may be empty), and there are never more entries than
    lines. *)
Theorem worker_entries_have_timestamp_and_message :
  forall lines entries,
    parse_worker_log (Lines lines) = Some entries ->
    Forall (fun e => timestamp e <> "" /\ message e <> "") entries
    /\ List.length entries <= List.length lines.
Proof.
  intros lines entries H. cbn [parse_worker_log] in H. injection H as <-.
  rewrite fold_step_flat_map. cbn [app]. split.
  - apply Forall_flat_map, Forall_forall. intros line _.
    apply Forall_forall. intros e He. unfold step in He.
    destruct (Py.split_char " " 2 (Py.strip line))
      as [|a [|b [|c [|d l]]]] eqn:E; try (destruct He; fail).
    cbn [app] in He. destruct He as [<- | []].
    destruct (split_char_cut _ _ _ _ _ _ E) as [_ [s1 [m1 [Hs1 [Hm1 E1]]]]].
    injection Hm1 as <-.
    destruct (split_char_cut _ _ _ _ _ _ E1) as [_ [s2 [m2 [Hs2 [Hm2 E2]]]]].
    injection Hm2 as <-. rewrite split_char_0 in E2. injection E2 as ->.
    cbn [timestamp message]. split.
    + intros ->. cbn [append] in Hs1. apply strip_head in Hs1. discriminate.
    + intros ->. rewrite Hs2 in Hs1.
      replace (a ++ String " " (b ++ String " " ""))
        with ((a ++ String " " b) ++ String " " "") in Hs1
        by (rewrite append_assoc; reflexivity).
      apply strip_last in Hs1. discriminate.
  - induction lines as [|line lines IH]; [cbn; lia|].
    cbn [flat_map]. rewrite length_app. cbn [List.length].
    assert (List.length (step [] line) <= 1); [|lia].
    unfold step. destruct (Py.split_char " " 2 (Py.strip line))
      as [|a [|b [|c [|d l]]]]; cbn; lia.
Qed.

End WorkerLogMore.

Section ProblemFinderMore.
Import JournalProblemFinder ProblemSpec.

Lemma take_length_le : forall n s, String.length (Py.take n s) <= n.
Proof.
  unfold Py.take. induction n as [|n IH]; intros s.
  - destruct s; simpl; lia.
  - destruct s as [|c s]; simpl; [lia|]. specialize (IH s). lia.
Qed.

Lemma truncated_length n line : String.length (truncated n line) <= n + 3.
Proof.
  unfold truncated. rewrite length_append.
  pose proof (take_length_le n line).
  destruct (Nat.ltb n (String.length line)); simpl; lia.
Qed.

Lemma take_all : forall n s, String.length s <= n -> Py.take n s = s.
Proof.
  unfold Py.take. induction n as [|n IH]; intros s H.
  - destruct s; [reflexivity | simpl in H; lia].
  - destruct s as [|c s]; [reflexivity|]. simpl in *. rewrite IH by lia. reflexivity.
Qed.

Lemma truncated_short n line :
  String.length line <= n -> truncated n line = line.
Proof.
  intros H. unfold truncated. rewrite take_all by exact H.
  destruct (Nat.ltb n (String.length line)) eqn:E.
  - apply Nat.ltb_lt in E. lia.
  - apply append_nil_r.
Qed.

(** What holds of the problems of every line holds of all the problems. *)
Lemma scan_Forall limit self (P : problem -> Prop) :
  (forall last line added,
      line_problems limit self last line = Some added -> Forall P added) ->
  forall lines problems last problems' last',
    Forall P problems ->
    scan limit self lines (problems, last) = Some (problems', last') ->
    Forall P problems'.
Proof.
  intros HP. induction lines as [|line lines IH];
    intros problems last problems' last' Hp H.
  - injection H as <- <-. exact Hp.
  - cbn [scan] in H.
    destruct (step limit self (problems, last) line) as [st|] eqn:E; [|discriminate].
    destruct (step_Some _ _ _ _ _ _ E) as [added [Ha ->]].
    apply (IH _ _ _ _ (proj2 (Forall_app _ _ _) (conj Hp (HP _ _ _ Ha))) H).
Qed.

Lemma pattern_problems_length last line :
  List.length (pattern_problems last line) <= 3.
Proof.
  unfold pattern_problems. rewrite !length_app.
  destruct (Re.search ERROR line), (Re.search API_WARNING line),
    (Re.search PERFORMANCE line); cbn; lia.
Qed.

Lemma line_problems_length limit self last line added :
  line_problems limit self last line = Some added -> List.length added <= 4.
Proof.
  intros H. destruct (line_problems_Some _ _ _ _ _ H) as [spike [Hs ->]].
  rewrite length_app. pose proof (pattern_problems_length last line).
  rewrite resource_spike_figure in Hs.
  destruct (ram_figure line) as [digits|].
  - destruct (Py.exceeds_max_str_digits limit digits); [discriminate|].
    injection Hs as <-. destruct (_ >? _)%Z; cbn; lia.
  - injection Hs as <-. cbn. lia.
Qed.

Lemma scan_length limit self : forall lines problems last problems' last',
  scan limit self lines (problems, last) = Some (problems', last') ->
  List.length problems' <= List.length problems + 4 * List.length lines.
Proof.
  induction lines as [|line lines IH]; intros problems last problems' last' H.
  - injection H as <- <-. cbn. lia.
  - cbn [scan] in H.
    destruct (step limit self (problems, last) line) as [st|] eqn:E; [|discriminate].
    destruct (step_Some _ _ _ _ _ _ E) as [added [Ha ->]].
    etransitivity; [apply (IH _ _ _ _ H)|]. rewrite length_app. cbn [List.length].
    pose proof (line_problems_length _ _ _ _ _ Ha). lia.
Qed.

Lemma pattern_problems_kinds last line :
  Forall
    (fun p =>
       (type p = "Error" /\ source p = "Journal"
        /\ String.length (description p) <= 153)
       \/ (type p = "API Warning" /\ source p = "Revit API"
           /\ String.length (description p) <= 153)
       \/ (type p = "Performance" /\ source p = "Geometry"
           /\ String.length (description p) <= 151)
       \/ (type p = "Resource Spike" /\ source p = "Memory Usage"))
    (pattern_problems last line).
Proof.
  unfold pattern_problems. repeat (apply Forall_app; split).
  - destruct (Re.search ERROR line); constructor; [|constructor].
    left. cbn [type source description]. repeat split. apply (truncated_length 150).
  - destruct (Re.search API_WARNING line); constructor; [|constructor].
    right; left. cbn [type source description]. repeat split.
    apply (truncated_length 150).
  - destruct (Re.search PERFORMANCE line); constructor; [|constructor].
    right; right; left. cbn [type source description]. repeat split.
    rewrite length_append. pose proof (truncated_length 120 line). simpl. lia.
Qed.

Lemma resource_spike_kind limit self last line spike :
  resource_spike limit self last line = Some spike ->
  Forall (fun p => type p = "Resource Spike" /\ source p = "Memory Usage") spike.
Proof.
  rewrite resource_spike_figure.
  destruct (ram_figure line) as [digits|]; [|intros [= <-]; constructor].
  destruct (Py.exceeds_max_str_digits limit digits); [discriminate|].
  destruct (_ >? _)%Z; intros [= <-]; repeat constructor.
Qed.

(** X13.  Every problem that [find_problems] returns is of one of four
    kinds, each with its own source.  The description of an Error or an API
    Warning is the line itself when the line has at most 150 characters and
    never has more than 153; that of a Performance problem never has more than
    151.  A line gives at most four problems. *)
Theorem problems_are_of_four_bounded_kinds :
  forall limit self file_content problems,
    find_problems limit self file_content = Some problems ->
    Forall
      (fun p =>
         (type p = "Error" /\ source p = "Journal"
          /\ String.length (description p) <= 153)
         \/ (type p = "API Warning" /\ source p = "Revit API"
             /\ String.length (description p) <= 153)
         \/ (type p = "Performance" /\ source p = "Geometry"
             /\ String.length (description p) <= 151)
         \/ (type p = "Resource Spike" /\ source p = "Memory Usage"))
      problems
    /\ List.length problems <= 4 * List.length (Py.splitlines file_content)
    /\ (forall last line added,
          String.length line <= 150 ->
          line_problems limit self last line = Some added ->
          Forall (fun p => type p = "Error" \/ type p = "API Warning" ->
                           description p = line)
                 added).
Proof.
  intros limit self file_content problems H.
  destruct (find_problems_Some _ _ _ _ H) as [last' Hs].
  split; [|split].
  - eapply scan_Forall; [|constructor|exact Hs].
    intros last line added Ha.
    destruct (line_problems_Some _ _ _ _ _ Ha) as [spike [Hsp ->]].
    apply Forall_app. split; [apply pattern_problems_kinds|].
    eapply Forall_impl; [|eapply resource_spike_kind; exact Hsp].
    intros p Hp. right; right; right. exact Hp.
  - pose proof (scan_length _ _ _ _ _ _ _ Hs) as HL.
    cbn [List.length] in HL. lia.
  - intros last line added Hlen Ha.
    destruct (line_problems_Some _ _ _ _ _ Ha) as [spike [Hsp ->]].
    apply Forall_app. split.
    + unfold pattern_problems. repeat (apply Forall_app; split).
      * destruct (Re.search ERROR line); constructor; [|constructor].
        intros _. cbn [description]. apply truncated_short. exact Hlen.
      * destruct (Re.search API_WARNING line); constructor; [|constructor].
        intros _. cbn [description]. apply truncated_short. exact Hlen.
      * destruct (Re.search PERFORMANCE line); constructor; [|constructor].
        cbn [type]. intros [E | E]; discriminate.
    + eapply Forall_impl; [|eapply resource_spike_kind; exact Hsp].
      intros p [Hp _] [E | E]; rewrite Hp in E; discriminate.
Qed.

Lemma scan_no_anchor limit self : forall lines problems problems' last',
  Forall (fun line => Re.re_match TIMESTAMP line = None) lines ->
  Forall (fun p => timestamp p = "Unknown") problems ->
  scan limit self lines (problems, None) = Some (problems', last') ->
  Forall (fun p => timestamp p = "Unknown") problems' /\ last' = None.
Proof.
  induction lines as [|line lines IH]; intros problems problems' last' Hl Hp H.
  - injection H as <- <-. split; [exact Hp | reflexivity].
  - inversion Hl as [|x l Hx Hl']; subst. cbn [scan] in H.
    destruct (step limit self (problems, None) line) as [st|] eqn:E; [|discriminate].
    destruct (step_Some _ _ _ _ _ _ E) as [added [Ha ->]].
    assert (Hf : in_force None line = None) by (unfold in_force; rewrite Hx; reflexivity).
    rewrite Hf in Ha, H.
    apply (IH _ _ _ Hl' (proj2 (Forall_app _ _ _)
                           (conj Hp (line_problems_timestamp _ _ _ _ _ Ha))) H).
Qed.

(** X14.  Until the first anchor line nothing is known of the time: the
    problems of the lines before it carry the timestamp Unknown, and they stay
    as they are, first in the list, whatever follows.  A file without any
    anchor line has only Unknown timestamps. *)
Theorem problems_before_first_anchor_are_unknown :
  forall limit self before after early last,
    Forall (fun line => Re.re_match TIMESTAMP line = None) before ->
    scan limit self before ([], None) = Some (early, last) ->
    Forall (fun p => timestamp p = "Unknown") early
    /\ last = None
    /\ (forall problems last',
          scan limit self (before ++ after) ([], None) = Some (problems, last') ->
          exists late, problems = (early ++ late)%list)
    /\ (forall file_content problems,
          Py.splitlines file_content = before ->
          find_problems limit self file_content = Some problems ->
          problems = early
          /\ Forall (fun p => timestamp p = "Unknown") problems).
Proof.
  intros limit self before after early last Hb Hs.
  destruct (scan_no_anchor _ _ _ _ _ _ Hb (Forall_nil _) Hs) as [H1 H2].
  split; [exact H1|]. split; [exact H2|]. split.
  - intros problems last' H. rewrite scan_app, Hs in H.
    eapply scan_extends. exact H.
  - intros file_content problems Hc H.
    destruct (find_problems_Some _ _ _ _ H) as [l Hl].
    rewrite Hc, Hs in Hl. injection Hl as <- _. split; [reflexivity | exact H1].
Qed.

Lemma exceeds_mono s1 s2 line :
  (ram_spike_mb s1 <= ram_spike_mb s2)%Z ->
  exceeds s2 line = true -> exceeds s1 line = true.
Proof.
  unfold exceeds. intros H. destruct (ram_figure line); [|trivial].
  rewrite !Z.gtb_ltb, !Z.ltb_lt. lia.
Qed.

Lemma filter_length_mono {A : Type} (p q : A -> bool) l :
  (forall x, p x = true -> q x = true) ->
  List.length (filter p l) <= List.length (filter q l).
Proof.
  intros H. induction l as [|x l IH]; [cbn; lia|].
  cbn [filter]. destruct (p x) eqn:E.
  - rewrite (H x E). cbn [List.length]. lia.
  - destruct (q x); cbn [List.length]; lia.
Qed.

Lemma resource_spike_other limit self last line spike :
  resource_spike limit self last line = Some spike ->
  filter (fun p => negb (is_spike p)) spike = [].
Proof.
  rewrite resource_spike_figure.
  destruct (ram_figure line) as [digits|]; [|intros [= <-]; reflexivity].
  destruct (Py.exceeds_max_str_digits limit digits); [discriminate|].
  destruct (_ >? _)%Z; intros [= <-]; reflexivity.
Qed.

Lemma line_problems_other limit s1 s2 last line a1 a2 :
  line_problems limit s1 last line = Some a1 ->
  line_problems limit s2 last line = Some a2 ->
  filter (fun p => negb (is_spike p)) a1 = filter (fun p => negb (is_spike p)) a2.
Proof.
  intros H1 H2.
  destruct (line_problems_Some _ _ _ _ _ H1) as [k1 [Hk1 ->]].
  destruct (line_problems_Some _ _ _ _ _ H2) as [k2 [Hk2 ->]].
  rewrite !filter_app, (resource_spike_other _ _ _ _ _ Hk1),
    (resource_spike_other _ _ _ _ _ Hk2). reflexivity.
Qed.

(** Two configurations: the loop ends in the exception under both or under
    neither, and the problems that are no Resource Spike are the same. *)
Lemma scan_other limit s1 s2 : forall lines ps1 ps2 last,
  filter (fun p => negb (is_spike p)) ps1 = filter (fun p => negb (is_spike p)) ps2 ->
  match scan limit s1 lines (ps1, last), scan limit s2 lines (ps2, last) with
  | Some (p1, _), Some (p2, _) =>
      filter (fun p => negb (is_spike p)) p1 = filter (fun p => negb (is_spike p)) p2
  | None, None => True
  | _, _ => False
  end.
Proof.
  induction lines as [|line lines IH]; intros ps1 ps2 last H; [exact H|].
  cbn [scan].
  destruct (step limit s1 (ps1, last) line) as [st1|] eqn:E1,
           (step limit s2 (ps2, last) line) as [st2|] eqn:E2.
  - destruct (step_Some _ _ _ _ _ _ E1) as [a1 [Ha1 ->]].
    destruct (step_Some _ _ _ _ _ _ E2) as [a2 [Ha2 ->]].
    apply IH. rewrite !filter_app, H. f_equal.
    eapply line_problems_other; eassumption.
  - apply (step_None limit s2 ps2 last) in E2.
    apply (step_None limit s1 ps1 last) in E2. congruence.
  - apply (step_None limit s1 ps1 last) in E1.
    apply (step_None limit s2 ps2 last) in E1. congruence.
  - exact I.
Qed.

(** X15.  The two thresholds touch the Resource Spike problems only: under
    any two configurations the call ends in the exception of [int] for both or
    for neither, the problems of the other three kinds are the same, and
    raising [ram_spike_mb] never adds a Resource Spike. *)
Theorem thresholds_touch_only_resource_spikes :
  forall limit s1 s2 file_content,
    match find_problems limit s1 file_content,
          find_problems limit s2 file_content with
    | Some problems1, Some problems2 =>
        filter (fun p => negb (is_spike p)) problems1
        = filter (fun p => negb (is_spike p)) problems2
        /\ ((ram_spike_mb s1 <= ram_spike_mb s2)%Z ->
            List.length (filter is_spike problems2)
            <= List.length (filter is_spike problems1))
    | None, None => True
    | _, _ => False
    end.
Proof.
  intros limit s1 s2 file_content. unfold find_problems.
  pose proof (scan_other limit s1 s2 (Py.splitlines file_content) [] [] None eq_refl)
    as H.
  destruct (scan limit s1 (Py.splitlines file_content) ([], None))
    as [[p1 l1]|] eqn:E1,
    (scan limit s2 (Py.splitlines file_content) ([], None))
    as [[p2 l2]|] eqn:E2; try exact H.
  split; [exact H|]. intros Hle.
  rewrite (scan_spikes _ _ _ _ _ _ _ E1), (scan_spikes _ _ _ _ _ _ _ E2).
  cbn [filter List.length].
  apply filter_length_mono. intros line. apply exceeds_mono. exact Hle.
Qed.

End ProblemFinderMore.

(* ================================================================== *)
(** * The handlers of the warnings and journal tabs *)
(* ================================================================== *)

Section HandlerFacts.
Import HTMLParser EventHandlers HandlersSpec.

Lemma filter_all {A : Type} (p : A -> bool) l :
  (forall x, p x = true) -> filter p l = l.
Proof.
  intros H. induction l as [|x l IH]; [reflexivity|].
  cbn [filter]. rewrite H, IH. reflexivity.
Qed.

Lemma filter_twice {A : Type} (p q : A -> bool) l :
  filter q (filter p l) = filter (fun x => p x && q x) l.
Proof.
  induction l as [|x l IH]; [reflexivity|].
  cbn [filter]. destruct (p x); cbn [filter andb]; rewrite IH; reflexivity.
Qed.

Lemma lower_char_idem c : Py.lower_char (Py.lower_char c) = Py.lower_char c.
Proof.
  destruct c as [[] [] [] [] [] [] [] []]; vm_compute; reflexivity.
Qed.

Lemma lower_idem s : Py.lower (Py.lower s) = Py.lower s.
Proof.
  induction s as [|c s IH]; [reflexivity|].
  cbn [Py.lower]. rewrite lower_char_idem, IH. reflexivity.
Qed.

Lemma get_filtered_data_filter self :
  get_filtered_data self
  = filter (fun w => status_passes (status_filter self) w
                     && search_passes (search_var self) w)
           (warnings_data self).
Proof.
  unfold get_filtered_data.
  destruct (warnings_data self) as [|w0 ws] eqn:E; [reflexivity|].
  set (data := w0 :: ws).
  assert (Hs : match status_filter self with
               | Some sf => if negb (String.eqb sf "All")
                            then filter (fun w => String.eqb (status w) sf) data
                            else data
               | None => data
               end = filter (status_passes (status_filter self)) data).
  { unfold status_passes. destruct (status_filter self) as [sf|].
    - destruct (String.eqb sf "All"); cbn [negb orb].
      + symmetry. apply filter_all. reflexivity.
      + reflexivity.
    - symmetry. apply filter_all. reflexivity. }
  rewrite Hs. rewrite <- filter_twice.
  unfold search_passes at 1. destruct (search_var self) as [sv|].
  - destruct (Py.truthy (Py.lower sv)); cbn [negb orb].
    + reflexivity.
    + symmetry. apply filter_all. reflexivity.
  - symmetry. apply filter_all. reflexivity.
Qed.

(** X16.  [get_filtered_data] keeps, in their order, exactly the warnings
    that pass both filters.  The search ignores letter case in the text typed
    as in the messages, and filtering what is already filtered changes
    nothing. *)
Theorem filtered_data_is_a_case_blind_filter :
  forall self,
    get_filtered_data self
    = filter (fun w => status_passes (status_filter self) w
                       && search_passes (search_var self) w)
             (warnings_data self)
    /\ (forall text,
          search_var self = Some text ->
          get_filtered_data self
          = get_filtered_data
              (App (warnings_data self) (status_filter self) (Some (Py.lower text))))
    /\ get_filtered_data
         (App (get_filtered_data self) (status_filter self) (search_var self))
       = get_filtered_data self.
Proof.
  intros self. split; [apply get_filtered_data_filter|]. split.
  - intros text Ht. rewrite !get_filtered_data_filter.
    cbn [warnings_data status_filter search_var]. rewrite Ht.
    unfold search_passes. rewrite lower_idem. reflexivity.
  - rewrite (get_filtered_data_filter (App _ _ _)).
    cbn [warnings_data status_filter search_var].
    rewrite get_filtered_data_filter, filter_twice.
    apply filter_ext. intros w. apply andb_diag.
Qed.

(** ** Grouping *)

Lemma group_get_append key w : forall g k,
  group_get k (group_append key w g)
  = if String.eqb k key
    then Some (match group_get key g with
               | Some ws => ws ++ [w]
               | None => [w]
               end)%list
    else group_get k g.
Proof.
  induction g as [|[k0 ws] g IH]; intros k.
  - cbn [group_append group_get]. destruct (String.eqb k key); reflexivity.
  - cbn [group_append group_get]. destruct (String.eqb key k0) eqn:E.
    + apply String.eqb_eq in E. subst k0. cbn [group_get].
      destruct (String.eqb k key); reflexivity.
    + cbn [group_get]. rewrite IH.
      destruct (String.eqb k k0) eqn:E0.
      * apply String.eqb_eq in E0. subst k0.
        rewrite String.eqb_sym, E. reflexivity.
      * destruct (String.eqb k key); reflexivity.
Qed.

Lemma group_keys_append key w : forall g,
  map fst (group_append key w g)
  = if existsb (String.eqb key) (map fst g) then map fst g
    else (map fst g ++ [key])%list.
Proof.
  induction g as [|[k0 ws] g IH]; [reflexivity|].
  cbn [group_append map fst existsb]. destruct (String.eqb key k0); cbn [orb map fst].
  - reflexivity.
  - rewrite IH. destruct (existsb _ _); reflexivity.
Qed.

Lemma group_sizes_append key w : forall g,
  List.length (concat (map snd (group_append key w g)))
  = S (List.length (concat (map snd g))).
Proof.
  induction g as [|[k0 ws] g IH]; [reflexivity|].
  cbn [group_append]. destruct (String.eqb key k0); cbn [map snd concat].
  - rewrite !length_app. cbn [List.length]. lia.
  - rewrite !length_app, IH. lia.
Qed.

Lemma group_fold_snoc l w :
  group_warnings_by_message (l ++ [w])
  = group_append (message w) w (group_warnings_by_message l).
Proof. unfold group_warnings_by_message. rewrite fold_left_app. reflexivity. Qed.

Lemma grouping_invariant : forall warnings,
  let g := group_warnings_by_message warnings in
  (forall k, group_get k g
             = match with_message k warnings with
               | [] => None
               | ws => Some ws
               end)
  /\ NoDup (map fst g)
  /\ List.length (concat (map snd g)) = List.length warnings.
Proof.
  induction warnings as [|w l IH] using rev_ind.
  - cbn. repeat split. constructor.
  - cbn zeta in *. destruct IH as [Hget [Hnd Hlen]].
    rewrite group_fold_snoc. split; [|split].
    + intros k. rewrite group_get_append. unfold with_message in *.
      rewrite filter_app. cbn [filter].
      destruct (String.eqb k (message w)) eqn:E.
      * apply String.eqb_eq in E. subst k. rewrite String.eqb_refl, Hget.
        destruct (filter _ l); reflexivity.
      * rewrite String.eqb_sym, E, app_nil_r. apply Hget.
    + rewrite group_keys_append.
      destruct (existsb (String.eqb (message w)) _) eqn:E; [exact Hnd|].
      apply NoDup_app_remove_l with (l := []). cbn [app].
      apply NoDup_app; [exact Hnd | repeat constructor; intros [] |].
      intros k Hk [<- | []].
      assert (existsb (String.eqb (message w))
                (map fst (group_warnings_by_message l)) = true); [|congruence].
      apply existsb_exists. exists (message w). split; [exact Hk|].
      apply String.eqb_refl.
    + rewrite group_sizes_append, Hlen, length_app. cbn [List.length]. lia.
Qed.

Lemma group_get_in : forall g k ws,
  NoDup (map fst g) -> In (k, ws) g -> group_get k g = Some ws.
Proof.
  induction g as [|[k0 ws0] g IH]; intros k ws Hnd Hin; [destruct Hin|].
  cbn [map fst] in Hnd. inversion Hnd as [|x l Hx Hnd']; subst.
  cbn [group_get]. destruct Hin as [H | H].
  - injection H as -> ->. rewrite String.eqb_refl. reflexivity.
  - destruct (String.eqb k k0) eqn:E.
    + apply String.eqb_eq in E. subst k0. contradiction Hx.
      apply in_map_iff. exists (k, ws). split; [reflexivity | exact H].
    + apply IH; assumption.
Qed.

(** X17.  [group_warnings_by_message] sorts the warnings into groups without
    losing or repeating any: the group of a message holds exactly the warnings
    with that message, in their order, and is never empty; no message has two
    groups; every warning is in the group of its message; and the groups
    together hold as many warnings as were given. *)
Theorem grouping_is_a_partition_by_message :
  forall warnings,
    let g := group_warnings_by_message warnings in
    NoDup (map fst g)
    /\ (forall k ws, In (k, ws) g -> ws = with_message k warnings /\ ws <> [])
    /\ (forall w, In w warnings ->
          exists ws, group_get (message w) g = Some ws /\ In w ws)
    /\ List.length (concat (map snd g)) = List.length warnings.
Proof.
  intros warnings g. destruct (grouping_invariant warnings) as [Hget [Hnd Hlen]].
  fold g in Hget, Hnd, Hlen. split; [exact Hnd|]. split; [|split; [|exact Hlen]].
  - intros k ws Hin. pose proof (group_get_in g k ws Hnd Hin) as H.
    rewrite Hget in H. destruct (with_message k warnings) eqn:E; [discriminate|].
    injection H as <-. split; [reflexivity | discriminate].
  - intros w Hw.
    assert (Hin : In w (with_message (message w) warnings)).
    { unfold with_message. apply filter_In. split; [exact Hw | apply String.eqb_refl]. }
    rewrite Hget. destruct (with_message (message w) warnings) eqn:E; [destruct Hin|].
    eexists. split; [reflexivity | exact Hin].
Qed.

End HandlerFacts.

Section HandlerFacts2.
Import HTMLParser EventHandlers HandlersSpec TableSpec.

Lemma count_of_incr key : forall d k,
  count_of k (incr key d) = count_of k d + (if String.eqb k key then 1 else 0).
Proof.
  induction d as [|[k0 n] d IH]; intros k.
  - cbn [incr count_of]. destruct (String.eqb k key); reflexivity.
  - cbn [incr count_of]. destruct (String.eqb key k0) eqn:E.
    + apply String.eqb_eq in E. subst k0. cbn [count_of].
      destruct (String.eqb k key); lia.
    + cbn [count_of]. destruct (String.eqb k k0) eqn:E0.
      * apply String.eqb_eq in E0. subst k0. rewrite String.eqb_sym, E. lia.
      * apply IH.
Qed.

Lemma count_of_fold k : forall group d,
  count_of k (fold_left (fun d w => incr (status w) d) group d)
  = count_of k d + List.length (with_status k group).
Proof.
  induction group as [|w group IH]; intros d; [cbn; lia|].
  cbn [fold_left]. rewrite IH, count_of_incr. unfold with_status. cbn [filter].
  rewrite (String.eqb_sym k). destruct (String.eqb (status w) k); cbn [List.length]; lia.
Qed.

Lemma with_status_some s group :
  0 < List.length (with_status s group) <-> exists w, In w group /\ status w = s.
Proof.
  unfold with_status. split.
  - destruct (filter _ group) as [|w l] eqn:E; [cbn; lia|]. intros _.
    assert (Hin : In w (filter (fun w => String.eqb (status w) s) group))
      by (rewrite E; left; reflexivity).
    apply filter_In in Hin. destruct Hin as [Hin Hs].
    exists w. split; [exact Hin | apply String.eqb_eq; exact Hs].
  - intros [w [Hin Hs]].
    assert (H : In w (filter (fun w => String.eqb (status w) s) group)).
    { apply filter_In. split; [exact Hin | apply String.eqb_eq; exact Hs]. }
    destruct (filter _ group); [destruct H | cbn; lia].
Qed.

(** X18.  The main status of a group is Open as soon as one of its warnings
    is Open, else In Review as soon as one is In Review, and Close in every
    other case, also for a group that has no closed warning at all.  The
    summary counts the warnings of each of the three statuses and leaves out
    the statuses that do not occur. *)
Theorem group_status_is_the_most_urgent :
  forall warnings_group,
    let result := get_group_status_summary warnings_group in
    let has := fun s => exists w, In w warnings_group /\ status w = s in
    (fst result = "Open" <-> has "Open")
    /\ (fst result = "In Review" <-> ~ has "Open" /\ has "In Review")
    /\ (fst result = "Close" <-> ~ has "Open" /\ ~ has "In Review")
    /\ snd result
       = join " | "
           (flat_map
              (fun s =>
                 let n := List.length (with_status s warnings_group) in
                 if Nat.eqb n 0 then []
                 else [s ++ ": " ++ Py.str_of_int (Z.of_nat n)])
              ["Open"; "In Review"; "Close"]).
Proof.
  intros group result has. subst result. unfold get_group_status_summary.
  cbn [fst snd flat_map]. rewrite !count_of_fold. cbn [count_of Nat.add].
  pose proof (with_status_some "Open" group) as HO.
  pose proof (with_status_some "In Review" group) as HR.
  fold (has "Open") in HO. fold (has "In Review") in HR.
  assert (Hsum : forall s n,
            (if Nat.ltb 0 n then [s ++ ": " ++ Py.str_of_int (Z.of_nat n)] else [])
            = (if Nat.eqb n 0 then []
               else [s ++ ": " ++ Py.str_of_int (Z.of_nat n)]))
    by (intros s [|n]; reflexivity).
  rewrite !Hsum.
  destruct (Nat.ltb 0 (List.length (with_status "Open" group))) eqn:EO;
    [apply Nat.ltb_lt in EO | apply Nat.ltb_nlt in EO];
    (destruct (Nat.ltb 0 (List.length (with_status "In Review" group))) eqn:ER;
     [apply Nat.ltb_lt in ER | apply Nat.ltb_nlt in ER]).
  all: split; [|split; [|split; [|reflexivity]]].
  all: split; [intros H; try discriminate; tauto | intros H; try reflexivity; tauto].
Qed.

Lemma sorted_lt_NoDup l : StronglySorted lt l -> NoDup l.
Proof.
  induction 1 as [|a l Hs IH Ha]; constructor; [|exact IH].
  intros Hin. rewrite Forall_forall in Ha. specialize (Ha a Hin). lia.
Qed.

Lemma find_by_index_unique : forall l w,
  NoDup (map index l) -> In w l ->
  find (fun x => Nat.eqb (index x) (index w)) l = Some w.
Proof.
  induction l as [|x l IH]; intros w Hnd Hin; [destruct Hin|].
  cbn [map] in Hnd. inversion Hnd as [|y ys Hx Hnd']; subst.
  cbn [find]. destruct Hin as [-> | Hin].
  - rewrite Nat.eqb_refl. reflexivity.
  - destruct (Nat.eqb (index x) (index w)) eqn:E.
    + apply Nat.eqb_eq in E. contradiction Hx. rewrite E.
      apply in_map. exact Hin.
    + apply IH; assumption.
Qed.

(** X19.  The warnings of one parsed table have distinct indices, so the
    look-up by index that the tree uses finds, for every parsed warning, that
    very warning. *)
Theorem parsed_warning_found_by_its_index :
  forall now bs4_available html w,
    let warnings_data := fst (parse now bs4_available html) in
    In w warnings_data ->
    warning_by_index warnings_data (index w) = Some w.
Proof.
  intros now bs4 html w data Hin. unfold warning_by_index.
  apply find_by_index_unique; [|exact Hin].
  subst data. unfold parse in *.
  destruct bs4; cbn [negb fst] in *; [|constructor].
  destruct html as [|rows]; cbn [fst] in *; [constructor|].
  destruct (parse_rows_spec now (tl rows) 1 0 []) as [ws' [H1 [H2 _]]].
  rewrite H1. cbn [List.app]. rewrite H2.
  apply sorted_lt_NoDup. apply accepted_positions_sorted.
Qed.

End HandlerFacts2.

Section JournalTabFacts.
Import JournalParser EventHandlers MoreSpec.

Lemma filter_none {A : Type} (p : A -> bool) l :
  (forall x, In x l -> p x = false) -> filter p l = [].
Proof.
  induction l as [|x l IH]; intros H; [reflexivity|].
  cbn [filter]. rewrite (H x (or_introl eq_refl)). apply IH.
  intros y Hy. apply H. right. exact Hy.
Qed.

(** X20.  What the model selector shows of a parsed journal.  Under
    [All models], or with nothing selected, there is one row for every line of
    the file; under a name that is not in the list of models there is no row;
    and the content shown in a row never has more than 103 characters. *)
Theorem model_selector_rows :
  forall unquote lines selected_model,
    let doc := document_of unquote lines in
    let rows := filter_journal_by_model (Some doc) selected_model in
    Forall (fun v => String.length (snd v) <= 103) rows
    /\ (selected_model = "All models" \/ selected_model = "" ->
        List.length rows = List.length lines)
    /\ (selected_model <> "" -> ~ In selected_model (doc_models doc) -> rows = []).
Proof.
  intros unquote lines sel doc rows. subst rows. unfold filter_journal_by_model.
  split; [|split].
  - apply Forall_map, Forall_forall. intros l _. cbn [entry_values snd].
    apply (truncated_length 100).
  - assert (Hlen : List.length (doc_lines doc) = List.length lines).
    { pose proof (document_lines unquote lines) as H.
      symmetry. eapply Forall2_length. exact H. }
    intros [-> | ->]; cbn; rewrite length_map; exact Hlen.
  - intros Hne Hnot.
    assert (Hsel : Py.truthy sel && negb (String.eqb sel "All models") = true).
    { apply andb_true_intro. split.
      - unfold Py.truthy. destruct sel; [contradiction Hne; reflexivity | reflexivity].
      - destruct (String.eqb sel "All models") eqn:E; [|reflexivity].
        apply String.eqb_eq in E. contradiction Hnot. subst doc sel.
        unfold document_of. cbn [doc_models]. left. reflexivity. }
    rewrite Hsel. rewrite filter_none; [reflexivity|].
    intros l Hl. destruct (String.eqb (l_model l) sel) eqn:E; [|reflexivity].
    apply String.eqb_eq in E. contradiction Hnot. rewrite <- E.
    pose proof (document_model_members unquote lines) as H.
    rewrite Forall_forall in H. apply H. exact Hl.
Qed.

End JournalTabFacts.

Section GroupNodes.
Import HTMLParser EventHandlers HandlersSpec.

Lemma take_length_ge : forall n s,
  n <= String.length s -> String.length (Py.take n s) = n.
Proof.
  unfold Py.take. induction n as [|n IH]; intros s H.
  - destruct s; reflexivity.
  - destruct s as [|c s]; simpl in *; [lia|]. rewrite IH by lia. reflexivity.
Qed.

Lemma group_text_long m :
  80 < String.length m -> String.length (group_text m) = 83.
Proof.
  intros H. unfold group_text, JournalProblemFinder.truncated.
  rewrite length_append, take_length_ge by lia.
  apply Nat.ltb_lt in H. rewrite H. reflexivity.
Qed.

Lemma first_group_found : forall g text ws,
  first_group_with_text text g = Some ws ->
  exists k, In (k, ws) g /\ group_text k = text.
Proof.
  induction g as [|[k0 ws0] g IH]; intros text ws H; [discriminate|].
  cbn [first_group_with_text] in H. destruct (String.eqb (group_text k0) text) eqn:E.
  - injection H as <-. apply String.eqb_eq in E. exists k0. split; [left; reflexivity | exact E].
  - destruct (IH _ _ H) as [k [Hin Hk]]. exists k. split; [right; exact Hin | exact Hk].
Qed.

Lemma first_group_exists : forall g k ws,
  In (k, ws) g -> exists ws', first_group_with_text (group_text k) g = Some ws'.
Proof.
  induction g as [|[k0 ws0] g IH]; intros k ws Hin; [destruct Hin|].
  cbn [first_group_with_text].
  destruct (String.eqb (group_text k0) (group_text k)) eqn:E; [eexists; reflexivity|].
  destruct Hin as [H | H].
  - injection H as -> ->. rewrite String.eqb_refl in E. discriminate.
  - eapply IH. exact H.
Qed.

Lemma first_group_short : forall g k ws,
  NoDup (map fst g) -> In (k, ws) g -> String.length k <= 80 ->
  first_group_with_text (group_text k) g = Some ws.
Proof.
  induction g as [|[k0 ws0] g IH]; intros k ws Hnd Hin Hlen; [destruct Hin|].
  cbn [map fst] in Hnd. inversion Hnd as [|x l Hx Hnd']; subst.
  cbn [first_group_with_text].
  destruct (String.eqb (group_text k0) (group_text k)) eqn:E.
  - apply String.eqb_eq in E.
    assert (k0 = k) as ->.
    { destruct (Nat.le_gt_cases (String.length k0) 80) as [H0 | H0].
      - unfold group_text in E. rewrite !truncated_short in E by assumption. exact E.
      - apply group_text_long in H0. rewrite E in H0.
        unfold group_text in H0. rewrite truncated_short in H0 by exact Hlen. lia. }
    destruct Hin as [H | H]; [injection H as ->; reflexivity|].
    contradiction Hx. apply in_map_iff. exists (k, ws). split; [reflexivity | exact H].
  - destruct Hin as [H | H].
    + injection H as -> ->. rewrite String.eqb_refl in E. discriminate.
    + apply IH; assumption.
Qed.

Lemma first_group_split : forall g text ws,
  first_group_with_text text g = Some ws ->
  exists pre k post,
    g = (pre ++ (k, ws) :: post)%list
    /\ Forall (fun e => group_text (fst e) <> text) pre
    /\ group_text k = text.
Proof.
  induction g as [|[k0 ws0] g IH]; intros text ws H; [discriminate|].
  cbn [first_group_with_text] in H.
  destruct (String.eqb (group_text k0) text) eqn:E.
  - injection H as <-. apply String.eqb_eq in E.
    exists [], k0, g. repeat split; [constructor | exact E].
  - destruct (IH _ _ H) as [pre [k [post [-> [Hpre Hk]]]]].
    exists ((k0, ws0) :: pre), k, post. repeat split; [|exact Hk].
    constructor; [|exact Hpre]. cbn [fst]. apply String.eqb_neq. exact E.
Qed.

(** A group holds the warnings of its message, and at least one. *)
Lemma group_of_message warnings k ws :
  In (k, ws) (group_warnings_by_message warnings) ->
  ws = with_message k warnings /\ ws <> [].
Proof.
  intros Hin. destruct (grouping_invariant warnings) as [Hget [Hnd _]].
  pose proof (group_get_in _ k ws Hnd Hin) as H. rewrite Hget in H.
  destruct (with_message k warnings) eqn:E; [discriminate|].
  injection H as <-. split; [reflexivity | discriminate].
Qed.

Lemma groups_differ warnings k ws k' :
  In (k, ws) (group_warnings_by_message warnings) ->
  In (k', ws) (group_warnings_by_message warnings) ->
  k' = k.
Proof.
  intros H H'.
  destruct (group_of_message _ _ _ H) as [E Hne].
  destruct (group_of_message _ _ _ H') as [E' _].
  destruct ws as [|w ws]; [contradiction Hne; reflexivity|].
  assert (Hw : In w (with_message k warnings)) by (rewrite <- E; left; reflexivity).
  assert (Hw' : In w (with_message k' warnings)) by (rewrite <- E'; left; reflexivity).
  unfold with_message in Hw, Hw'. apply filter_In in Hw, Hw'.
  destruct Hw as [_ Hw]. destruct Hw' as [_ Hw'].
  apply String.eqb_eq in Hw, Hw'. congruence.
Qed.

(** X21.  A group node is found again by its text, the message cut at 80
    characters.  For a message of at most 80 characters the group returned is
    the group of that message.  In general a group is always returned: the
    first group of the dictionary whose message has the same cut text, which
    is the group the node stands for exactly when its message is that of the
    node.  It can be another one: of two messages that agree on their first 80
    characters, the node of the second gives the group of the first. *)
Theorem group_node_lookup :
  (forall self k ws,
      let grouped := group_warnings_by_message (get_filtered_data self) in
      In (k, ws) grouped ->
      (String.length k <= 80 -> group_from_tree_item self (group_text k) = Some ws)
      /\ (exists pre k' ws' post,
            grouped = (pre ++ (k', ws') :: post)%list
            /\ Forall (fun e => group_text (fst e) <> group_text k) pre
            /\ group_text k' = group_text k
            /\ group_from_tree_item self (group_text k) = Some ws'
            /\ (k' = k <-> ws' = ws)))
  /\ (let w1 := Warning 1 overlap_cut [] [] "Open" "" "" in
      let w2 := Warning 2 overlap_shorten [] [] "Open" "" "" in
      let self := App [w1; w2] None None in
      group_warnings_by_message (get_filtered_data self)
      = [(overlap_cut, [w1]); (overlap_shorten, [w2])]
      /\ group_text overlap_shorten = group_text overlap_cut
      /\ group_from_tree_item self (group_text overlap_shorten) = Some [w1]).
Proof.
  split.
  - intros self k ws grouped Hin. unfold group_from_tree_item. fold grouped. split.
    + intros Hlen. apply first_group_short; [|exact Hin | exact Hlen].
      apply (grouping_invariant (get_filtered_data self)).
    + destruct (first_group_exists grouped k ws Hin) as [ws' Hf].
      destruct (first_group_split _ _ _ Hf) as [pre [k' [post [Hg [Hpre Hk']]]]].
      exists pre, k', ws', post.
      split; [exact Hg|]. split; [exact Hpre|]. split; [exact Hk'|].
      split; [exact Hf|].
      assert (Hin' : In (k', ws') grouped)
        by (rewrite Hg; apply in_or_app; right; left; reflexivity).
      split.
      * intros ->.
        pose proof (group_get_in grouped k ws
                      (proj1 (proj2 (grouping_invariant (get_filtered_data self))))
                      Hin) as G.
        pose proof (group_get_in grouped k ws'
                      (proj1 (proj2 (grouping_invariant (get_filtered_data self))))
                      Hin') as G'.
        congruence.
      * intros ->. exact (groups_differ _ _ _ _ Hin Hin').
  - cbv zeta. split; [vm_compute; reflexivity|].
    split; vm_compute; reflexivity.
Qed.

End GroupNodes.

Section HeaderFacts.
Import JournalParser JournalSpec MoreSpec.

Variable unquote : string -> string.

Lemma dict_get_set k v : forall d k',
  Py.dict_get k' (Py.dict_set k v d)
  = if String.eqb k' k then Some v else Py.dict_get k' d.
Proof.
  induction d as [|[k0 v0] d IH]; intros k'.
  - cbn [Py.dict_set Py.dict_get]. destruct (String.eqb k' k); reflexivity.
  - cbn [Py.dict_set Py.dict_get]. destruct (String.eqb k k0) eqn:E.
    + apply String.eqb_eq in E. subst k0. cbn [Py.dict_get].
      destruct (String.eqb k' k); reflexivity.
    + cbn [Py.dict_get]. destruct (String.eqb k' k0) eqn:E0.
      * apply String.eqb_eq in E0. subst k0.
        rewrite String.eqb_sym, E. reflexivity.
      * apply IH.
Qed.

Lemma dict_set_keys k v : forall d,
  map fst (Py.dict_set k v d)
  = if existsb (String.eqb k) (map fst d) then map fst d
    else (map fst d ++ [k])%list.
Proof.
  induction d as [|[k0 v0] d IH]; [reflexivity|].
  cbn [Py.dict_set map fst existsb]. destruct (String.eqb k k0) eqn:E; cbn [orb map fst].
  - apply String.eqb_eq in E. subst k0. reflexivity.
  - rewrite IH. destruct (existsb _ _); reflexivity.
Qed.

Lemma dict_set_header_ok k v d :
  In k ["build"; "branch"; "release"; "username"] ->
  header_ok d -> header_ok (Py.dict_set k v d).
Proof.
  intros Hk [Hnd Hall]. unfold header_ok. rewrite dict_set_keys.
  destruct (existsb (String.eqb k) (map fst d)) eqn:E; [split; assumption|].
  split.
  - apply NoDup_app_remove_l with (l := []). cbn [app].
    apply NoDup_app; [exact Hnd | repeat constructor; intros [] |].
    intros x Hx [<- | []].
    assert (existsb (String.eqb k) (map fst d) = true); [|congruence].
    apply existsb_exists. exists k. split; [exact Hx | apply String.eqb_refl].
  - apply Forall_app. split; [exact Hall | constructor; [exact Hk | constructor]].
Qed.

Lemma header_step_ok d line : header_ok d -> header_ok (header_step d line).
Proof.
  intros H. unfold header_step.
  repeat match goal with
         | |- context [if ?b then _ else _] => destruct b
         | |- context [match Re.search ?r ?s with _ => _ end] => destruct (Re.search r s)
         end;
    try exact H; apply dict_set_header_ok; cbn; tauto.
Qed.

Lemma fold_mstep_header lines : forall st,
  header_ok (header_info st) ->
  header_ok (header_info (fold_left (mstep unquote) lines st)).
Proof.
  induction lines as [|raw lines IH]; intros st H; [exact H|].
  cbn [fold_left]. apply IH. unfold mstep. cbn [header_info].
  apply header_step_ok. exact H.
Qed.

(** X22.  The header of a document has at most the four keys build, branch,
    release and username, each once.  Its username is decided by the last
    line that sets it: when that line contains [Username] without the quoted
    name, the username is Unknown, whatever an earlier line gave. *)
Theorem header_keys_and_unknown_username :
  forall lines,
    header_ok (doc_header (document_of unquote lines))
    /\ (forall raw,
          let line := Py.strip raw in
          Py.contains "Build:" line = false ->
          Py.contains "Branch:" line = false ->
          Py.contains "Release:" line = false ->
          Py.contains "Username" line = true ->
          Re.search username_re line = None ->
          Py.dict_get "username"
            (doc_header (document_of unquote (lines ++ [raw])))
          = Some "Unknown").
Proof.
  intros lines. split.
  - unfold document_of. cbn [doc_header]. apply fold_mstep_header.
    split; constructor.
  - intros raw line Hb Hbr Hr Hu Hs. unfold document_of. cbn [doc_header].
    rewrite fold_left_app. cbn [fold_left]. unfold mstep at 1. cbn [header_info].
    fold line. unfold header_step. rewrite Hb, Hbr, Hr, Hu, Hs.
    rewrite dict_get_set. reflexivity.
Qed.

End HeaderFacts.

Section FallThrough.
Import JournalParser JournalSpec MoreSpec.

Variable unquote : string -> string.




End FallThrough.

(* ================================================================== *)
(** * The further properties at concrete inputs *)
(* ================================================================== *)

Section MoreInstances.
Import JournalParser JournalSpec MoreSpec.

Lemma flat_timestamps_nonempty_after_first_witness :
  let before := ["no-timestamp-here"] in
  let raw := "'C 01-Jan-2024 10:00:00.000; x" in
  let after := ["Jrn.Data later"] in
  let entries := parse_lines unquote_plain (before ++ raw :: after) in
  (Forall (fun r => line_token r = None) before /\ line_token raw <> None)
  /\ Forall (fun e => timestamp e = "") (firstn (List.length before) entries)
  /\ Forall (fun e => timestamp e <> "") (skipn (List.length before) entries).
Proof.
  intros before raw after entries.
  assert (Hb : Forall (fun r => line_token r = None) before)
    by (repeat constructor).
  assert (Hr : line_token raw <> None) by (vm_compute; discriminate).
  split; [split; assumption|].
  exact (flat_timestamps_nonempty_after_first unquote_plain before raw after Hb Hr).
Defined.

(** The label of an overridden [Jrn.Command] line turns up on the next Command
    entry. *)
Lemma flat_pending_label_witness :
  let first := "Jrn.Command " ++ dq ++ "Ribbon" ++ dq ++ " , " ++ dq ++ "Save" ++ dq
               ++ " API_ERROR" in
  let second := "Jrn.Command Undo" in
  let st := run_lines unquote_plain [first] in
  let e := Entry Command second "" "Ribbon: Save" None in
  map category (parsed_data st) = [Error]
  /\ parsed_data (step unquote_plain st second) = (parsed_data st ++ [e])%list
  /\ Re.search command_re (Py.strip second) = None
  /\ command e = current_command st.
Proof.
  intros first second st e.
  assert (He : parsed_data (step unquote_plain st second) = (parsed_data st ++ [e])%list)
    by (vm_compute; reflexivity).
  assert (Hs : Re.search command_re (Py.strip second) = None)
    by (vm_compute; reflexivity).
  split; [vm_compute; reflexivity|]. split; [exact He|]. split; [exact Hs|].
  exact (proj2 (proj2 (flat_pending_label unquote_plain st second e He)) eq_refl Hs).
Defined.

(** A file whose bytes read differently under utf-8 and under the other
    encodings: both parsers keep the lines read under utf-8. *)
Lemma flat_mode_reads_under_utf8_only_witness :
  let f : file := fun encoding =>
    if String.eqb encoding "utf-8"
    then ReadOk ["'C 01-Jan-2024 10:00:00.000; x"]
    else ReadOk ["'C 01-Jan-2024 10:00:00.000; y"] in
  replaces_errors f
  /\ parse_journal unquote_plain f
     = (parse_lines unquote_plain ["'C 01-Jan-2024 10:00:00.000; x"], [])
  /\ parse_journal_with_models unquote_plain f
     = Return (Some (document_of unquote_plain ["'C 01-Jan-2024 10:00:00.000; x"])).
Proof.
  intros f.
  assert (Hf : replaces_errors f).
  { intros encoding m. unfold f. destruct (String.eqb encoding "utf-8"); discriminate. }
  split; [exact Hf|].
  destruct (flat_mode_reads_under_utf8_only unquote_plain f Hf) as [H1 H2].
  split; [exact H1|].
  refine (H2 [] "utf-8" ["latin-1"; "cp1252"; "iso-8859-1"] _ eq_refl _ eq_refl).
  intros encoding [].
Defined.

Lemma other_exception_stops_flat_mode_only_witness :
  let f : file := fun encoding =>
    if String.eqb encoding "utf-8"
    then ReadFail (OtherException "Permission denied")
    else ReadOk ["'C 01-Jan-2024 10:00:00.000; x"] in
  parse_journal unquote_plain f
  = ([], [("Journal Parsing Error",
           "Failed to parse journal file:" ++ newline ++ "Permission denied")])
  /\ parse_journal_with_models unquote_plain f
     = Return (Some (document_of unquote_plain ["'C 01-Jan-2024 10:00:00.000; x"])).
Proof.
  intros f.
  refine (other_exception_stops_flat_mode_only unquote_plain f [] "utf-8" []
            "latin-1" ["cp1252"; "iso-8859-1"] "Permission denied" _
            eq_refl _ eq_refl _ eq_refl).
  - intros encoding [].
  - intros encoding [].
Defined.

Lemma header_keys_and_unknown_username_witness :
  let lines := ["Jrn.Data Username , " ++ dq ++ "bob" ++ dq] in
  let raw := "' the Username was not recorded" in
  Py.dict_get "username" (doc_header (document_of unquote_plain lines)) = Some "bob"
  /\ Py.dict_get "username"
       (doc_header (document_of unquote_plain (lines ++ [raw])))
     = Some "Unknown".
Proof.
  intros lines raw. split; [vm_compute; reflexivity|].
  refine (proj2 (header_keys_and_unknown_username unquote_plain lines) raw _ _ _ _ _);
    vm_compute; reflexivity.
Defined.

End MoreInstances.

Section MoreInstances2.
Import HTMLParser EventHandlers HandlersSpec.

Lemma parsed_warning_found_by_its_index_witness :
  let rows := [[]; [Cell "note" []];
               [Cell "Wall join error" []; Cell "" ["<elem A> id 123"]]] in
  let w := Warning 2 "Wall join error" ["<elem A> id 123"] ["123"] "Open" "" "" in
  let warnings_data := fst (parse (fun _ => "") true (Table rows)) in
  In w warnings_data /\ warning_by_index warnings_data 2 = Some w.
Proof.
  intros rows w data.
  assert (Hin : In w data) by (left; reflexivity).
  split; [exact Hin|].
  exact (parsed_warning_found_by_its_index (fun _ => "") true (Table rows) w Hin).
Defined.

Lemma group_node_lookup_witness :
  let w1 := Warning 1 overlap_cut [] [] "Open" "" "" in
  let w2 := Warning 2 overlap_shorten [] [] "Open" "" "" in
  let self := App [w1; w2] None None in
  let grouped := group_warnings_by_message (get_filtered_data self) in
  (In (overlap_shorten, [w2]) grouped /\ 80 < String.length overlap_shorten)
  /\ group_from_tree_item self (group_text overlap_shorten) = Some [w1]
  /\ exists pre k' ws' post,
       grouped = (pre ++ (k', ws') :: post)%list
       /\ Forall (fun e => group_text (fst e) <> group_text overlap_shorten) pre
       /\ group_text k' = group_text overlap_shorten
       /\ group_from_tree_item self (group_text overlap_shorten) = Some ws'
       /\ (k' = overlap_shorten <-> ws' = [w2]).
Proof.
  intros w1 w2 self grouped.
  assert (Hin : In (overlap_shorten, [w2]) grouped) by (right; left; reflexivity).
  split; [split; [exact Hin | vm_compute; lia]|].
  split; [vm_compute; reflexivity|].
  exact (proj2 (proj1 group_node_lookup self overlap_shorten [w2] Hin)).
Defined.

End MoreInstances2.

Section MoreInstances3.
Import WorkerLogParser.

Lemma worker_entries_have_timestamp_and_message_witness :
  let lines := ["2024-01-01 INFO hello world"; "malformed line"; "a  b"] in
  let entries := [Entry "2024-01-01" "INFO" "hello world"; Entry "a" "" "b"] in
  parse_worker_log (Lines lines) = Some entries
  /\ Forall (fun e => timestamp e <> "" /\ message e <> "") entries
  /\ List.length entries <= List.length lines.
Proof.
  intros lines entries.
  assert (H : parse_worker_log (Lines lines) = Some entries) by reflexivity.
  split; [exact H|].
  exact (worker_entries_have_timestamp_and_message lines entries H).
Defined.

End MoreInstances3.

Section MoreInstances4.
Import JournalProblemFinder.

Lemma problems_are_of_four_bounded_kinds_witness :
  let file_content := "Loading failed" ++ JournalParser.newline ++ "RAM: Used +600 MB" in
  let problems :=
    [Problem "Unknown" "Error" "Journal" "Loading failed";
     Problem "Unknown" "Resource Spike" "Memory Usage" "RAM spike of 600 MB detected"] in
  find_problems Py.default_max_str_digits default file_content = Some problems
  /\ Forall
       (fun p =>
          (type p = "Error" /\ source p = "Journal"
           /\ String.length (description p) <= 153)
          \/ (type p = "API Warning" /\ source p = "Revit API"
              /\ String.length (description p) <= 153)
          \/ (type p = "Performance" /\ source p = "Geometry"
              /\ String.length (description p) <= 151)
          \/ (type p = "Resource Spike" /\ source p = "Memory Usage"))
       problems
  /\ List.length problems <= 4 * List.length (Py.splitlines file_content).
Proof.
  intros file_content problems.
  assert (H : find_problems Py.default_max_str_digits default file_content
              = Some problems) by (vm_compute; reflexivity).
  split; [exact H|].
  destruct (problems_are_of_four_bounded_kinds Py.default_max_str_digits default
              file_content problems H) as [H1 [H2 _]].
  split; [exact H1 | exact H2].
Defined.

Lemma problems_before_first_anchor_are_unknown_witness :
  let before := ["Loading failed"] in
  let after := ["'C 01-Jan-2024 10:00:00.000; x"; "cannot open"] in
  let early := [Problem "Unknown" "Error" "Journal" "Loading failed"] in
  Forall (fun line => Re.re_match TIMESTAMP line = None) before
  /\ scan Py.default_max_str_digits default before ([], None) = Some (early, None)
  /\ Forall (fun p => timestamp p = "Unknown") early
  /\ option_map (fun st => map timestamp (fst st))
       (scan Py.default_max_str_digits default (before ++ after) ([], None))
     = Some ["Unknown"; "01-Jan-2024 10:00:00.000"].
Proof.
  intros before after early.
  assert (Hb : Forall (fun line => Re.re_match TIMESTAMP line = None) before)
    by (repeat constructor).
  assert (Hs : scan Py.default_max_str_digits default before ([], None)
               = Some (early, None)) by (vm_compute; reflexivity).
  split; [exact Hb|]. split; [exact Hs|].
  split; [|vm_compute; reflexivity].
  exact (proj1 (problems_before_first_anchor_are_unknown Py.default_max_str_digits
                  default before after early None Hb Hs)).
Defined.

End MoreInstances4.
